(** * Satellite tracking: frequency and rotor control loop

    A shallow embedding of the tracking core of [satellites.py]:
    transponder loading ([SATELLITE.get_transponders]), Doppler scaling
    ([SATELLITE.Doppler_Shifts]), the antenna flip decision of
    [plot_sky_track], and the periodic rig controller
    ([RigControl.Updater], [RigControl.track_freqs]).

    Conventions.  Python [int] is [Z].  A Python [float] is a rational
    [Q] (no NaN, no infinities); equality of floats is therefore [Qeq],
    written [==].  [int(x)] on a float is truncation toward zero.  Strings
    are [string] over ASCII, and [str.upper] maps the letters a-z only.

    The controller is given twice.  The first embedding idealises float
    arithmetic as exact.  The second one, whose names end in [_f64],
    rounds the result of every float operation to a double; the
    statements about commanded frequencies, where one rounding can move
    the truncated value by 1 Hz, are made about it. *)

From Stdlib Require Import ZArith QArith Qround Qabs Qpower Lqa Lia Bool List String Ascii.
From stdpp Require Import gmap strings.
Import ListNotations.

Local Open Scope Z_scope.
Local Open Scope Q_scope.
Local Open Scope string_scope.

(** ** Python numbers *)

(** [int(x)] for a float [x]: truncation toward zero. *)
Definition int_of_float (x : Q) : Z := Z.quot (Qnum x) (Zpos (Qden x)).

(** [x < y] and [x > y] on floats, as booleans. *)
Definition Qltb (x y : Q) : bool := negb (Qle_bool y x).
Definition Qgtb (x y : Q) : bool := Qltb y x.

(** [min(a, b)] and [max(a, b)]: Python returns the first argument unless
    the second is strictly smaller (resp. strictly larger). *)
Definition py_min (a b : Q) : Q := if Qltb b a then b else a.
Definition py_max (a b : Q) : Q := if Qgtb b a then b else a.

(** [abs(x)] *)
Definition py_abs (x : Q) : Q := if Qltb x 0 then - x else x.

(** Module constants of [satellites.py]. *)
Definition ROTOR_THRESH : Q := 10.
Definition RIT_DELTA : Z := 100.
Definition XIT_DELTA : Z := 100.

(** ** Python strings *)

(** [c.upper()] for an ASCII character. *)
Definition upper_ascii (c : ascii) : ascii :=
  let n := nat_of_ascii c in
  if (Nat.leb 97 n && Nat.leb n 122)%bool then ascii_of_nat (n - 32) else c.

(** [s.upper()] *)
Fixpoint upper (s : string) : string :=
  match s with
  | EmptyString => EmptyString
  | String c s' => String (upper_ascii c) (upper s')
  end.

(** [needle in hay] on strings: [needle] occurs as a contiguous substring. *)
Fixpoint isin (needle hay : string) : bool :=
  (String.prefix needle hay ||
   match hay with
   | EmptyString => false
   | String _ hay' => isin needle hay'
   end)%bool.

(** Truthiness of an optional string ([None] and [''] are falsy). *)
Definition truthy (o : option string) : bool :=
  match o with
  | Some s => negb (String.eqb s "")
  | None => false
  end.

(** ** Exceptions *)

Inductive exn : Set :=
| KeyError
| ValueError
| IndexError
| AttributeError
| TypeError
| SystemExit.

(** ** SATELLITE.get_transponders *)

(** Values stored in a transponder's [items] dict: the raw strings of the
    configuration file, and the integers and the flag added by the loader. *)
Inductive pyval : Type :=
| VStr (s : string)
| VInt (n : Z)
| VBool (b : bool).

(** The transponder as the tracker reads it from the [items] dict. *)
Record Transp : Type := mkTransp {
  fdn1 : Z;
  fdn2 : Z;
  fup1 : Z;
  fup2 : Z;
  Inverting : bool;
  mode : string
}.

(** A decimal reading of [int(s)] used to run the loader on examples:
    an optional sign followed by one or more digits. *)
Definition digit_of (c : ascii) : option Z :=
  let n := nat_of_ascii c in
  if (Nat.leb 48 n && Nat.leb n 57)%bool then Some (Z.of_nat (n - 48)) else None.

Fixpoint digits_from (acc : Z) (s : string) : option Z :=
  match s with
  | EmptyString => Some acc
  | String c s' =>
      match digit_of c with
      | Some d => digits_from (10 * acc + d)%Z s'
      | None => None
      end
  end.

Definition unsigned_decimal (s : string) : option Z :=
  match s with
  | EmptyString => None
  | _ => digits_from 0%Z s
  end.

Definition parse_decimal (s : string) : option Z :=
  match s with
  | String "-" s' => option_map Z.opp (unsigned_decimal s')
  | String "+" s' => unsigned_decimal s'
  | _ => unsigned_decimal s
  end.

(** ** Results of code that may raise *)

Inductive res (A : Type) : Type :=
| Ok (a : A)
| Raise (e : exn).
Arguments Ok {A} a.
Arguments Raise {A} e.

Definition res_bind {A B : Type} (r : res A) (k : A -> res B) : res B :=
  match r with
  | Ok a => k a
  | Raise e => Raise e
  end.

Notation "x <-? r ; k" := (res_bind r (fun x => k))
  (at level 200, r at level 100, k at level 200, right associativity).

(** [d[key]] on a dict: [KeyError] when the key is absent. *)
Definition getitem {V : Type} (d : gmap string V) (key : string) : res V :=
  match d !! key with
  | Some v => Ok v
  | None => Raise KeyError
  end.

(** [key in d] *)
Definition haskey {V : Type} (d : gmap string V) (key : string) : bool :=
  match d !! key with
  | Some _ => true
  | None => false
  end.

(** [a == b] on stored values (a string never equals a number). *)
Definition pyval_eqb (a b : pyval) : bool :=
  match a, b with
  | VStr s, VStr t => String.eqb s t
  | VInt n, VInt m => Z.eqb n m
  | VBool x, VBool y => Bool.eqb x y
  | VInt n, VBool y => Z.eqb n (if y then 1 else 0)%Z
  | VBool x, VInt m => Z.eqb (if x then 1 else 0)%Z m
  | _, _ => false
  end.

(** Truthiness of a stored value. *)
Definition pyval_truthy (v : pyval) : bool :=
  match v with
  | VStr s => negb (String.eqb s "")
  | VInt n => negb (Z.eqb n 0)
  | VBool b => b
  end.

(** An [OrderedDict] keyed by section name: assignment to a present key
    replaces the value in place, assignment to a new key appends. *)
Fixpoint od_set {V : Type} (key : string) (v : V) (d : list (string * V))
  : list (string * V) :=
  match d with
  | [] => [(key, v)]
  | (k, w) :: d' =>
      if String.eqb k key then (k, v) :: d' else (k, w) :: od_set key v d'
  end.

Fixpoint od_get {V : Type} (d : list (string * V)) (key : string) : res V :=
  match d with
  | [] => Raise KeyError
  | (k, w) :: d' => if String.eqb k key then Ok w else od_get d' key
  end.

Section Loader.

(** The builtin [int(s)] on a string; [None] stands for [ValueError]. *)
Variable py_int : string -> option Z.

Definition int_of_val (v : pyval) : res Z :=
  match v with
  | VStr s => match py_int s with Some n => Ok n | None => Raise ValueError end
  | VInt n => Ok n
  | VBool b => Ok (if b then 1 else 0)%Z
  end.

(** The body of the loop of [get_transponders] up to the search for the
    main transponder: the [items] dict of one section, completed with
    [fdn1], [fdn2], [fup1], [fup2] and [Inverting]. *)
Definition parse_items (raw : gmap string string) : res (gmap string pyval) :=
  let items : gmap string pyval := VStr <$> raw in
  down_low <-? getitem items "down_low";
  n <-? int_of_val down_low;
  let items := <["fdn1" := VInt n]> items in
  items <-? (if haskey items "down_high" then
               v <-? getitem items "down_high";
               n <-? int_of_val v;
               Ok (<["fdn2" := VInt n]> items)
             else
               v <-? getitem items "fdn1";
               Ok (<["fdn2" := v]> items));
  items <-? (if haskey items "up_low" then
               v <-? getitem items "up_low";
               n <-? int_of_val v;
               Ok (<["fup1" := VInt n]> items)
             else
               Ok (<["fup1" := VInt 0]> items));
  items <-? (if haskey items "up_high" then
               v <-? getitem items "up_high";
               n <-? int_of_val v;
               Ok (<["fup2" := VInt n]> items)
             else
               v <-? getitem items "fup1";
               Ok (<["fup2" := v]> items));
  let items := <["Inverting" := VBool false]> items in
  items <-? (if haskey items "invert" then
               v <-? getitem items "invert";
               if pyval_eqb v (VStr "true")
               then Ok (<["Inverting" := VBool true]> items)
               else Ok items
             else Ok items);
  inv <-? getitem items "Inverting";
  if (pyval_truthy inv && false)%bool then
    tmp <-? getitem items "fup2";
    v <-? getitem items "fup1";
    let items := <["fup2" := v]> items in
    Ok (<["fup1" := tmp]> items)
  else Ok items.

(** The name tests of the search for the main transponder, on the
    upper-cased section name. *)
Definition excluded (transp2 : string) : bool :=
  (isin "PE0SAT" transp2 || isin "L/V" transp2)%bool.

Definition fits_criteria (transp2 : string) : bool :=
  (isin "FM VOICE" transp2 || String.eqb "MODE U/V (B) LIN" transp2 ||
   String.eqb "MODE U/V LINEAR" transp2 || String.eqb "MODE V/U FM" transp2 ||
   isin "TRANSPONDER" transp2 || isin "TRANSPODER" transp2)%bool.

(** What the loop of [get_transponders] carries: [self.main],
    [self.transponders] and the number of warnings printed. *)
Record loader : Type := mkLoader {
  ld_main : option string;
  ld_transponders : list (string * gmap string pyval);
  ld_warnings : nat
}.

Definition loader_init : loader :=
  {| ld_main := None; ld_transponders := []; ld_warnings := 0 |}.

(** The search for the main transponder at one section. *)
Definition flag_main (transp : string) (st : loader) : loader :=
  let transp2 := upper transp in
  if excluded transp2 then st
  else if fits_criteria transp2 then
    if negb (truthy (ld_main st))
    then {| ld_main := Some transp;
            ld_transponders := ld_transponders st;
            ld_warnings := ld_warnings st |}
    else {| ld_main := ld_main st;
            ld_transponders := ld_transponders st;
            ld_warnings := S (ld_warnings st) |}
  else st.

(** One iteration of the loop over [config.sections()]. *)
Definition load_section (st : loader) (sec : string * gmap string string)
  : res loader :=
  let '(transp, raw) := sec in
  items <-? parse_items raw;
  let st := flag_main transp st in
  _ <-? getitem items "mode";
  Ok {| ld_main := ld_main st;
        ld_transponders := od_set transp items (ld_transponders st);
        ld_warnings := ld_warnings st |}.

Fixpoint load_sections (st : loader) (secs : list (string * gmap string string))
  : res loader :=
  match secs with
  | [] => Ok st
  | sec :: secs' => st' <-? load_section st sec; load_sections st' secs'
  end.

(** [get_transponders], from the sections of the transponder file in file
    order. *)
Definition get_transponders (secs : list (string * gmap string string))
  : res loader :=
  load_sections loader_init secs.

End Loader.

(** The search for the main transponder described in words.  [contains
    needle hay]: [needle] occurs in [hay].  [main_candidate name]: the
    upper-cased name contains neither "PE0SAT" nor "L/V", and it contains
    "FM VOICE", "TRANSPONDER" or "TRANSPODER" or is one of the three
    linear-transponder labels. *)
Definition contains (needle hay : string) : Prop :=
  exists pre post : string, hay = pre ++ needle ++ post.

Definition main_candidate (name : string) : Prop :=
  let n := upper name in
  ~ (contains "PE0SAT" n \/ contains "L/V" n) /\
  (contains "FM VOICE" n \/ contains "TRANSPONDER" n \/ contains "TRANSPODER" n \/
   n = "MODE U/V (B) LIN" \/ n = "MODE U/V LINEAR" \/ n = "MODE V/U FM").

(** The name test of [flag_main] as one boolean. *)
Definition candidate (name : string) : bool :=
  (negb (excluded (upper name)) && fits_criteria (upper name))%bool.

(** The fields the tracker reads from a loaded [items] dict. *)
Definition as_int (v : pyval) : option Z :=
  match v with VInt n => Some n | _ => None end.
Definition as_bool (v : pyval) : option bool :=
  match v with VBool b => Some b | _ => None end.
Definition as_str (v : pyval) : option string :=
  match v with VStr s => Some s | _ => None end.

Definition transp_of_items (items : gmap string pyval) : option Transp :=
  a ← items !! "fdn1" ≫= as_int;
  b ← items !! "fdn2" ≫= as_int;
  c ← items !! "fup1" ≫= as_int;
  d ← items !! "fup2" ≫= as_int;
  i ← items !! "Inverting" ≫= as_bool;
  m ← items !! "mode" ≫= as_str;
  Some (mkTransp a b c d i m).

(** A satellite as the controller uses it. *)
Record SATELLITE : Type := mkSat {
  sat_main : option string;
  sat_transponders : list (string * gmap string pyval)
}.

(** ** SATELLITE.Doppler_Shifts *)

(** What [predict.observe] reports at the current time. *)
Record observation : Type := mkObs {
  doppler : Q;
  azimuth : Q;
  elevation : Q
}.

(** [Doppler_Shifts(fdown, fup)] returns [[fdop1, fdop2, az, el]]. *)
Definition Doppler_Shifts (obs : observation) (fdown fup : Q) : Q * Q * Q * Q :=
  let dop100 := doppler obs in
  let fdop1 := (1 # 100000000) * dop100 * fdown in
  let fdop2 := - (1 # 100000000) * dop100 * fup in
  let az := azimuth obs in
  let el := elevation obs in
  (fdop1, fdop2, az, el).

(** ** The flip decision of plot_sky_track *)

Definition quad2 (a : Q) : bool := (Qgtb a 90 && Qltb a 180)%bool.
Definition quad3 (a : Q) : bool := (Qgtb a 180 && Qltb a 270)%bool.

(** [any(l)] *)
Definition any (l : list bool) : bool := existsb (fun b => b) l.

(** The loop over the samples that follows [min2] and [max3]. *)
Fixpoint min2_max3 (az : list Q) (min2 max3 : Q) : Q * Q :=
  match az with
  | [] => (min2, max3)
  | a :: az' =>
      if quad2 a then min2_max3 az' (py_min min2 a) max3
      else if quad3 a then min2_max3 az' min2 (py_max max3 a)
      else min2_max3 az' min2 max3
  end.

Definition THRESH : Q := 15.

(** The value of [self.flipper] that [plot_sky_track] leaves for a track
    with azimuth samples [az]. *)
Definition flip_decision (az : list Q) : bool :=
  let q2 := map quad2 az in
  let q3 := map quad3 az in
  let flipper := (any q2 && any q3)%bool in
  if flipper then
    let '(min2, max3) := min2_max3 az 360 0 in
    if (Qltb max3 (180 + THRESH) || Qgtb min2 (180 - THRESH))%bool
    then false
    else flipper
  else flipper.

(** The track has a sample in the quadrant [q]. *)
Definition visits (q : Q -> bool) (az : list Q) : bool := existsb q az.

(** The largest and the smallest element of a list, if it has one. *)

Fixpoint maximum (l : list Q) : option Q :=
  match l with
  | [] => None
  | a :: l' =>
      match maximum l' with
      | None => Some a
      | Some m => Some (if Qgtb m a then m else a)
      end
  end.

Fixpoint minimum (l : list Q) : option Q :=
  match l with
  | [] => None
  | a :: l' =>
      match minimum l' with
      | None => Some a
      | Some m => Some (if Qltb m a then m else a)
      end
  end.

(** The maximum azimuth observed in quadrant 3 and the minimum azimuth
    observed in quadrant 2. *)
Definition max_quadrant3_az (az : list Q) : option Q := maximum (List.filter quad3 az).
Definition min_quadrant2_az (az : list Q) : option Q := minimum (List.filter quad2 az).

(** The flip decision described in words: the track visits both
    quadrants, unless the maximum azimuth in quadrant 3 is below
    [180 + 15] or the minimum azimuth in quadrant 2 is above [180 - 15]. *)
Definition flip_required_spec (az : list Q) : bool :=
  if (visits quad2 az && visits quad3 az)%bool then
    match min_quadrant2_az az, max_quadrant3_az az with
    | Some min2, Some max3 =>
        if (Qltb max3 (180 + 15) || Qgtb min2 (180 - 15))%bool then false else true
    | _, _ => true
    end
  else false.

(** ** The controller state *)

(** The fields of the GUI object that the controller reads and writes. *)
Record gui_state : Type := mkGui {
  Selected : option string;
  New_Sat_Selection : bool;
  rig_engaged : bool;
  flipper : bool;
  rit : Z;
  xit : Z;
  track_az : list Q;
  aos : Q;
  los : Q;
  Satellites : list (string * SATELLITE)
}.

(** The attributes of [RigControl].  An attribute that [__init__] does not
    create is [None] until its first assignment; [fdown] is created holding
    Python's [None]. *)
Record rig_control : Type := mkCtrl {
  frqA : Z;
  frqB : option Z;
  fdown : option Q;
  fup : option Q;
  fdop1 : option Q;
  satellite : option SATELLITE;
  transp : option Transp;
  vfos : option (list string)
}.

(** What the devices and the orbit predictor answer during one call. *)
Record tick_env : Type := mkEnv {
  rig_type2 : option string;
  USE_SDR : bool;
  rotor_active : bool;
  rotor_position : Q * Q;
  vfo_reading : Z;
  get_band : Q -> string;
  obs : observation;
  now : Q
}.

(** One line of [/tmp/satellites.log]; the rotor columns are [None] where
    the code writes [nan]. *)
Record log_row : Type := mkRow {
  row_selected : option string;
  row_fup : Q;
  row_fdown : Q;
  row_df : Q;
  row_fdop1 : Q;
  row_fdop2 : Q;
  row_frqA : Z;
  row_frqB : Z;
  row_az : Q;
  row_el : Q;
  row_pos : option (Q * Q);
  row_new_pos : Q * Q;
  row_daz : option Q;
  row_de : option Q;
  row_flipper : bool;
  row_engaged : bool;
  row_rotor_updated : bool
}.

(** The text of the AOS/LOS indicator: "AOS in", "LOS in" or "Past Event". *)
Inductive aos_los : Type :=
| AOS_in (dt : Q)
| LOS_in (dt : Q)
| Past_Event.

(** The calls on the devices, the log and the AOS/LOS indicator, in the
    order they are made. *)
Inductive event : Type :=
| split_mode (on : Z)
| sat_mode (on : Z)
| select_vfo (v : string)
| set_mode (m : string) (VFO : string) (Filter : option string)
| set_freq (khz : Q) (VFO : string)
| sdr_set_freq (khz : Q)
| set_position (new_pos : Q * Q)
| recorder (on : bool)
| log_write (row : log_row)
| txt9 (t : aos_los).

Record world : Type := mkWorld {
  w_gui : gui_state;
  w_ctrl : rig_control;
  w_trace : list event
}.

(** ** A state and exception monad for the controller *)

Definition M (A : Type) : Type := world -> res A * world.

Definition ret {A : Type} (a : A) : M A := fun w => (Ok a, w).

Definition bind {A B : Type} (m : M A) (k : A -> M B) : M B :=
  fun w =>
    match m w with
    | (Ok a, w') => k a w'
    | (Raise e, w') => (Raise e, w')
    end.

Definition raise {A : Type} (e : exn) : M A := fun w => (Raise e, w).

Notation "x <-! m ; k" := (bind m (fun x => k))
  (at level 200, m at level 100, k at level 200, right associativity).
Notation "m ;! k" := (bind m (fun _ => k))
  (at level 200, k at level 200, right associativity).

Definition get_gui : M gui_state := fun w => (Ok (w_gui w), w).
Definition get_ctrl : M rig_control := fun w => (Ok (w_ctrl w), w).

Definition put_gui (g : gui_state) : M unit :=
  fun w => (Ok tt, mkWorld g (w_ctrl w) (w_trace w)).
Definition put_ctrl (c : rig_control) : M unit :=
  fun w => (Ok tt, mkWorld (w_gui w) c (w_trace w)).

Definition emit (e : event) : M unit :=
  fun w => (Ok tt, mkWorld (w_gui w) (w_ctrl w) (w_trace w ++ [e])).

(** Reading an attribute that may not exist yet. *)
Definition attr {A : Type} (f : rig_control -> option A) : M A :=
  c <-! get_ctrl;
  match f c with
  | Some a => ret a
  | None => raise AttributeError
  end.

(** [l[i]] *)
Definition index {A : Type} (l : list A) (i : nat) : M A :=
  match nth_error l i with
  | Some a => ret a
  | None => raise IndexError
  end.

Definition lift {A : Type} (r : res A) : M A := fun w => (r, w).

(** Attribute assignments. *)
Definition set_frqA (v : Z) : M unit :=
  c <-! get_ctrl;
  put_ctrl (mkCtrl v (frqB c) (fdown c) (fup c) (fdop1 c) (satellite c) (transp c) (vfos c)).
Definition set_frqB (v : Z) : M unit :=
  c <-! get_ctrl;
  put_ctrl (mkCtrl (frqA c) (Some v) (fdown c) (fup c) (fdop1 c) (satellite c) (transp c) (vfos c)).
Definition set_fdown (v : Q) : M unit :=
  c <-! get_ctrl;
  put_ctrl (mkCtrl (frqA c) (frqB c) (Some v) (fup c) (fdop1 c) (satellite c) (transp c) (vfos c)).
Definition set_fup (v : Q) : M unit :=
  c <-! get_ctrl;
  put_ctrl (mkCtrl (frqA c) (frqB c) (fdown c) (Some v) (fdop1 c) (satellite c) (transp c) (vfos c)).
Definition set_fdop1 (v : Q) : M unit :=
  c <-! get_ctrl;
  put_ctrl (mkCtrl (frqA c) (frqB c) (fdown c) (fup c) (Some v) (satellite c) (transp c) (vfos c)).
Definition set_satellite (v : SATELLITE) : M unit :=
  c <-! get_ctrl;
  put_ctrl (mkCtrl (frqA c) (frqB c) (fdown c) (fup c) (fdop1 c) (Some v) (transp c) (vfos c)).
Definition set_transp (v : Transp) : M unit :=
  c <-! get_ctrl;
  put_ctrl (mkCtrl (frqA c) (frqB c) (fdown c) (fup c) (fdop1 c) (satellite c) (Some v) (vfos c)).
Definition set_vfos (v : list string) : M unit :=
  c <-! get_ctrl;
  put_ctrl (mkCtrl (frqA c) (frqB c) (fdown c) (fup c) (fdop1 c) (satellite c) (transp c) (Some v)).

Definition set_New_Sat_Selection (b : bool) : M unit :=
  g <-! get_gui;
  put_gui (mkGui (Selected g) b (rig_engaged g) (flipper g) (rit g) (xit g)
                 (track_az g) (aos g) (los g) (Satellites g)).
Definition set_rig_engaged (b : bool) : M unit :=
  g <-! get_gui;
  put_gui (mkGui (Selected g) (New_Sat_Selection g) b (flipper g) (rit g) (xit g)
                 (track_az g) (aos g) (los g) (Satellites g)).
Definition set_rit (v : Z) : M unit :=
  g <-! get_gui;
  put_gui (mkGui (Selected g) (New_Sat_Selection g) (rig_engaged g) (flipper g) v (xit g)
                 (track_az g) (aos g) (los g) (Satellites g)).
Definition set_xit (v : Z) : M unit :=
  g <-! get_gui;
  put_gui (mkGui (Selected g) (New_Sat_Selection g) (rig_engaged g) (flipper g) (rit g) v
                 (track_az g) (aos g) (los g) (Satellites g)).

(** ** RigControl.set_rig_mode *)

Definition set_rig_mode (m : string) : M unit :=
  let filter := if String.eqb (String.substring 0 2 m) "CW" then Some "Wide" else None in
  vs <-! attr vfos;
  v0 <-! index vs 0;
  emit (set_mode m v0 filter);!
  if Nat.ltb 1 (List.length vs) then
    t <-! attr transp;
    if Inverting t then
      if String.eqb m "USB" then
        v1 <-! index vs 1; emit (set_mode "LSB" v1 None)
      else if String.eqb m "LSB" then
        v1 <-! index vs 1; emit (set_mode "USB" v1 None)
      else if String.eqb m "CW" then
        v1 <-! index vs 1; emit (set_mode "CW-R" v1 filter)
      else if String.eqb m "CW-R" then
        v1 <-! index vs 1; emit (set_mode "CW" v1 filter)
      else ret tt
    else
      v1 <-! index vs 1; emit (set_mode m v1 filter)
  else ret tt.

(** ** RigControl.track_freqs *)

(** The uplink that corresponds to a downlink: [(df, fup)]. *)
Definition uplink_of (t : Transp) (fdown : Q) : Q * Q :=
  let df := fdown - inject_Z (fdn1 t) in
  if Inverting t
  then (df, inject_Z (fup2 t) - df)
  else (df, inject_Z (fup1 t) + df).

(** The flip of a rotor position through the 180-degree ambiguity. *)
Definition flip_pos (new_pos : Q * Q) : Q * Q :=
  if Qltb (fst new_pos) 180
  then (fst new_pos + 180, 180 - snd new_pos)
  else (fst new_pos - 180, 180 - snd new_pos).

(** The error test of the rotor update. *)
Definition error_exceeds (daz de : Q) : bool :=
  (Qgtb (py_abs daz) ROTOR_THRESH || Qgtb (py_abs de) ROTOR_THRESH)%bool.

(** [track_freqs] is embedded block by block, one definition per
    commented block of the source, each returning the local variables the
    later blocks use. *)

(** "Compute uplink freq corresponding to downlink" and "Compute Doppler
    shifts for up and down links": returns
    [(fdown, df, fup, fdop1, fdop2, az, el)]. *)
Definition compute_links (env : tick_env) : M (Q * Q * Q * Q * Q * Q * Q) :=
  c <-! get_ctrl;
  t <-! attr transp;
  fdown <-! match fdown c with Some f => ret f | None => raise TypeError end;
  let '(df, fup) := uplink_of t fdown in
  set_fup fup;!
  _ <-! attr satellite;
  let '(fdop1, fdop2, az, el) := Doppler_Shifts (obs env) fdown fup in
  set_fdop1 fdop1;!
  ret (fdown, df, fup, fdop1, fdop2, az, el).

(** "Set up and down link freqs": assigns [frqB] (two VFOs only) and
    [frqA], writes them to the rig when engaged or forced; returns [frqA]. *)
Definition set_links (env : tick_env) (Force : bool) (fdown fup fdop1 fdop2 : Q)
  : M Z :=
  vs <-! attr vfos;
  g <-! get_gui;
  (if Nat.ltb 1 (List.length vs) then
     let frqB := int_of_float (fup + fdop2 + inject_Z (xit g)) in
     set_frqB frqB;!
     if (rig_engaged g || Force)%bool then
       v1 <-! index vs 1;
       emit (set_freq ((1 # 1000) * inject_Z frqB) v1)
     else ret tt
   else ret tt);!
  let frqA := int_of_float (fdown + fdop1 + inject_Z (rit g)) in
  set_frqA frqA;!
  (if (rig_engaged g || Force)%bool then
     v0 <-! index vs 0;
     emit (set_freq ((1 # 1000) * inject_Z frqA) v0);!
     if USE_SDR env then emit (sdr_set_freq ((1 # 1000) * inject_Z frqA)) else ret tt
   else ret tt);!
  ret frqA.

(** "Form new rotor position" and "Flip antenna if needed": returns
    [new_pos]. *)
Definition form_new_pos (az el : Q) : M (Q * Q) :=
  g <-! get_gui;
  new_pos <-! (if Qle_bool 0 el then ret (az, el)
               else a0 <-! index (track_az g) 0; ret (a0, 0));
  if flipper g then ret (flip_pos new_pos) else ret new_pos.

(** "Update rotor": returns [(rotor_updated, pos, daz, de)], the last three
    [None] where the code stores [nan]. *)
Definition update_rotor (env : tick_env) (Force : bool) (new_pos : Q * Q)
  : M (bool * option (Q * Q) * option Q * option Q) :=
  g <-! get_gui;
  if rotor_active env then
    let pos := rotor_position env in
    let daz := fst pos - fst new_pos in
    let de := snd pos - snd new_pos in
    if error_exceeds daz de then
      if (rig_engaged g || Force)%bool then
        emit (set_position new_pos);!
        ret (true, Some pos, Some daz, Some de)
      else ret (false, Some pos, Some daz, Some de)
    else ret (false, Some pos, Some daz, Some de)
  else ret (false, None, None, None).

Definition track_freqs (env : tick_env) (Force : bool) : M unit :=
  links <-! compute_links env;
  let '(fdown, df, fup, fdop1, fdop2, az, el) := links in
  frqA <-! set_links env Force fdown fup fdop1 fdop2;
  new_pos <-! form_new_pos az el;
  rotor <-! update_rotor env Force new_pos;
  let '(rotor_updated, pos, daz, de) := rotor in
  (* Toggle voice recorder *)
  emit (recorder (Qgtb el 0));!
  (* Update gui: the uplink text reads self.frqB *)
  frqB <-! attr frqB;
  (* Save log file *)
  g <-! get_gui;
  emit (log_write
          (mkRow (Selected g) fup fdown df fdop1 fdop2 frqA frqB az el
                 pos new_pos daz de (flipper g) (rig_engaged g) rotor_updated)).

(** ** RigControl.update_aos_los *)

Definition update_aos_los (env : tick_env) : M unit :=
  g <-! get_gui;
  let daos := aos g - now env in
  let dlos := los g - now env in
  if Qgtb daos 0 then emit (txt9 (AOS_in daos))
  else if Qgtb dlos 0 then emit (txt9 (LOS_in dlos))
  else emit (txt9 Past_Event).

(** The reference downlink after the dial check of a tick, from the VFO
    reading [frq], the last commanded downlink [a], the last downlink
    Doppler shift [d] and the reference downlink [f] before the tick. *)
Definition rebased (frq a : Z) (d f : Q) : Q :=
  if (Z.ltb 0 frq && negb (Z.eqb frq a))%bool then inject_Z frq - d else f.

(** ** RigControl.Updater *)

Definition MODES : list string := ["USB"; "LSB"; "CW"; "FM"].

(** [o == s] for an optional string. *)
Definition is_str (o : option string) (s : string) : bool :=
  match o with
  | Some r => String.eqb r s
  | None => false
  end.

Definition new_sat_selected (env : tick_env) : M unit :=
  g <-! get_gui;
  sel <-! match Selected g with Some s => ret s | None => raise KeyError end;
  sat <-! lift (od_get (Satellites g) sel);
  set_satellite sat;!
  main <-! match sat_main sat with Some m => ret m | None => raise KeyError end;
  items <-! lift (od_get (sat_transponders sat) main);
  t <-! match transp_of_items items with Some t => ret t | None => raise KeyError end;
  set_transp t;!
  (* Put rig into sat mode *)
  (if is_str (rig_type2 env) "FT991a" then
     emit (split_mode 1);! set_vfos ["A"; "B"]
   else if is_str (rig_type2 env) "IC9700" then
     emit (sat_mode 1);! set_vfos ["M"; "S"]
   else if is_str (rig_type2 env) "pySDR" then
     set_vfos ["A"]
   else if match rig_type2 env with None => true | Some r => String.eqb r "Dummy" end then
     set_vfos ["A"; "B"]
   else raise SystemExit);!
  (* Check VFO bands *)
  (if is_str (rig_type2 env) "IC9700" then
     let frq1 := vfo_reading env in
     let band1 := get_band env ((1 # 1000000) * inject_Z frq1) in
     let frq2 := fdn1 t in
     let band2 := get_band env ((1 # 1000000) * inject_Z frq2) in
     if negb (String.eqb band1 band2) then emit (select_vfo "X") else ret tt
   else ret tt);!
  (* Set proper mode on both VFOs *)
  set_rig_mode (mode t);!
  (if existsb (String.eqb (mode t)) MODES then ret tt else raise ValueError);!
  (* Set down link freq to center of transp passband *)
  set_fdown ((1 # 2) * inject_Z (fdn1 t + fdn2 t));!
  track_freqs env false;!
  set_New_Sat_Selection false.

Definition dial_check (env : tick_env) : M unit :=
  (* Check if op has spun main dial *)
  vs <-! attr vfos;
  _ <-! index vs 0;
  let frq := vfo_reading env in
  c <-! get_ctrl;
  (if (Z.ltb 0 frq && negb (Z.eqb frq (frqA c)))%bool then
     d <-! attr fdop1;
     set_fdown (inject_Z frq - d);!
     set_frqA frq
   else ret tt);!
  (* Update up and down link freqs *)
  track_freqs env false.

Definition is_None {A : Type} (o : option A) : bool :=
  match o with None => true | Some _ => false end.

Definition Updater (env : tick_env) : M unit :=
  g <-! get_gui;
  c <-! get_ctrl;
  (if ((rig_engaged g || is_None (fdown c)) && truthy (Selected g))%bool then
     if New_Sat_Selection g then new_sat_selected env
     else dial_check env
   else ret tt);!
  update_aos_los env.

(** ** Operator commands *)

(** What [plot_sky_track] leaves in the GUI object when a pass with azimuth
    samples [az] between [aos'] and [los'] is selected. *)
Definition plot_sky_track (sat : string) (az : list Q) (aos' los' : Q) : M unit :=
  g <-! get_gui;
  put_gui (mkGui (Some sat) true false (flip_decision az) (rit g) (xit g)
                 az aos' los' (Satellites g)).

Definition ToggleRigControl : M unit :=
  g <-! get_gui;
  (if truthy (Selected g) then set_rig_engaged (negb (rig_engaged g)) else ret tt);!
  g <-! get_gui;
  if rig_engaged g then emit (split_mode 1) else emit (split_mode 0).

Definition RITup (env : tick_env) : M unit :=
  g <-! get_gui; set_rit (rit g + RIT_DELTA)%Z;! track_freqs env true.
Definition RITdn (env : tick_env) : M unit :=
  g <-! get_gui; set_rit (rit g - RIT_DELTA)%Z;! track_freqs env true.
Definition RITclear : M unit := set_rit 0%Z.
Definition XITup (env : tick_env) : M unit :=
  g <-! get_gui; set_xit (xit g + XIT_DELTA)%Z;! track_freqs env true.
Definition XITdn (env : tick_env) : M unit :=
  g <-! get_gui; set_xit (xit g - XIT_DELTA)%Z;! track_freqs env true.
Definition XITclear : M unit := set_xit 0%Z.

(** [try: ... except: ...] around a block: the exception is dropped, the
    assignments made before it stay. *)
Definition try_except (m : M unit) : M unit :=
  fun w => match m w with (_, w') => (Ok tt, w') end.

Definition ReCenter (env : tick_env) : M unit :=
  try_except
    (t <-! attr transp;
     set_fdown ((1 # 2) * inject_Z (fdn1 t + fdn2 t));!
     track_freqs env true).

(** The state [RigControl.__init__] and [SAT_GUI.__init__] create. *)
Definition ctrl_init : rig_control :=
  mkCtrl 0%Z None None None None None None None.

Definition gui_init (sats : list (string * SATELLITE)) : gui_state :=
  mkGui None false false false 0%Z 0%Z [] 0 0 sats.


(** ** A worked configuration

    A transponder file with an inverting linear transponder and a beacon,
    and the state of a controller tracking the transponder. *)

Definition ex_linear : gmap string string :=
  list_to_map
    [("down_low", "435800000"); ("down_high", "435900000");
     ("up_low", "145900000"); ("up_high", "146000000");
     ("invert", "true"); ("mode", "USB")].

Definition ex_beacon : gmap string string :=
  list_to_map [("down_low", "435795000"); ("mode", "CW")].

Definition ex_fm : gmap string string :=
  list_to_map
    [("down_low", "436795000"); ("up_low", "145850000"); ("mode", "FM")].

Definition ex_sections : list (string * gmap string string) :=
  [("Mode V/U (J) Linear Transponder", ex_linear);
   ("Mode U CW Beacon", ex_beacon);
   ("Mode V/U FM Voice Repeater", ex_fm)].

Definition ex_beacon_items : gmap string pyval :=
  match parse_items parse_decimal ex_beacon with
  | Ok items => items
  | Raise _ => ∅
  end.

Definition ex_transp : Transp :=
  mkTransp 435800000 435900000 145900000 146000000 true "USB".

Definition ex_sat : SATELLITE :=
  match get_transponders parse_decimal ex_sections with
  | Ok ld => mkSat (ld_main ld) (ld_transponders ld)
  | Raise _ => mkSat None []
  end.

Definition ex_gui (engaged : bool) (rit' : Z) : gui_state :=
  mkGui (Some "FO-29") false engaged false rit' 0%Z [190; 200; 210] 1000 2000
        [("FO-29", ex_sat)].

Definition ex_ctrl (a : Z) (f d : Q) : rig_control :=
  mkCtrl a (Some 0%Z) (Some f) (Some 0) (Some d) (Some ex_sat) (Some ex_transp)
         (Some ["A"; "B"]).

Definition ex_env (dop100 : Q) (reading : Z) (pos : Q * Q) : tick_env :=
  mkEnv (Some "FT991a") false true pos reading (fun _ => "")
        (mkObs dop100 200 30) 1500.

(** Recognisers of the events, for statements about what a call writes. *)
Definition is_set_position (e : event) : bool :=
  match e with set_position _ => true | _ => false end.
Definition is_set_freq (e : event) : bool :=
  match e with set_freq _ _ | sdr_set_freq _ => true | _ => false end.
Definition is_log_write (e : event) : bool :=
  match e with log_write _ => true | _ => false end.

(** ** Descriptions used by the further properties *)

(** The mode of the uplink VFO on an inverting transponder: the opposite
    sideband, for the four modes [set_rig_mode] knows. *)
Definition opposite_mode (m : string) : option string :=
  if String.eqb m "USB" then Some "LSB"
  else if String.eqb m "LSB" then Some "USB"
  else if String.eqb m "CW" then Some "CW-R"
  else if String.eqb m "CW-R" then Some "CW"
  else None.

(** The filter [set_rig_mode] asks for. *)
Definition mode_filter (m : string) : option string :=
  if String.eqb (String.substring 0 2 m) "CW" then Some "Wide" else None.

(** The VFO names and the write that the acquisition makes for a rig type;
    [None] for a rig the controller does not know. *)
Definition rig_setup (r : option string) : option (list string * list event) :=
  match r with
  | None => Some (["A"; "B"], [])
  | Some r =>
      if String.eqb r "FT991a" then Some (["A"; "B"], [split_mode 1])
      else if String.eqb r "IC9700" then Some (["M"; "S"], [sat_mode 1])
      else if String.eqb r "pySDR" then Some (["A"], [])
      else if String.eqb r "Dummy" then Some (["A"; "B"], [])
      else None
  end.

(** The centre of the downlink passband, where the acquisition tunes. *)
Definition passband_centre (t : Transp) : Q := (1 # 2) * inject_Z (fdn1 t + fdn2 t).

(** The items loaded for the linear transponder of the worked
    configuration. *)
Definition ex_linear_items : gmap string pyval :=
  match parse_items parse_decimal ex_linear with
  | Ok items => items
  | Raise _ => ∅
  end.

(** A satellite whose main transponder has a mode outside [MODES]. *)
Definition ex_packet_sat : SATELLITE :=
  match get_transponders parse_decimal
          [("Packet Transponder",
            list_to_map [("down_low", "145825000"); ("up_low", "145825000");
                         ("mode", "AFSK")])] with
  | Ok ld => mkSat (ld_main ld) (ld_transponders ld)
  | Raise _ => mkSat None []
  end.

(** ** Double precision

    Python's [float] is IEEE 754 binary64: the result of [+], [-] and [*],
    of a literal and of the conversion of an [int] is the exact result
    rounded to the nearest double, ties to even.  [binary64] is that
    rounding on rationals, for results in the range of the normal and
    subnormal doubles (no overflow to infinity). *)

(** [pow2 e] is 2^e. *)
Definition pow2 (e : Z) : Q := 2 ^ e.

(** The exponent of a non-zero [x]: 2^e <= |x| < 2^(e+1). *)
Definition ilog2 (x : Q) : Z :=
  let n := Z.abs (Qnum x) in
  let d := Zpos (Qden x) in
  let e0 := (Z.log2 n - Z.log2 d)%Z in
  if Qle_bool (pow2 e0) (Qabs x) then e0 else (e0 - 1)%Z.

(** The nearest integer, ties to even. *)
Definition round_half_even (y : Q) : Z :=
  let n := Qfloor y in
  let r := y - inject_Z n in
  match Qcompare r (1 # 2) with
  | Lt => n
  | Gt => (n + 1)%Z
  | Eq => if Z.even n then n else (n + 1)%Z
  end.

(** The nearest double: 53 significant bits, the exponent not below that
    of the subnormals. *)
Definition binary64 (x : Q) : Q :=
  if Qeq_bool x 0 then 0
  else
    let e := Z.max (ilog2 x) (-1022) in
    let q := pow2 (e - 52) in
    Qred (inject_Z (round_half_even (x / q)) * q).

(** [l.index(x)] on a list of strings. *)
Fixpoint index_of (x : string) (l : list string) : option nat :=
  match l with
  | [] => None
  | y :: l' => if String.eqb y x then Some 0%nat else option_map S (index_of x l')
  end.

(** The controller with every float operation rounded.  [rnd] is the
    rounding of an exact result to a double; the code runs with
    [rnd := binary64]. *)
Section DoublePrecision.

Variable rnd : Q -> Q.

Definition fadd (x y : Q) : Q := rnd (x + y).
Definition fsub (x y : Q) : Q := rnd (x - y).
Definition fmul (x y : Q) : Q := rnd (x * y).

(** A float literal, and an [int] converted for mixed arithmetic. *)
Definition flit (x : Q) : Q := rnd x.
Definition of_int (n : Z) : Q := rnd (inject_Z n).

(** [Doppler_Shifts]: [1e-8*dop100*fdown] and [-1e-8*dop100*fup], the
    products taken from the left. *)
Definition Doppler_Shifts_f64 (obs : observation) (fdown fup : Q) : Q * Q * Q * Q :=
  let dop100 := doppler obs in
  let fdop1 := fmul (fmul (flit (1 # 100000000)) dop100) fdown in
  let fdop2 := fmul (fmul (- flit (1 # 100000000)) dop100) fup in
  let az := azimuth obs in
  let el := elevation obs in
  (fdop1, fdop2, az, el).

(** [(df, fup)] for a downlink; the band edges are [int]s. *)
Definition uplink_of_f64 (t : Transp) (fdown : Q) : Q * Q :=
  let df := fsub fdown (of_int (fdn1 t)) in
  if Inverting t
  then (df, fsub (of_int (fup2 t)) df)
  else (df, fadd (of_int (fup1 t)) df).

Definition flip_pos_f64 (new_pos : Q * Q) : Q * Q :=
  if Qltb (fst new_pos) 180
  then (fadd (fst new_pos) (flit 180), fsub (flit 180) (snd new_pos))
  else (fsub (fst new_pos) (flit 180), fsub (flit 180) (snd new_pos)).

Definition compute_links_f64 (env : tick_env) : M (Q * Q * Q * Q * Q * Q * Q) :=
  c <-! get_ctrl;
  t <-! attr transp;
  fdown <-! match fdown c with Some f => ret f | None => raise TypeError end;
  let '(df, fup) := uplink_of_f64 t fdown in
  set_fup fup;!
  _ <-! attr satellite;
  let '(fdop1, fdop2, az, el) := Doppler_Shifts_f64 (obs env) fdown fup in
  set_fdop1 fdop1;!
  ret (fdown, df, fup, fdop1, fdop2, az, el).

(** [int(self.fup+fdop2 + gui.xit)], [int(self.fdown+self.fdop1 + gui.rit)]
    and the writes of [1e-3*self.frqB] and [1e-3*self.frqA]. *)
Definition set_links_f64 (env : tick_env) (Force : bool) (fdown fup fdop1 fdop2 : Q)
  : M Z :=
  vs <-! attr vfos;
  g <-! get_gui;
  (if Nat.ltb 1 (List.length vs) then
     let frqB := int_of_float (fadd (fadd fup fdop2) (of_int (xit g))) in
     set_frqB frqB;!
     if (rig_engaged g || Force)%bool then
       v1 <-! index vs 1;
       emit (set_freq (fmul (flit (1 # 1000)) (of_int frqB)) v1)
     else ret tt
   else ret tt);!
  let frqA := int_of_float (fadd (fadd fdown fdop1) (of_int (rit g))) in
  set_frqA frqA;!
  (if (rig_engaged g || Force)%bool then
     v0 <-! index vs 0;
     emit (set_freq (fmul (flit (1 # 1000)) (of_int frqA)) v0);!
     if USE_SDR env then emit (sdr_set_freq (fmul (flit (1 # 1000)) (of_int frqA)))
     else ret tt
   else ret tt);!
  ret frqA.

Definition form_new_pos_f64 (az el : Q) : M (Q * Q) :=
  g <-! get_gui;
  new_pos <-! (if Qle_bool 0 el then ret (az, el)
               else a0 <-! index (track_az g) 0; ret (a0, 0));
  if flipper g then ret (flip_pos_f64 new_pos) else ret new_pos.

Definition update_rotor_f64 (env : tick_env) (Force : bool) (new_pos : Q * Q)
  : M (bool * option (Q * Q) * option Q * option Q) :=
  g <-! get_gui;
  if rotor_active env then
    let pos := rotor_position env in
    let daz := fsub (fst pos) (fst new_pos) in
    let de := fsub (snd pos) (snd new_pos) in
    if error_exceeds daz de then
      if (rig_engaged g || Force)%bool then
        emit (set_position new_pos);!
        ret (true, Some pos, Some daz, Some de)
      else ret (false, Some pos, Some daz, Some de)
    else ret (false, Some pos, Some daz, Some de)
  else ret (false, None, None, None).

Definition track_freqs_f64 (env : tick_env) (Force : bool) : M unit :=
  links <-! compute_links_f64 env;
  let '(fdown, df, fup, fdop1, fdop2, az, el) := links in
  frqA <-! set_links_f64 env Force fdown fup fdop1 fdop2;
  new_pos <-! form_new_pos_f64 az el;
  rotor <-! update_rotor_f64 env Force new_pos;
  let '(rotor_updated, pos, daz, de) := rotor in
  emit (recorder (Qgtb el 0));!
  frqB <-! attr frqB;
  g <-! get_gui;
  emit (log_write
          (mkRow (Selected g) fup fdown df fdop1 fdop2 frqA frqB az el
                 pos new_pos daz de (flipper g) (rig_engaged g) rotor_updated)).

Definition update_aos_los_f64 (env : tick_env) : M unit :=
  g <-! get_gui;
  let daos := fsub (aos g) (now env) in
  let dlos := fsub (los g) (now env) in
  if Qgtb daos 0 then emit (txt9 (AOS_in daos))
  else if Qgtb dlos 0 then emit (txt9 (LOS_in dlos))
  else emit (txt9 Past_Event).

(** [ModeSelect], the slot of the mode combo box, when the box shows the
    entry [idx]. *)
Definition ModeSelect (idx : nat) : M unit :=
  m <-! index MODES idx;
  set_rig_mode m.

(** The acquisition.  [shown] is the entry the mode combo box shows before
    the tick: [setCurrentIndex] to another entry signals
    [currentIndexChanged], which runs [ModeSelect] before it returns. *)
Definition new_sat_selected_f64 (shown : nat) (env : tick_env) : M unit :=
  g <-! get_gui;
  sel <-! match Selected g with Some s => ret s | None => raise KeyError end;
  sat <-! lift (od_get (Satellites g) sel);
  set_satellite sat;!
  main <-! match sat_main sat with Some m => ret m | None => raise KeyError end;
  items <-! lift (od_get (sat_transponders sat) main);
  t <-! match transp_of_items items with Some t => ret t | None => raise KeyError end;
  set_transp t;!
  (if is_str (rig_type2 env) "FT991a" then
     emit (split_mode 1);! set_vfos ["A"; "B"]
   else if is_str (rig_type2 env) "IC9700" then
     emit (sat_mode 1);! set_vfos ["M"; "S"]
   else if is_str (rig_type2 env) "pySDR" then
     set_vfos ["A"]
   else if match rig_type2 env with None => true | Some r => String.eqb r "Dummy" end then
     set_vfos ["A"; "B"]
   else raise SystemExit);!
  (if is_str (rig_type2 env) "IC9700" then
     let frq1 := vfo_reading env in
     let band1 := get_band env (fmul (flit (1 # 1000000)) (of_int frq1)) in
     let frq2 := fdn1 t in
     let band2 := get_band env (fmul (flit (1 # 1000000)) (of_int frq2)) in
     if negb (String.eqb band1 band2) then emit (select_vfo "X") else ret tt
   else ret tt);!
  set_rig_mode (mode t);!
  idx <-! match index_of (mode t) MODES with
          | Some i => ret i
          | None => raise ValueError
          end;
  (if Nat.eqb idx shown then ret tt else ModeSelect idx);!
  set_fdown (fmul (flit (1 # 2)) (of_int (fdn1 t + fdn2 t)));!
  track_freqs_f64 env false;!
  set_New_Sat_Selection false.

Definition dial_check_f64 (env : tick_env) : M unit :=
  vs <-! attr vfos;
  _ <-! index vs 0;
  let frq := vfo_reading env in
  c <-! get_ctrl;
  (if (Z.ltb 0 frq && negb (Z.eqb frq (frqA c)))%bool then
     d <-! attr fdop1;
     set_fdown (fsub (of_int frq) d);!
     set_frqA frq
   else ret tt);!
  track_freqs_f64 env false.

Definition Updater_f64 (shown : nat) (env : tick_env) : M unit :=
  g <-! get_gui;
  c <-! get_ctrl;
  (if ((rig_engaged g || is_None (fdown c)) && truthy (Selected g))%bool then
     if New_Sat_Selection g then new_sat_selected_f64 shown env
     else dial_check_f64 env
   else ret tt);!
  update_aos_los_f64 env.

End DoublePrecision.

(** The rounding switched off. *)
Definition exact (x : Q) : Q := x.

(** What the analysis of a tick uses of the rounding: a relative error of
    at most 2^-53, up to the absolute error of a subnormal result, and no
    error on an integer of at most 53 bits. *)
Definition unit_roundoff : Q := 1 # 9007199254740992.
Definition underflow : Q := 1 # (10 ^ 300).

Definition accurate (rnd : Q -> Q) : Prop :=
  forall x : Q, Qabs (rnd x - x) <= unit_roundoff * Qabs x + underflow.

Definition exact_on_ints (rnd : Q -> Q) : Prop :=
  forall n : Z, (Z.abs n <= 9007199254740992)%Z -> rnd (inject_Z n) == inject_Z n.

(** The rotor target of a tick, [None] when the satellite is below the
    horizon and the stored track is empty. *)
Definition target_of (env : tick_env) (g : gui_state) : option (Q * Q) :=
  if Qle_bool 0 (elevation (obs env))
  then Some (azimuth (obs env), elevation (obs env))
  else match track_az g with a0 :: _ => Some (a0, 0) | [] => None end.
(** * Properties *)

(** ** Comparisons on floats *)

Lemma Qltb_lt (x y : Q) : Qltb x y = true <-> x < y.
Proof.
  unfold Qltb. rewrite negb_true_iff, <- not_true_iff_false, Qle_bool_iff.
  split; [apply Qnot_le_lt | apply Qlt_not_le].
Qed.

Lemma Qltb_ge (x y : Q) : Qltb x y = false <-> y <= x.
Proof.
  unfold Qltb. rewrite negb_false_iff, Qle_bool_iff. reflexivity.
Qed.

Lemma Qgtb_gt (x y : Q) : Qgtb x y = true <-> y < x.
Proof. apply Qltb_lt. Qed.

Lemma Qgtb_le (x y : Q) : Qgtb x y = false <-> x <= y.
Proof. apply Qltb_ge. Qed.

(** Case analysis on every float comparison in sight. *)
Ltac cmp :=
  repeat match goal with
    | H : context [Qltb ?x ?y] |- _ =>
        let E := fresh "E" in
        destruct (Qltb x y) eqn:E;
        [apply Qltb_lt in E | apply Qltb_ge in E]
    | |- context [Qltb ?x ?y] =>
        let E := fresh "E" in
        destruct (Qltb x y) eqn:E;
        [apply Qltb_lt in E | apply Qltb_ge in E]
    end.

(** ** The flip decision *)

Lemma quad2_bounds (a : Q) : quad2 a = true <-> 90 < a /\ a < 180.
Proof. unfold quad2. rewrite andb_true_iff, Qgtb_gt, Qltb_lt. reflexivity. Qed.

Lemma quad3_bounds (a : Q) : quad3 a = true <-> 180 < a /\ a < 270.
Proof. unfold quad3. rewrite andb_true_iff, Qgtb_gt, Qltb_lt. reflexivity. Qed.

Lemma quad2_not_quad3 (a : Q) : quad2 a = true -> quad3 a = false.
Proof.
  intros H2. apply quad2_bounds in H2. apply not_true_iff_false.
  intros H3. apply quad3_bounds in H3. lra.
Qed.

Lemma any_map (q : Q -> bool) (az : list Q) : any (map q az) = visits q az.
Proof.
  unfold any, visits. induction az as [|a az IH]; simpl; [reflexivity|].
  now rewrite IH.
Qed.

Lemma py_min_step (m0 a m : Q) :
  py_min (py_min m0 a) m = py_min m0 (if Qltb m a then m else a).
Proof. unfold py_min. cmp; try reflexivity; lra. Qed.

Lemma py_max_step (m0 a m : Q) :
  py_max (py_max m0 a) m = py_max m0 (if Qgtb m a then m else a).
Proof. unfold py_max, Qgtb. cmp; try reflexivity; lra. Qed.

(** The loop leaves in [min2] and [max3] the starting values combined with
    the extrema of the two quadrants. *)
Lemma min2_max3_extrema (az : list Q) : forall min2 max3,
  min2_max3 az min2 max3 =
  (match min_quadrant2_az az with Some m => py_min min2 m | None => min2 end,
   match max_quadrant3_az az with Some m => py_max max3 m | None => max3 end).
Proof.
  unfold min_quadrant2_az, max_quadrant3_az.
  induction az as [|a az IH]; intros min2 max3; simpl; [reflexivity|].
  destruct (quad2 a) eqn:H2.
  - rewrite (quad2_not_quad3 a H2), IH. simpl.
    destruct (minimum (List.filter quad2 az)); [|reflexivity].
    now rewrite py_min_step.
  - destruct (quad3 a) eqn:H3; rewrite IH; [|reflexivity]. simpl.
    destruct (maximum (List.filter quad3 az)); [|reflexivity].
    now rewrite py_max_step.
Qed.

Lemma minimum_in (l : list Q) (m : Q) : minimum l = Some m -> In m l.
Proof.
  revert m. induction l as [|a l IH]; simpl; intros m H; [discriminate|].
  destruct (minimum l) as [m'|].
  - injection H as <-. destruct (Qltb m' a); [right; now apply IH | now left].
  - injection H as <-. now left.
Qed.

Lemma maximum_in (l : list Q) (m : Q) : maximum l = Some m -> In m l.
Proof.
  revert m. induction l as [|a l IH]; simpl; intros m H; [discriminate|].
  destruct (maximum l) as [m'|].
  - injection H as <-. destruct (Qgtb m' a); [right; now apply IH | now left].
  - injection H as <-. now left.
Qed.

Lemma minimum_None (l : list Q) : minimum l = None -> l = [].
Proof.
  destruct l as [|a l]; simpl; [reflexivity|].
  destruct (minimum l); discriminate.
Qed.

Lemma maximum_None (l : list Q) : maximum l = None -> l = [].
Proof.
  destruct l as [|a l]; simpl; [reflexivity|].
  destruct (maximum l); discriminate.
Qed.

Lemma visits_filter (q : Q -> bool) (az : list Q) :
  visits q az = true <-> List.filter q az <> [].
Proof.
  unfold visits. induction az as [|a az IH]; simpl.
  - split; [discriminate | congruence].
  - destruct (q a); simpl; [split; [discriminate | reflexivity] | exact IH].
Qed.

(** The minimum is a lower bound and the maximum an upper bound. *)
Lemma minimum_le (l : list Q) (m : Q) :
  minimum l = Some m -> forall a, In a l -> m <= a.
Proof.
  revert m. induction l as [|b l IH]; simpl; intros m H a Ha; [contradiction|].
  destruct (minimum l) as [m'|] eqn:Hm.
  - injection H as <-. specialize (IH m' eq_refl).
    destruct Ha as [<-|Ha].
    + cmp; lra.
    + specialize (IH a Ha). cmp; lra.
  - injection H as <-. apply minimum_None in Hm. subst l.
    destruct Ha as [<-|[]]. lra.
Qed.

Lemma maximum_ge (l : list Q) (m : Q) :
  maximum l = Some m -> forall a, In a l -> a <= m.
Proof.
  revert m. induction l as [|b l IH]; simpl; intros m H a Ha; [contradiction|].
  destruct (maximum l) as [m'|] eqn:Hm.
  - injection H as <-. specialize (IH m' eq_refl). unfold Qgtb.
    destruct Ha as [<-|Ha].
    + cmp; lra.
    + specialize (IH a Ha). cmp; lra.
  - injection H as <-. apply maximum_None in Hm. subst l.
    destruct Ha as [<-|[]]. lra.
Qed.

(** C1. The flip decision that [plot_sky_track] stores is: the track has a
    sample with azimuth strictly between 90 and 180 and a sample with
    azimuth strictly between 180 and 270, and it is not the case that the
    largest quadrant-3 azimuth is below 195 or the smallest quadrant-2
    azimuth is above 165; the track 100, 170, 190, 260 gives [true]. *)
Theorem flip_decision_spec :
  (forall az : list Q, flip_decision az = flip_required_spec az) /\
  (forall az : list Q,
      flip_decision az = true <->
      (exists a, In a az /\ 90 < a /\ a < 180) /\
      (exists a, In a az /\ 180 < a /\ a < 270) /\
      exists min2 max3,
        min_quadrant2_az az = Some min2 /\ max_quadrant3_az az = Some max3 /\
        (forall a, In a az -> 90 < a -> a < 180 -> min2 <= a) /\
        (forall a, In a az -> 180 < a -> a < 270 -> a <= max3) /\
        ~ (max3 < 195 \/ min2 > 165)) /\
  flip_decision [100; 170; 190; 260] = true.
Proof.
  assert (Heq : forall az, flip_decision az = flip_required_spec az).
  { intros az. unfold flip_decision, flip_required_spec.
    rewrite !any_map, min2_max3_extrema.
    destruct (visits quad2 az && visits quad3 az)%bool eqn:Hv; [|reflexivity].
    apply andb_true_iff in Hv. destruct Hv as [Hv2 Hv3].
    destruct (min_quadrant2_az az) as [min2|] eqn:Hmin.
    2:{ apply minimum_None in Hmin. apply visits_filter in Hv2. contradiction. }
    destruct (max_quadrant3_az az) as [max3|] eqn:Hmax.
    2:{ apply maximum_None in Hmax. apply visits_filter in Hv3. contradiction. }
    apply minimum_in, filter_In in Hmin. destruct Hmin as [_ Hmin].
    apply maximum_in, filter_In in Hmax. destruct Hmax as [_ Hmax].
    apply quad2_bounds in Hmin. apply quad3_bounds in Hmax.
    unfold py_min, py_max, THRESH, Qgtb.
    assert (E1 : Qltb min2 360 = true) by (apply Qltb_lt; lra).
    assert (E2 : Qltb 0 max3 = true) by (apply Qltb_lt; lra).
    rewrite E1, E2.
    assert (E3 : Qltb max3 (180 + 15) = Qltb max3 195%Q).
    { destruct (Qltb max3 195) eqn:E; [apply Qltb_lt in E; apply Qltb_lt; lra
                                      | apply Qltb_ge in E; apply Qltb_ge; lra]. }
    assert (E4 : Qltb (180 - 15) min2 = Qltb 165 min2).
    { destruct (Qltb 165 min2) eqn:E; [apply Qltb_lt in E; apply Qltb_lt; lra
                                      | apply Qltb_ge in E; apply Qltb_ge; lra]. }
    rewrite E3, E4.
    destruct (Qltb max3 195 || Qltb 165 min2)%bool; reflexivity. }
  split; [exact Heq|]. split; [|reflexivity].
  intros az. rewrite Heq. unfold flip_required_spec. split.
  - destruct (visits quad2 az && visits quad3 az)%bool eqn:Hv; [|discriminate].
    apply andb_true_iff in Hv. destruct Hv as [Hv2 Hv3].
    unfold visits in Hv2, Hv3. apply existsb_exists in Hv2, Hv3.
    destruct Hv2 as (a2 & Ha2 & Hq2). destruct Hv3 as (a3 & Ha3 & Hq3).
    destruct (min_quadrant2_az az) as [min2|] eqn:Hmin.
    2:{ apply minimum_None in Hmin.
        assert (In a2 (List.filter quad2 az)) by (apply filter_In; auto).
        rewrite Hmin in *. contradiction. }
    destruct (max_quadrant3_az az) as [max3|] eqn:Hmax.
    2:{ apply maximum_None in Hmax.
        assert (In a3 (List.filter quad3 az)) by (apply filter_In; auto).
        rewrite Hmax in *. contradiction. }
    intros H. apply quad2_bounds in Hq2. apply quad3_bounds in Hq3.
    split; [exists a2; tauto|]. split; [exists a3; tauto|].
    exists min2, max3. repeat split.
    + intros a Ha Hlo Hhi. apply (minimum_le _ _ Hmin), filter_In.
      split; [exact Ha | apply quad2_bounds; tauto].
    + intros a Ha Hlo Hhi. apply (maximum_ge _ _ Hmax), filter_In.
      split; [exact Ha | apply quad3_bounds; tauto].
    + unfold Qgtb in H. intros [Hc|Hc].
      * assert (E : Qltb max3 (180 + 15) = true) by (apply Qltb_lt; lra).
        rewrite E in H. discriminate.
      * assert (E : Qltb (180 - 15) min2 = true) by (apply Qltb_lt; lra).
        rewrite E, orb_true_r in H. discriminate.
  - intros ((a2 & Ha2 & Hq2) & (a3 & Ha3 & Hq3) & min2 & max3 & Hmin & Hmax & _ & _ & Hno).
    assert (Hv2 : visits quad2 az = true).
    { apply existsb_exists. exists a2. split; [exact Ha2 | now apply quad2_bounds]. }
    assert (Hv3 : visits quad3 az = true).
    { apply existsb_exists. exists a3. split; [exact Ha3 | now apply quad3_bounds]. }
    rewrite Hv2, Hv3, Hmin, Hmax. simpl. unfold Qgtb.
    destruct (Qltb max3 (180 + 15)) eqn:E1.
    { apply Qltb_lt in E1. exfalso. apply Hno. left. lra. }
    destruct (Qltb (180 - 15) min2) eqn:E2.
    { apply Qltb_lt in E2. exfalso. apply Hno. right. lra. }
    reflexivity.
Qed.

(** ** Running the controller monad *)

Lemma bind_Ok {A B : Type} (m : M A) (k : A -> M B) (w w' : world) (b : B) :
  bind m k w = (Ok b, w') ->
  exists a w1, m w = (Ok a, w1) /\ k a w1 = (Ok b, w').
Proof.
  unfold bind. destruct (m w) as [[a|e] w1]; intros H; [eauto | discriminate].
Qed.

Lemma bind_run {A B : Type} (m : M A) (k : A -> M B) (w w1 : world) (a : A) :
  m w = (Ok a, w1) -> bind m k w = k a w1.
Proof. unfold bind. now intros ->. Qed.

(** Unfolding of the monad's operations on a world made of constructors. *)
Ltac mrun :=
  cbv beta iota zeta delta
    [bind ret raise emit lift get_gui get_ctrl put_gui put_ctrl attr index
     set_frqA set_frqB set_fdown set_fup set_fdop1 set_satellite set_transp
     set_vfos set_New_Sat_Selection set_rig_engaged set_rit set_xit
     w_gui w_ctrl w_trace
     frqA frqB fdown fup fdop1 satellite transp vfos
     Selected New_Sat_Selection rig_engaged flipper rit xit track_az aos los
     Satellites].

(** ** The blocks of track_freqs *)

Lemma compute_links_run (env : tick_env) (g : gui_state) (tr : list event)
  (a : Z) (b : option Z) (u d : option Q) (f : Q) (s : SATELLITE) (t : Transp)
  (vs : option (list string)) :
  compute_links env (mkWorld g (mkCtrl a b (Some f) u d (Some s) (Some t) vs) tr) =
  (Ok (f, fst (uplink_of t f), snd (uplink_of t f),
       (1 # 100000000) * doppler (obs env) * f,
       - (1 # 100000000) * doppler (obs env) * snd (uplink_of t f),
       azimuth (obs env), elevation (obs env)),
   mkWorld g
     (mkCtrl a b (Some f) (Some (snd (uplink_of t f)))
        (Some ((1 # 100000000) * doppler (obs env) * f)) (Some s) (Some t) vs)
     tr).
Proof.
  unfold compute_links. mrun.
  destruct (uplink_of t f) as [df up]. mrun. unfold Doppler_Shifts. reflexivity.
Qed.

Lemma set_links_run (env : tick_env) (Force : bool) (g : gui_state)
  (tr : list event) (a : Z) (b : option Z) (f u d : option Q)
  (s : option SATELLITE) (t : option Transp) (v0 : string) (rest : list string)
  (fdown' fup' fdop1' fdop2' : Q) :
  let FA := int_of_float (fdown' + fdop1' + inject_Z (rit g)) in
  let FB := int_of_float (fup' + fdop2' + inject_Z (xit g)) in
  let send := (rig_engaged g || Force)%bool in
  set_links env Force fdown' fup' fdop1' fdop2'
    (mkWorld g (mkCtrl a b f u d s t (Some (v0 :: rest))) tr) =
  (Ok FA,
   mkWorld g
     (mkCtrl FA (match rest with [] => b | _ :: _ => Some FB end) f u d s t
        (Some (v0 :: rest)))
     (tr ++
      match rest with
      | v1 :: _ => if send then [set_freq ((1 # 1000) * inject_Z FB) v1] else []
      | [] => []
      end ++
      (if send
       then set_freq ((1 # 1000) * inject_Z FA) v0 ::
            (if USE_SDR env then [sdr_set_freq ((1 # 1000) * inject_Z FA)] else [])
       else []))).
Proof.
  destruct g as [sel nss eng fl r x ta ao lo sats].
  unfold set_links.
  destruct rest as [|v1 rest]; destruct (eng || Force)%bool eqn:Hs;
    destruct (USE_SDR env) eqn:Hsdr; mrun;
    cbn [List.length Nat.ltb Nat.leb nth_error orb]; rewrite ?Hs, ?Hsdr; mrun;
    rewrite ?Hs, ?Hsdr, <- ?app_assoc, ?app_nil_r; reflexivity.
Qed.

Lemma form_new_pos_run (az el : Q) (g : gui_state) (c : rig_control)
  (tr : list event) :
  form_new_pos az el (mkWorld g c tr) =
  if Qle_bool 0 el
  then (Ok (if flipper g then flip_pos (az, el) else (az, el)), mkWorld g c tr)
  else match track_az g with
       | a0 :: _ =>
           (Ok (if flipper g then flip_pos (a0, 0) else (a0, 0)), mkWorld g c tr)
       | [] => (Raise IndexError, mkWorld g c tr)
       end.
Proof.
  destruct g as [sel nss eng fl r x ta ao lo sats].
  unfold form_new_pos. mrun.
  destruct (Qle_bool 0 el); [destruct fl; reflexivity|].
  destruct ta as [|a0 ta]; cbn [nth_error]; [reflexivity|].
  destruct fl; reflexivity.
Qed.

Lemma update_rotor_run (env : tick_env) (Force : bool) (new_pos : Q * Q)
  (g : gui_state) (c : rig_control) (tr : list event) :
  let pos := rotor_position env in
  let daz := fst pos - fst new_pos in
  let de := snd pos - snd new_pos in
  let moved :=
    (rotor_active env && error_exceeds daz de && (rig_engaged g || Force))%bool in
  update_rotor env Force new_pos (mkWorld g c tr) =
  (Ok (moved,
       if rotor_active env then Some pos else None,
       if rotor_active env then Some daz else None,
       if rotor_active env then Some de else None),
   mkWorld g c (tr ++ if moved then [set_position new_pos] else [])).
Proof.
  destruct g as [sel nss eng fl r x ta ao lo sats].
  unfold update_rotor. mrun.
  destruct (rotor_active env); cbn [andb]; [|now rewrite app_nil_r].
  destruct (error_exceeds _ _); cbn [andb]; [|now rewrite app_nil_r].
  destruct (eng || Force)%bool; [reflexivity | now rewrite app_nil_r].
Qed.

(** A call of [track_freqs] that finds its attributes set, a rotor target
    and a value in [frqB] returns, and this is what it leaves. *)
Lemma track_freqs_run (env : tick_env) (Force : bool) (g : gui_state)
  (tr : list event) (a : Z) (b : option Z) (u d : option Q) (f : Q)
  (s : SATELLITE) (t : Transp) (v0 : string) (rest : list string)
  (p0 : Q * Q) (nB : Z) :
  let az := azimuth (obs env) in
  let el := elevation (obs env) in
  let df := fst (uplink_of t f) in
  let up := snd (uplink_of t f) in
  let d1 := (1 # 100000000) * doppler (obs env) * f in
  let d2 := - (1 # 100000000) * doppler (obs env) * up in
  let FA := int_of_float (f + d1 + inject_Z (rit g)) in
  let FB := int_of_float (up + d2 + inject_Z (xit g)) in
  let send := (rig_engaged g || Force)%bool in
  let new_pos := if flipper g then flip_pos p0 else p0 in
  let pos := rotor_position env in
  let daz := fst pos - fst new_pos in
  let de := snd pos - snd new_pos in
  let moved := (rotor_active env && error_exceeds daz de && send)%bool in
  (if Qle_bool 0 el then Some (az, el)
   else match track_az g with a0 :: _ => Some (a0, 0) | [] => None end) = Some p0 ->
  match rest with [] => b | _ :: _ => Some FB end = Some nB ->
  track_freqs env Force
    (mkWorld g (mkCtrl a b (Some f) u d (Some s) (Some t) (Some (v0 :: rest))) tr) =
  (Ok tt,
   mkWorld g
     (mkCtrl FA (Some nB) (Some f) (Some up) (Some d1) (Some s) (Some t)
        (Some (v0 :: rest)))
     (tr ++
      match rest with
      | v1 :: _ => if send then [set_freq ((1 # 1000) * inject_Z FB) v1] else []
      | [] => []
      end ++
      (if send
       then set_freq ((1 # 1000) * inject_Z FA) v0 ::
            (if USE_SDR env then [sdr_set_freq ((1 # 1000) * inject_Z FA)] else [])
       else []) ++
      (if moved then [set_position new_pos] else []) ++
      [recorder (Qgtb el 0);
       log_write
         (mkRow (Selected g) up f df d1 d2 FA nB az el
            (if rotor_active env then Some pos else None) new_pos
            (if rotor_active env then Some daz else None)
            (if rotor_active env then Some de else None)
            (flipper g) (rig_engaged g) moved)])).
Proof.
  intros az el df up d1 d2 FA FB send new_pos pos daz de moved Htgt HnB.
  unfold track_freqs.
  rewrite (bind_run _ _ _ _ _ (compute_links_run env g tr a b u d f s t _)).
  cbv beta iota.
  rewrite (bind_run _ _ _ _ _ (set_links_run env Force g tr a b _ _ _ _ _ v0 rest _ _ _ _)).
  fold up d1 d2 FA FB send. rewrite HnB.
  assert (Hpos : forall c tr',
             form_new_pos az el (mkWorld g c tr') = (Ok new_pos, mkWorld g c tr')).
  { intros c tr'. rewrite form_new_pos_run. fold az el in Htgt. subst new_pos.
    destruct (Qle_bool 0 el).
    - injection Htgt as <-. reflexivity.
    - destruct (track_az g); [discriminate|]. injection Htgt as <-. reflexivity. }
  rewrite (bind_run _ _ _ _ _ (Hpos _ _)).
  rewrite (bind_run _ _ _ _ _ (update_rotor_run env Force new_pos g _ _)).
  fold pos daz de send moved. cbv beta iota.
  destruct g as [sel nss eng fl r x ta ao lo sats]. mrun.
  rewrite <- !app_assoc. reflexivity.
Qed.

(** ** Band mapping and Doppler scaling *)

Lemma uplink_of_df (t : Transp) (f : Q) :
  fst (uplink_of t f) = f - inject_Z (fdn1 t).
Proof. unfold uplink_of. destruct (Inverting t); reflexivity. Qed.

Lemma uplink_of_fup (t : Transp) (f : Q) :
  snd (uplink_of t f) =
  if Inverting t
  then inject_Z (fup2 t) - (f - inject_Z (fdn1 t))
  else inject_Z (fup1 t) + (f - inject_Z (fdn1 t)).
Proof. unfold uplink_of. destruct (Inverting t); reflexivity. Qed.

(** C2. With [downlink_offset = fdown - fdn1], the first block of
    [track_freqs] computes and stores the uplink [fup2 - downlink_offset]
    for an inverting transponder and [fup1 + downlink_offset] otherwise;
    so for a non-inverting transponder the uplink lies above [fup1] by the
    downlink offset, and for an inverting one a reference downlink raised
    by [delta] gives an uplink lowered by [delta]. *)
Theorem uplink_follows_downlink
  (env : tick_env) (g : gui_state) (tr : list event) (a : Z) (b : option Z)
  (u d : option Q) (s : SATELLITE) (vs : option (list string))
  (t : Transp) (f : Q) :
  let downlink_offset := f - inject_Z (fdn1 t) in
  let uplink :=
    if Inverting t
    then inject_Z (fup2 t) - downlink_offset
    else inject_Z (fup1 t) + downlink_offset in
  (exists fdop1 fdop2 az el w',
      compute_links env (mkWorld g (mkCtrl a b (Some f) u d (Some s) (Some t) vs) tr)
      = (Ok (f, downlink_offset, uplink, fdop1, fdop2, az, el), w') /\
      fup (w_ctrl w') = Some uplink) /\
  (if Inverting t
   then forall delta : Q, snd (uplink_of t (f + delta)) == uplink - delta
   else uplink - inject_Z (fup1 t) == downlink_offset).
Proof.
  intros downlink_offset uplink. split.
  - do 5 eexists. rewrite compute_links_run, uplink_of_df, uplink_of_fup.
    split; reflexivity.
  - subst uplink downlink_offset. destruct (Inverting t) eqn:Hinv.
    + intros delta. rewrite uplink_of_fup, Hinv. ring.
    + ring.
Qed.

(** C3. [Doppler_Shifts] scales the shift reported for 100 MHz: the
    downlink shift is [1e-8 * dop100 * fdown], the uplink shift is the
    negative [-(1e-8 * dop100 * fup)], and the downlink shift at [2 f] is
    twice the shift at [f]. *)
Theorem Doppler_Shifts_scaling (o : observation) (fdown' fup' : Q) :
  let dop100 := doppler o in
  let fdop1 (f : Q) := fst (fst (fst (Doppler_Shifts o f fup'))) in
  let fdop2 := snd (fst (fst (Doppler_Shifts o fdown' fup'))) in
  fdop1 fdown' == (1 # 100000000) * dop100 * fdown' /\
  fdop2 == - ((1 # 100000000) * dop100 * fup') /\
  fdop1 (2 * fdown') == 2 * fdop1 fdown' /\
  Doppler_Shifts o fdown' fup' = (fdop1 fdown', fdop2, azimuth o, elevation o).
Proof.
  cbv zeta. unfold Doppler_Shifts. cbn [fst snd].
  repeat split; try reflexivity; ring.
Qed.

(** ** Truncation *)

Lemma int_of_float_floor (x : Q) : 0 <= x -> int_of_float x = Qfloor x.
Proof.
  destruct x as [n dn]. unfold int_of_float, Qfloor, Qle. cbn [Qnum Qden].
  intros H. apply Z.quot_div_nonneg; lia.
Qed.

Lemma int_of_float_opp (x : Q) : int_of_float (- x) = (- int_of_float x)%Z.
Proof.
  destruct x as [n dn]. unfold int_of_float, Qopp. cbn [Qnum Qden].
  apply Z.quot_opp_l. lia.
Qed.

Lemma int_of_float_comp (x y : Q) : x == y -> int_of_float x = int_of_float y.
Proof.
  intros Hxy. destruct (Qlt_le_dec x 0) as [Hneg|Hpos].
  - pose proof (int_of_float_opp x) as Hx. pose proof (int_of_float_opp y) as Hy.
    rewrite !int_of_float_floor in Hx, Hy by lra.
    assert (Hf : Qfloor (- x) = Qfloor (- y)) by (apply Qfloor_comp; lra).
    lia.
  - rewrite !int_of_float_floor by lra. now apply Qfloor_comp.
Qed.

Lemma int_of_float_Z (n : Z) : int_of_float (inject_Z n) = n.
Proof. unfold int_of_float, inject_Z. cbn [Qnum Qden]. apply Z.quot_1_r. Qed.

(** ** Running Updater *)

Lemma update_aos_los_run (env : tick_env) (g : gui_state) (c : rig_control)
  (tr : list event) :
  exists e, update_aos_los env (mkWorld g c tr) = (Ok tt, mkWorld g c (tr ++ [txt9 e])).
Proof.
  destruct g as [sel nss eng fl r x ta ao lo sats].
  unfold update_aos_los. mrun.
  destruct (Qgtb (ao - now env) 0); [eexists; reflexivity|].
  destruct (Qgtb (lo - now env) 0); eexists; reflexivity.
Qed.

(** A tick of a disengaged loop that already holds a reference downlink
    frequency, or of a loop without a selection, only refreshes the
    AOS/LOS indicator. *)
Lemma Updater_idle (env : tick_env) (g : gui_state) (c : rig_control)
  (tr : list event) :
  ((rig_engaged g || is_None (fdown c)) && truthy (Selected g))%bool = false ->
  Updater env (mkWorld g c tr) = update_aos_los env (mkWorld g c tr).
Proof.
  intros H. unfold Updater.
  destruct g as [sel nss eng fl r x ta ao lo sats].
  destruct c as [a b f u d s t vs].
  cbn [rig_engaged Selected fdown] in H. mrun. rewrite H. reflexivity.
Qed.

(** A tick of the engaged loop after acquisition: the dial check, then
    [track_freqs], then the AOS/LOS indicator. *)
Lemma Updater_tracking (env : tick_env) (g : gui_state) (tr : list event)
  (a : Z) (b : option Z) (u : option Q) (f d : Q) (s : option SATELLITE)
  (t : option Transp) (v0 : string) (rest : list string) :
  rig_engaged g = true -> truthy (Selected g) = true ->
  New_Sat_Selection g = false ->
  let frq := vfo_reading env in
  let retuned := (Z.ltb 0 frq && negb (Z.eqb frq a))%bool in
  Updater env (mkWorld g (mkCtrl a b (Some f) u (Some d) s t (Some (v0 :: rest))) tr) =
  bind (track_freqs env false) (fun _ => update_aos_los env)
    (mkWorld g
       (mkCtrl (if retuned then frq else a) b
          (Some (if retuned then inject_Z frq - d else f)) u (Some d) s t
          (Some (v0 :: rest)))
       tr).
Proof.
  intros He Hs Hn frq retuned. unfold Updater, dial_check.
  destruct g as [sel nss eng fl r x ta ao lo sats].
  cbn [rig_engaged Selected New_Sat_Selection] in He, Hs, Hn. subst eng nss.
  mrun. rewrite Hs. cbn [orb andb nth_error]. mrun. fold frq.
  subst retuned. destruct (Z.ltb 0 frq && negb (Z.eqb frq a))%bool; reflexivity.
Qed.

(** ** Commanded frequencies *)

(** After acquisition: [frqB] holds a value and the stored track has a
    first sample, so [track_freqs] returns. *)
Lemma track_freqs_acquired (env : tick_env) (Force : bool) (g : gui_state)
  (tr : list event) (a b0 : Z) (u d : option Q) (f : Q)
  (s : SATELLITE) (t : Transp) (v0 : string) (rest : list string)
  (a0 : Q) (trk : list Q) :
  track_az g = a0 :: trk ->
  exists nB evs,
    track_freqs env Force
      (mkWorld g (mkCtrl a (Some b0) (Some f) u d (Some s) (Some t) (Some (v0 :: rest))) tr)
    = (Ok tt,
       mkWorld g
         (mkCtrl
            (int_of_float
               (f + (1 # 100000000) * doppler (obs env) * f + inject_Z (rit g)))
            (Some nB) (Some f) (Some (snd (uplink_of t f)))
            (Some ((1 # 100000000) * doppler (obs env) * f)) (Some s) (Some t)
            (Some (v0 :: rest)))
         (tr ++ evs)).
Proof.
  intros Htrk.
  eexists. eexists.
  apply (track_freqs_run env Force g tr a (Some b0) u d f s t v0 rest
           (if Qle_bool 0 (elevation (obs env))
            then (azimuth (obs env), elevation (obs env)) else (a0, 0))
           (match rest with
            | [] => b0
            | _ :: _ =>
                int_of_float
                  (snd (uplink_of t f) +
                   - (1 # 100000000) * doppler (obs env) * snd (uplink_of t f) +
                   inject_Z (xit g))
            end)).
  - rewrite Htrk. destruct (Qle_bool 0 (elevation (obs env))); reflexivity.
  - destruct rest; reflexivity.
Qed.

(** ** Manual retune *)

(** The state an engaged tick after acquisition leaves. *)
Lemma Updater_tracking_run (env : tick_env) (g : gui_state) (tr : list event)
  (a b0 : Z) (u : option Q) (f d : Q) (s : SATELLITE) (t : Transp)
  (v0 : string) (rest : list string) (a0 : Q) (trk : list Q) :
  rig_engaged g = true -> truthy (Selected g) = true ->
  New_Sat_Selection g = false -> track_az g = a0 :: trk ->
  let f' := rebased (vfo_reading env) a d f in
  let fdop1' := (1 # 100000000) * doppler (obs env) * f' in
  exists nB evs e9,
    Updater env
      (mkWorld g (mkCtrl a (Some b0) (Some f) u (Some d) (Some s) (Some t)
                    (Some (v0 :: rest))) tr) =
    (Ok tt,
     mkWorld g
       (mkCtrl (int_of_float (f' + fdop1' + inject_Z (rit g))) (Some nB)
          (Some f') (Some (snd (uplink_of t f'))) (Some fdop1')
          (Some s) (Some t) (Some (v0 :: rest)))
       ((tr ++ evs) ++ [txt9 e9])).
Proof.
  intros He Hs Hn Htrk f' fdop1'.
  rewrite (Updater_tracking env g tr a (Some b0) u f d (Some s) (Some t) v0 rest He Hs Hn).
  cbv zeta. fold (rebased (vfo_reading env) a d f). fold f'.
  destruct (track_freqs_acquired env false g tr
              (if (Z.ltb 0 (vfo_reading env) && negb (Z.eqb (vfo_reading env) a))%bool
               then vfo_reading env else a) b0 u (Some d) f' s t v0 rest a0 trk Htrk)
    as (nB & evs & Htf).
  rewrite (bind_run _ _ _ _ _ Htf). fold fdop1'.
  destruct (update_aos_los_run env g
              (mkCtrl (int_of_float (f' + fdop1' + inject_Z (rit g))) (Some nB)
                 (Some f') (Some (snd (uplink_of t f'))) (Some fdop1')
                 (Some s) (Some t) (Some (v0 :: rest)))
              (tr ++ evs)) as (e9 & H9).
  exists nB, evs, e9. exact H9.
Qed.

(** ** Rotor target *)

(** C6.  The rotor target of a tick is [(az, el)] when [el >= 0] and
    (first azimuth of the stored track, 0) when [el < 0]; with the flip
    flag set the target [(az', el')] becomes [(az' + 180, 180 - el')] when
    [az' < 180] and [(az' - 180, 180 - el')] otherwise, and without it the
    target is left as it is. *)
Theorem rotor_target (az el : Q) (g : gui_state) (c : rig_control)
  (tr : list event) (a0 : Q) (trk : list Q) :
  track_az g = a0 :: trk ->
  exists target new_pos,
    form_new_pos az el (mkWorld g c tr) = (Ok new_pos, mkWorld g c tr) /\
    (0 <= el -> target = (az, el)) /\
    (el < 0 -> target = (a0, 0)) /\
    (flipper g = false -> new_pos = target) /\
    (flipper g = true -> fst target < 180 ->
     new_pos = (fst target + 180, 180 - snd target)) /\
    (flipper g = true -> 180 <= fst target ->
     new_pos = (fst target - 180, 180 - snd target)).
Proof.
  intros Htrk.
  exists (if Qle_bool 0 el then (az, el) else (a0, 0)).
  exists (if flipper g
          then flip_pos (if Qle_bool 0 el then (az, el) else (a0, 0))
          else if Qle_bool 0 el then (az, el) else (a0, 0)).
  split; [|split; [|split; [|split; [|split]]]].
  - rewrite form_new_pos_run, Htrk.
    destruct (Qle_bool 0 el); destruct (flipper g); reflexivity.
  - intros H. apply Qle_bool_iff in H. now rewrite H.
  - intros H. destruct (Qle_bool 0 el) eqn:E; [|reflexivity].
    apply Qle_bool_iff in E. lra.
  - intros ->. reflexivity.
  - intros -> H. unfold flip_pos. apply Qltb_lt in H. now rewrite H.
  - intros -> H. unfold flip_pos. apply Qltb_ge in H. now rewrite H.
Qed.

Lemma rotor_target_witness :
  form_new_pos 200 (-5) (mkWorld (mkGui (Some "FO-29") false true true 0 0 [100; 170; 190; 260] 1000 2000 []) ctrl_init [])
  = (Ok (100 + 180, 180 - 0),
     mkWorld (mkGui (Some "FO-29") false true true 0 0 [100; 170; 190; 260] 1000 2000 []) ctrl_init []).
Proof.
  destruct (rotor_target 200 (-5)
              (mkGui (Some "FO-29") false true true 0 0 [100; 170; 190; 260] 1000 2000 [])
              ctrl_init [] 100 [170; 190; 260] eq_refl)
    as (target & new_pos & Hrun & _ & Hbelow & _ & Hflip & _).
  assert (Ht : target = (100, 0)) by (apply Hbelow; reflexivity).
  subst target. rewrite Hrun, (Hflip eq_refl); reflexivity.
Defined.

(** ** Rotor hysteresis *)

Lemma py_abs_Qabs (x : Q) : py_abs x == Qabs x.
Proof.
  unfold py_abs. destruct (Qltb x 0) eqn:E.
  - apply Qltb_lt in E. rewrite Qabs_neg by lra. reflexivity.
  - apply Qltb_ge in E. rewrite Qabs_pos by lra. reflexivity.
Qed.

Lemma error_exceeds_iff (daz de : Q) :
  error_exceeds daz de = true <-> 10 < Qabs daz \/ 10 < Qabs de.
Proof.
  unfold error_exceeds, ROTOR_THRESH.
  rewrite orb_true_iff, !Qgtb_gt, !py_abs_Qabs. reflexivity.
Qed.

(** C7, as the code has it.  The rotor block of [track_freqs] issues a
    position command exactly when the rotor connection is active, the
    azimuth error or the elevation error exceeds 10 degrees in absolute
    value, and the loop is engaged or the call is forced; the command
    carries the target.  No command is issued at errors of 5 and 3
    degrees, and one is issued at an azimuth error of 12 degrees when the
    rotor is active and the loop is engaged or the call is forced. *)
Theorem rotor_command (env : tick_env) (Force : bool) (new_pos : Q * Q)
  (g : gui_state) (c : rig_control) (tr : list event) :
  let daz := fst (rotor_position env) - fst new_pos in
  let de := snd (rotor_position env) - snd new_pos in
  exists (rotor_updated : bool) pos daz' de' evs,
    update_rotor env Force new_pos (mkWorld g c tr)
    = (Ok (rotor_updated, pos, daz', de'), mkWorld g c (tr ++ evs)) /\
    (evs = [set_position new_pos] \/ evs = []) /\
    (evs = [set_position new_pos] <->
     rotor_active env = true /\
     (10 < Qabs daz \/ 10 < Qabs de) /\
     (rig_engaged g = true \/ Force = true)) /\
    (rotor_updated = true <-> evs = [set_position new_pos]) /\
    (Qabs daz == 5 -> Qabs de == 3 -> evs = []) /\
    (Qabs daz == 12 -> rotor_active env = true ->
     rig_engaged g = true \/ Force = true -> evs = [set_position new_pos]).
Proof.
  intros daz de.
  assert (Hiff :
    (rotor_active env && error_exceeds daz de && (rig_engaged g || Force))%bool = true <->
    rotor_active env = true /\ (10 < Qabs daz \/ 10 < Qabs de) /\
    (rig_engaged g = true \/ Force = true)).
  { rewrite !andb_true_iff, orb_true_iff, error_exceeds_iff. tauto. }
  do 5 eexists. split; [apply update_rotor_run|]. cbv zeta. fold daz de.
  destruct (rotor_active env && error_exceeds daz de && (rig_engaged g || Force))%bool
    eqn:Hm.
  - assert (Hc := proj1 Hiff eq_refl).
    split; [now left|]. split; [tauto|]. split; [tauto|]. split; [|reflexivity].
    intros H5 H3. destruct Hc as (_ & [H|H] & _); [rewrite H5 in H | rewrite H3 in H];
      apply Qlt_not_le in H; exfalso; apply H; discriminate.
  - assert (Hn : ~ (rotor_active env = true /\ (10 < Qabs daz \/ 10 < Qabs de) /\
                    (rig_engaged g = true \/ Force = true))).
    { intros H. apply Hiff in H. discriminate. }
    split; [now right|]. split; [split; [discriminate | tauto]|].
    split; [split; discriminate|]. split; [reflexivity|].
    intros H12 Ha He. exfalso. apply Hn. split; [exact Ha|]. split; [|exact He].
    left. rewrite H12. reflexivity.
Qed.

Lemma rotor_command_witness :
  let w := mkWorld (ex_gui true 0) (ex_ctrl 435850000 435850000 0) [] in
  (exists r,
      update_rotor (ex_env 0 0 (212, 30)) false (200, 30) w =
      (Ok r, mkWorld (ex_gui true 0) (ex_ctrl 435850000 435850000 0)
               ([] ++ [set_position (200, 30)]))) /\
  (exists r,
      update_rotor (ex_env 0 0 (205, 33)) false (200, 30) w =
      (Ok r, mkWorld (ex_gui true 0) (ex_ctrl 435850000 435850000 0) ([] ++ []))).
Proof.
  cbv zeta. split.
  - destruct (rotor_command (ex_env 0 0 (212, 30)) false (200, 30) (ex_gui true 0)
                (ex_ctrl 435850000 435850000 0) [])
      as (ru & pos & daz & de & evs & Hrun & _ & _ & _ & _ & H12).
    rewrite H12 in Hrun; [eexists; exact Hrun | | | ].
    + vm_compute. reflexivity.
    + reflexivity.
    + left. reflexivity.
  - destruct (rotor_command (ex_env 0 0 (205, 33)) false (200, 30) (ex_gui true 0)
                (ex_ctrl 435850000 435850000 0) [])
      as (ru & pos & daz & de & evs & Hrun & _ & _ & _ & H53 & _).
    rewrite H53 in Hrun; [eexists; exact Hrun | | ].
    + vm_compute. reflexivity.
    + vm_compute. reflexivity.
Defined.

(** C7 as stated fails: a forced call with the rotor on target issues no
    position command (it writes the two frequencies only), and with the
    loop disengaged an unforced call issues none at an azimuth error of 12
    degrees. *)
Lemma forced_call_does_not_move_rotor :
  let w := mkWorld (ex_gui false 0) (ex_ctrl 435850000 435850000 0) [] in
  (fst (track_freqs (ex_env 0 0 (200, 30)) true w) = Ok tt /\
   map is_set_freq (w_trace (snd (track_freqs (ex_env 0 0 (200, 30)) true w)))
   = [true; true; false; false] /\
   existsb is_set_position
     (w_trace (snd (track_freqs (ex_env 0 0 (200, 30)) true w))) = false) /\
  (fst (track_freqs (ex_env 0 0 (212, 30)) false w) = Ok tt /\
   existsb is_set_position
     (w_trace (snd (track_freqs (ex_env 0 0 (212, 30)) false w))) = false).
Proof. vm_compute. repeat split; reflexivity. Qed.

(** ** The first acquisition

    Selecting a pass and letting the timer tick once, from the initial
    state: the tick runs although the loop is disengaged, because no
    reference downlink frequency is set yet.  It puts the rig in split
    mode and sets the modes, tunes to the centre of the passband, and logs
    the record without writing a frequency or a rotor position. *)
Example first_acquisition :
  let w0 := mkWorld (gui_init [("FO-29", ex_sat)]) ctrl_init [] in
  let run :=
    bind (plot_sky_track "FO-29" [100; 170; 190; 260] 1000 2000)
         (fun _ => Updater (ex_env (-1234) 0 (180, 20))) w0 in
  fst run = Ok tt /\
  transp (w_ctrl (snd run)) = Some ex_transp /\
  vfos (w_ctrl (snd run)) = Some ["A"; "B"] /\
  fdown (w_ctrl (snd run)) = Some ((1 # 2) * inject_Z (435800000 + 435900000)) /\
  frqA (w_ctrl (snd run)) = 435844621%Z /\
  frqB (w_ctrl (snd run)) = Some 145951801%Z /\
  New_Sat_Selection (w_gui (snd run)) = false /\
  rig_engaged (w_gui (snd run)) = false /\
  flipper (w_gui (snd run)) = true /\
  firstn 4 (w_trace (snd run)) =
    [split_mode 1; set_mode "USB" "A" None; set_mode "LSB" "B" None; recorder true] /\
  map is_log_write (w_trace (snd run)) = [false; false; false; false; true; false] /\
  existsb is_set_freq (w_trace (snd run)) = false /\
  existsb is_set_position (w_trace (snd run)) = false.
Proof. vm_compute. repeat split; reflexivity. Qed.

(** ** The main transponder *)

Lemma append_cons (c : ascii) (a b : string) :
  (String c a ++ b)%string = String c (a ++ b).
Proof. reflexivity. Qed.

Lemma append_nil (b : string) : ("" ++ b)%string = b.
Proof. reflexivity. Qed.

Lemma prefix_app (a b : string) :
  String.prefix a b = true <-> exists post : string, b = a ++ post.
Proof.
  revert b. induction a as [|c a IH]; intros b.
  - split; [intros _; now exists b | intros _; now destruct b].
  - destruct b as [|c' b]; simpl.
    + split; [discriminate | intros [post H]; discriminate].
    + destruct (ascii_dec c c') as [<-|Hne].
      * rewrite IH. split; intros [post H]; exists post;
          rewrite append_cons in *; congruence.
      * split; [discriminate | intros [post H]; rewrite append_cons in H; congruence].
Qed.

Lemma isin_nil (needle : string) :
  isin needle "" = (String.prefix needle "" || false)%bool.
Proof. reflexivity. Qed.

Lemma isin_cons (needle : string) (c : ascii) (hay : string) :
  isin needle (String c hay) =
  (String.prefix needle (String c hay) || isin needle hay)%bool.
Proof. reflexivity. Qed.

Lemma isin_contains (needle hay : string) :
  isin needle hay = true <-> contains needle hay.
Proof.
  unfold contains. induction hay as [|c hay IH].
  - rewrite isin_nil, orb_false_r, prefix_app. split.
    + intros [post H]. now exists "", post.
    + intros (pre & post & H). destruct pre; [now exists post | discriminate].
  - rewrite isin_cons, orb_true_iff, IH, prefix_app. split.
    + intros [[post H] | (pre & post & H)].
      * now exists "", post.
      * exists (String c pre), post. rewrite append_cons. now rewrite H.
    + intros (pre & post & H). destruct pre as [|c' pre].
      * left. now exists post.
      * right. exists pre, post. rewrite append_cons in H. congruence.
Qed.

Lemma upper_app (a b : string) : upper (a ++ b) = upper a ++ upper b.
Proof.
  induction a as [|c a IH]; [reflexivity|].
  rewrite append_cons. simpl. now rewrite IH.
Qed.

Lemma contains_upper (needle hay : string) :
  contains needle hay -> contains (upper needle) (upper hay).
Proof.
  intros (pre & post & ->). exists (upper pre), (upper post).
  now rewrite !upper_app.
Qed.

Lemma candidate_main_candidate (name : string) :
  candidate name = true <-> main_candidate name.
Proof.
  unfold candidate, main_candidate, excluded, fits_criteria. cbv zeta.
  rewrite andb_true_iff, negb_true_iff, <- not_true_iff_false.
  rewrite !orb_true_iff, !isin_contains, !String.eqb_eq.
  intuition congruence.
Qed.

Lemma candidate_nonempty (name : string) : candidate name = true -> name <> "".
Proof. intros H ->. discriminate H. Qed.

(** What the search leaves after a list of names, from a state in which
    [main] is unset or holds a non-empty name. *)
Lemma flag_main_candidate (name : string) (st : loader) :
  flag_main name st =
  if candidate name then
    if negb (truthy (ld_main st))
    then mkLoader (Some name) (ld_transponders st) (ld_warnings st)
    else mkLoader (ld_main st) (ld_transponders st) (S (ld_warnings st))
  else st.
Proof.
  unfold flag_main, candidate.
  destruct (excluded (upper name)); [reflexivity|].
  destruct (fits_criteria (upper name)); reflexivity.
Qed.

Lemma od_set_keys {V : Type} (key : string) (v : V) (d : list (string * V)) (x : string) :
  In x (map fst (od_set key v d)) <-> x = key \/ In x (map fst d).
Proof.
  induction d as [|[k w] d IH]; simpl.
  - intuition congruence.
  - destruct (String.eqb k key) eqn:E; simpl.
    + apply String.eqb_eq in E. subst k. intuition congruence.
    + rewrite IH. intuition congruence.
Qed.

Lemma load_section_inv (py_int : string -> option Z) (st st' : loader)
  (name : string) (raw : gmap string string) :
  load_section py_int st (name, raw) = Ok st' ->
  exists items,
    parse_items py_int raw = Ok items /\ is_Some (items !! "mode") /\
    ld_main st' = ld_main (flag_main name st) /\
    ld_warnings st' = ld_warnings (flag_main name st) /\
    ld_transponders st' = od_set name items (ld_transponders (flag_main name st)).
Proof.
  unfold load_section, res_bind, getitem.
  destruct (parse_items py_int raw) as [items|e]; [|discriminate].
  destruct (items !! "mode") as [m|] eqn:Hm; [|discriminate].
  intros [= <-]. exists items. rewrite Hm. simpl. eauto 10.
Qed.

Lemma flag_main_transponders (name : string) (st : loader) :
  ld_transponders (flag_main name st) = ld_transponders st.
Proof.
  rewrite flag_main_candidate.
  destruct (candidate name); [|reflexivity].
  destruct (negb (truthy (ld_main st))); reflexivity.
Qed.

Lemma load_sections_main (py_int : string -> option Z)
  (secs : list (string * gmap string string)) : forall st ld : loader,
  load_sections py_int st secs = Ok ld ->
  (forall m, ld_main st = Some m -> m <> "") ->
  ld_main ld =
    match ld_main st with
    | Some m => Some m
    | None => List.find candidate (map fst secs)
    end /\
  ld_warnings ld =
    (ld_warnings st +
     match ld_main st with
     | Some _ => List.length (List.filter candidate (map fst secs))
     | None => List.length (List.filter candidate (map fst secs)) - 1
     end)%nat /\
  (forall x, In x (map fst secs) \/ In x (map fst (ld_transponders st)) ->
             In x (map fst (ld_transponders ld))).
Proof.
  induction secs as [|[name raw] secs IH]; intros st ld Hload Hne;
    cbn [load_sections] in Hload.
  - injection Hload as <-. simpl.
    split; [now destruct (ld_main st)|]. split; [destruct (ld_main st); lia|].
    intros x [[]|H]. exact H.
  - unfold res_bind in Hload.
    destruct (load_section py_int st (name, raw)) as [st'|e] eqn:Hsec; [|discriminate].
    apply load_section_inv in Hsec.
    destruct Hsec as (items & _ & _ & Hmain & Hwarn & Htr).
    rewrite flag_main_transponders in Htr.
    rewrite flag_main_candidate in Hmain, Hwarn.
    assert (Hne' : forall m, ld_main st' = Some m -> m <> "").
    { intros m. rewrite Hmain. destruct (candidate name) eqn:Hc; [|apply Hne].
      destruct (negb (truthy (ld_main st))); simpl; [|apply Hne].
      intros [= <-]. now apply candidate_nonempty. }
    destruct (IH st' ld Hload Hne') as (IHm & IHw & IHt). clear IH.
    assert (Hc' : candidate (fst (name, raw)) = candidate name) by reflexivity.
    assert (Ht : forall m, ld_main st = Some m -> truthy (ld_main st) = true).
    { intros m Hm. rewrite Hm. simpl. apply negb_true_iff, String.eqb_neq.
      now apply Hne. }
    split; [|split].
    + rewrite IHm, Hmain. cbn [map fst List.find]. rewrite ?Hc'.
      destruct (candidate name).
      * destruct (ld_main st) as [m|] eqn:Hst.
        -- rewrite (Ht m eq_refl). reflexivity.
        -- reflexivity.
      * reflexivity.
    + rewrite IHw, Hwarn, Hmain. cbn [map fst List.filter]. rewrite ?Hc'.
      destruct (candidate name).
      * destruct (ld_main st) as [m|] eqn:Hst.
        -- rewrite (Ht m eq_refl). cbn [negb ld_main ld_warnings List.length]. lia.
        -- cbn [truthy negb ld_main ld_warnings List.length]. lia.
      * destruct (ld_main st); reflexivity.
    + intros x [[<-|Hx]|Hx]; apply IHt.
      * right. rewrite Htr. apply od_set_keys. now left.
      * now left.
      * right. rewrite Htr. apply od_set_keys. now right.
Qed.

Lemma find_first (p : string -> bool) (l : list string) (m : string) :
  List.find p l = Some m <->
  exists before after,
    l = (before ++ m :: after)%list /\ p m = true /\
    forall x, In x before -> p x = false.
Proof.
  induction l as [|a l IH]; simpl.
  - split; [discriminate|]. intros (before & after & H & _).
    destruct before; discriminate.
  - destruct (p a) eqn:Hpa.
    + split.
      * intros [= <-]. exists [], l. simpl. intuition.
      * intros (before & after & H & Hm & Hb). destruct before as [|b before].
        -- simpl in H. congruence.
        -- simpl in H. injection H as <- _. rewrite (Hb a) in Hpa; [discriminate|now left].
    + rewrite IH. split.
      * intros (before & after & -> & Hm & Hb). exists (a :: before), after.
        simpl. split; [reflexivity|]. split; [exact Hm|].
        intros x [<-|Hx]; auto.
      * intros (before & after & H & Hm & Hb). destruct before as [|b before].
        -- simpl in H. injection H as <- _. congruence.
        -- simpl in H. injection H as <- ->. exists before, after.
           split; [reflexivity|]. split; [exact Hm|]. intros x Hx. apply Hb. now right.
Qed.

Lemma find_none (p : string -> bool) (l : list string) :
  List.find p l = None <-> forall x, In x l -> p x = false.
Proof.
  split; [apply find_none|].
  induction l as [|a l IH]; simpl; intros H; [reflexivity|].
  rewrite (H a) by now left. apply IH. intros x Hx. apply H. now right.
Qed.

(** C9.  When the transponder file loads, the main transponder is the
    first section, in file order, whose upper-cased name contains neither
    "PE0SAT" nor "L/V" and contains "FM VOICE", "TRANSPONDER" or
    "TRANSPODER" or is one of the three linear-transponder labels; later
    sections that fit only add a warning each and are stored like the
    others; when no section fits, no main transponder is set.  A section
    whose name contains "PE0SAT" or "L/V" is never the main one. *)
Theorem main_transponder_selection (py_int : string -> option Z)
  (secs : list (string * gmap string string)) (ld : loader) :
  get_transponders py_int secs = Ok ld ->
  let names := map fst secs in
  (forall m : string,
      ld_main ld = Some m <->
      exists before after : list string,
        names = (before ++ m :: after)%list /\ main_candidate m /\
        forall x, In x before -> ~ main_candidate x) /\
  (ld_main ld = None <-> forall x, In x names -> ~ main_candidate x) /\
  ld_warnings ld = (List.length (List.filter candidate names) - 1)%nat /\
  (forall x, In x names -> In x (map fst (ld_transponders ld))) /\
  (forall x, contains "PE0SAT" x \/ contains "L/V" x -> ld_main ld <> Some x).
Proof.
  intros Hload names. unfold get_transponders in Hload.
  destruct (load_sections_main py_int secs loader_init ld Hload)
    as (Hmain & Hwarn & Hkeys); [discriminate|].
  cbn [loader_init ld_main ld_warnings ld_transponders] in Hmain, Hwarn, Hkeys.
  fold names in Hmain, Hwarn, Hkeys.
  assert (Hfalse : forall x, candidate x = false <-> ~ main_candidate x).
  { intros x. rewrite <- candidate_main_candidate. symmetry. apply not_true_iff_false. }
  split; [|split; [|split; [|split]]].
  - intros m. rewrite Hmain, find_first. split.
    + intros (before & after & Hn & Hm & Hb). exists before, after.
      split; [exact Hn|]. split; [now apply candidate_main_candidate|].
      intros x Hx. apply Hfalse. now apply Hb.
    + intros (before & after & Hn & Hm & Hb). exists before, after.
      split; [exact Hn|]. split; [now apply candidate_main_candidate|].
      intros x Hx. apply Hfalse. now apply Hb.
  - rewrite Hmain, find_none. split; intros H x Hx; apply Hfalse; now apply H.
  - rewrite Hwarn. reflexivity.
  - intros x Hx. apply Hkeys. now left.
  - intros x Hx Hm. rewrite Hmain in Hm. apply find_some in Hm.
    destruct Hm as [_ Hm]. apply candidate_main_candidate in Hm.
    destruct Hm as [Hex _]. apply Hex.
    destruct Hx as [Hx|Hx]; apply contains_upper in Hx; [left | right]; exact Hx.
Qed.

Lemma main_transponder_selection_witness :
  get_transponders parse_decimal ex_sections =
  Ok (mkLoader (sat_main ex_sat) (sat_transponders ex_sat) 1) /\
  sat_main ex_sat = Some "Mode V/U (J) Linear Transponder" /\
  (exists before after : list string,
      map fst ex_sections =
      (before ++ "Mode V/U (J) Linear Transponder" :: after)%list /\
      main_candidate "Mode V/U (J) Linear Transponder" /\
      forall x, In x before -> ~ main_candidate x) /\
  (forall x, In x (map fst ex_sections) -> In x (map fst (sat_transponders ex_sat))).
Proof.
  assert (Hload : get_transponders parse_decimal ex_sections =
                  Ok (mkLoader (sat_main ex_sat) (sat_transponders ex_sat) 1)).
  { vm_compute. reflexivity. }
  assert (Hmain : sat_main ex_sat = Some "Mode V/U (J) Linear Transponder").
  { vm_compute. reflexivity. }
  destruct (main_transponder_selection parse_decimal ex_sections _ Hload)
    as (Hfirst & _ & _ & Hkeys & _).
  split; [exact Hload|]. split; [exact Hmain|]. split.
  - apply Hfirst. exact Hmain.
  - exact Hkeys.
Defined.

(** ** The fields of a loaded transponder *)

Lemma copy_or_read (py_int : string -> option Z) (items : gmap string pyval)
  (src dst other : string) (n0 : Z) :
  items !! other = Some (VInt n0) ->
  (if haskey items src
   then v <-? getitem items src; n <-? int_of_val py_int v; Ok (<[dst := VInt n]> items)
   else v <-? getitem items other; Ok (<[dst := v]> items)) =
  (n <-? match items !! src with
         | Some v => int_of_val py_int v
         | None => Ok n0
         end;
   Ok (<[dst := VInt n]> items)).
Proof.
  intros Ho. unfold haskey, getitem, res_bind.
  destruct (items !! src) as [v|]; [reflexivity|]. now rewrite Ho.
Qed.

Lemma zero_or_read (py_int : string -> option Z) (items : gmap string pyval)
  (src dst : string) :
  (if haskey items src
   then v <-? getitem items src; n <-? int_of_val py_int v; Ok (<[dst := VInt n]> items)
   else Ok (<[dst := VInt 0]> items)) =
  (n <-? match items !! src with
         | Some v => int_of_val py_int v
         | None => Ok 0%Z
         end;
   Ok (<[dst := VInt n]> items)).
Proof.
  unfold haskey, getitem, res_bind.
  destruct (items !! src) as [v|]; reflexivity.
Qed.

Lemma read_fmap (py_int : string -> option Z) (o : option string) (r : res Z) :
  match VStr <$> o with
  | Some v => int_of_val py_int v
  | None => r
  end =
  match o with
  | Some s => int_of_val py_int (VStr s)
  | None => r
  end.
Proof. destruct o; reflexivity. Qed.

(** [parse_items] in closed form: it returns exactly when [down_low] is
    present and every numeric field that is present reads as an integer,
    and then it adds the five computed fields to the raw ones. *)
Lemma parse_items_closed (py_int : string -> option Z) (raw : gmap string string) :
  parse_items py_int raw =
  match raw !! "down_low" with
  | None => Raise KeyError
  | Some dl =>
      n1 <-? int_of_val py_int (VStr dl);
      n2 <-? match raw !! "down_high" with
             | Some dh => int_of_val py_int (VStr dh)
             | None => Ok n1
             end;
      n3 <-? match raw !! "up_low" with
             | Some ul => int_of_val py_int (VStr ul)
             | None => Ok 0%Z
             end;
      n4 <-? match raw !! "up_high" with
             | Some uh => int_of_val py_int (VStr uh)
             | None => Ok n3
             end;
      Ok (<["Inverting" := VBool (bool_decide (raw !! "invert" = Some "true"))]>
          (<["fup2" := VInt n4]>
           (<["fup1" := VInt n3]>
            (<["fdn2" := VInt n2]>
             (<["fdn1" := VInt n1]> (VStr <$> raw))))))
  end.
Proof.
  unfold parse_items.
  unfold getitem at 1. rewrite lookup_fmap.
  destruct (raw !! "down_low") as [dl|]; cbn [fmap option_fmap option_map res_bind];
    [|reflexivity].
  destruct (int_of_val py_int (VStr dl)) as [n1|e]; cbn [res_bind]; [|reflexivity].
  (* fdn2 *)
  rewrite (copy_or_read py_int _ "down_high" "fdn2" "fdn1" n1)
    by apply lookup_insert_eq.
  rewrite lookup_insert_ne, lookup_fmap, read_fmap by done.
  destruct (match raw !! "down_high" with
            | Some dh => int_of_val py_int (VStr dh)
            | None => Ok n1
            end) as [n2|e]; cbn [res_bind]; [|reflexivity].
  (* fup1 *)
  rewrite zero_or_read.
  rewrite !lookup_insert_ne, lookup_fmap, read_fmap by done.
  destruct (match raw !! "up_low" with
            | Some ul => int_of_val py_int (VStr ul)
            | None => Ok 0%Z
            end) as [n3|e]; cbn [res_bind]; [|reflexivity].
  (* fup2 *)
  rewrite (copy_or_read py_int _ "up_high" "fup2" "fup1" n3)
    by apply lookup_insert_eq.
  rewrite !lookup_insert_ne, lookup_fmap, read_fmap by done.
  destruct (match raw !! "up_high" with
            | Some uh => int_of_val py_int (VStr uh)
            | None => Ok n3
            end) as [n4|e]; cbn [res_bind]; [|reflexivity].
  (* Inverting *)
  unfold haskey, getitem.
  rewrite !lookup_insert_ne, lookup_fmap by done.
  destruct (raw !! "invert") as [iv|];
    cbn [fmap option_fmap option_map res_bind pyval_eqb].
  - destruct (String.eqb iv "true") eqn:E; cbn [res_bind].
    + apply String.eqb_eq in E. subst iv.
      rewrite lookup_insert_eq. cbn [pyval_truthy andb].
      rewrite insert_insert_eq. reflexivity.
    + apply String.eqb_neq in E. rewrite lookup_insert_eq. cbn [pyval_truthy andb].
      rewrite bool_decide_eq_false_2 by congruence. reflexivity.
  - rewrite lookup_insert_eq. reflexivity.
Qed.

Lemma int_of_val_VStr (py_int : string -> option Z) (s : string) (n : Z) :
  int_of_val py_int (VStr s) = Ok n <-> py_int s = Some n.
Proof.
  unfold int_of_val. destruct (py_int s); split; intros H; congruence.
Qed.

(** The fields [parse_items] adds, read back from its result. *)
Lemma parse_items_fields (py_int : string -> option Z) (raw : gmap string string)
  (items : gmap string pyval) :
  parse_items py_int raw = Ok items ->
  exists n1 n2 n3 n4 : Z,
    (items !! "fdn1" = Some (VInt n1) /\ items !! "fdn2" = Some (VInt n2) /\
     items !! "fup1" = Some (VInt n3) /\ items !! "fup2" = Some (VInt n4)) /\
    (exists dl, raw !! "down_low" = Some dl /\ py_int dl = Some n1) /\
    match raw !! "down_high" with
    | Some dh => py_int dh = Some n2
    | None => n2 = n1
    end /\
    match raw !! "up_low" with
    | Some ul => py_int ul = Some n3
    | None => n3 = 0%Z
    end /\
    match raw !! "up_high" with
    | Some uh => py_int uh = Some n4
    | None => n4 = n3
    end /\
    (exists inv : bool,
        items !! "Inverting" = Some (VBool inv) /\
        (inv = true <-> raw !! "invert" = Some "true")) /\
    (forall k : string,
        k <> "fdn1" -> k <> "fdn2" -> k <> "fup1" -> k <> "fup2" ->
        k <> "Inverting" -> items !! k = VStr <$> raw !! k).
Proof.
  rewrite parse_items_closed. intros H.
  destruct (raw !! "down_low") as [dl|]; [|discriminate].
  unfold res_bind in H.
  destruct (int_of_val py_int (VStr dl)) as [n1|e] eqn:H1; [|discriminate].
  destruct (match raw !! "down_high" with
            | Some dh => int_of_val py_int (VStr dh)
            | None => Ok n1
            end) as [n2|e] eqn:H2; [|discriminate].
  destruct (match raw !! "up_low" with
            | Some ul => int_of_val py_int (VStr ul)
            | None => Ok 0%Z
            end) as [n3|e] eqn:H3; [|discriminate].
  destruct (match raw !! "up_high" with
            | Some uh => int_of_val py_int (VStr uh)
            | None => Ok n3
            end) as [n4|e] eqn:H4; [|discriminate].
  injection H as <-. exists n1, n2, n3, n4.
  split; [|split; [|split; [|split; [|split; [|split]]]]].
  - repeat split.
    + rewrite !lookup_insert_ne by done. apply lookup_insert_eq.
    + rewrite !lookup_insert_ne by done. apply lookup_insert_eq.
    + rewrite !lookup_insert_ne by done. apply lookup_insert_eq.
    + rewrite !lookup_insert_ne by done. apply lookup_insert_eq.
  - exists dl. split; [reflexivity | now apply int_of_val_VStr].
  - destruct (raw !! "down_high"); [now apply int_of_val_VStr | congruence].
  - destruct (raw !! "up_low"); [now apply int_of_val_VStr | congruence].
  - destruct (raw !! "up_high"); [now apply int_of_val_VStr | congruence].
  - exists (bool_decide (raw !! "invert" = Some "true")).
    split; [apply lookup_insert_eq | apply bool_decide_eq_true].
  - intros k Hk1 Hk2 Hk3 Hk4 Hk5.
    rewrite !lookup_insert_ne by congruence. apply lookup_fmap.
Qed.

(** A section with [down_low] and with numeric fields that all read as
    integers loads. *)
Lemma parse_items_returns (py_int : string -> option Z) (raw : gmap string string)
  (dl : string) :
  raw !! "down_low" = Some dl -> is_Some (py_int dl) ->
  (forall k s, k = "down_high" \/ k = "up_low" \/ k = "up_high" ->
               raw !! k = Some s -> is_Some (py_int s)) ->
  exists items, parse_items py_int raw = Ok items.
Proof.
  intros Hdl [n1 H1] Hnum. rewrite parse_items_closed, Hdl.
  unfold res_bind, int_of_val. rewrite H1.
  destruct (raw !! "down_high") as [dh|] eqn:Hdh.
  - destruct (Hnum "down_high" dh) as [n2 H2]; [tauto | exact Hdh |]. rewrite H2.
    destruct (raw !! "up_low") as [ul|] eqn:Hul.
    + destruct (Hnum "up_low" ul) as [n3 H3]; [tauto | exact Hul |]. rewrite H3.
      destruct (raw !! "up_high") as [uh|] eqn:Huh; [|eauto].
      destruct (Hnum "up_high" uh) as [n4 H4]; [tauto | exact Huh |]. rewrite H4. eauto.
    + destruct (raw !! "up_high") as [uh|] eqn:Huh; [|eauto].
      destruct (Hnum "up_high" uh) as [n4 H4]; [tauto | exact Huh |]. rewrite H4. eauto.
  - destruct (raw !! "up_low") as [ul|] eqn:Hul.
    + destruct (Hnum "up_low" ul) as [n3 H3]; [tauto | exact Hul |]. rewrite H3.
      destruct (raw !! "up_high") as [uh|] eqn:Huh; [|eauto].
      destruct (Hnum "up_high" uh) as [n4 H4]; [tauto | exact Huh |]. rewrite H4. eauto.
    + destruct (raw !! "up_high") as [uh|] eqn:Huh; [|eauto].
      destruct (Hnum "up_high" uh) as [n4 H4]; [tauto | exact Huh |]. rewrite H4. eauto.
Qed.

(** Every entry of [self.transponders] is what [parse_items] returns for
    a section of the file of that name. *)
Lemma od_set_In {V : Type} (key : string) (v : V) (d : list (string * V))
  (k : string) (v' : V) :
  In (k, v') (od_set key v d) -> (k = key /\ v' = v) \/ In (k, v') d.
Proof.
  induction d as [|[k0 w0] d IH]; simpl.
  - intros [[= <- <-]|[]]. now left.
  - destruct (String.eqb k0 key) eqn:E; simpl.
    + apply String.eqb_eq in E. subst k0.
      intros [[= <- <-]|H]; [now left | right; now right].
    + intros [H|H]; [right; now left|].
      destruct (IH H) as [H'|H']; [now left | right; now right].
Qed.

Lemma load_sections_stored (py_int : string -> option Z)
  (secs : list (string * gmap string string)) : forall st ld : loader,
  load_sections py_int st secs = Ok ld ->
  forall name items,
    In (name, items) (ld_transponders ld) ->
    In (name, items) (ld_transponders st) \/
    exists raw, In (name, raw) secs /\ parse_items py_int raw = Ok items.
Proof.
  induction secs as [|[name0 raw0] secs IH]; intros st ld Hload name items Hin;
    cbn [load_sections] in Hload.
  - injection Hload as <-. now left.
  - unfold res_bind in Hload.
    destruct (load_section py_int st (name0, raw0)) as [st'|e] eqn:Hsec; [|discriminate].
    apply load_section_inv in Hsec.
    destruct Hsec as (items0 & Hparse & _ & _ & _ & Htr).
    rewrite flag_main_transponders in Htr.
    destruct (IH st' ld Hload name items Hin) as [H|(raw & Hraw & Hp)].
    + rewrite Htr in H. apply od_set_In in H. destruct H as [[-> ->]|H].
      * right. exists raw0. split; [now left | exact Hparse].
      * now left.
    + right. exists raw. split; [now right | exact Hp].
Qed.

Lemma load_sections_returns (py_int : string -> option Z)
  (secs : list (string * gmap string string)) :
  (forall name raw, In (name, raw) secs ->
     exists items, parse_items py_int raw = Ok items /\ is_Some (items !! "mode")) ->
  forall st : loader, exists ld, load_sections py_int st secs = Ok ld.
Proof.
  induction secs as [|[name raw] secs IH]; intros Hall st; cbn [load_sections].
  - now exists st.
  - destruct (Hall name raw) as (items & Hp & [m Hm]); [now left|].
    unfold load_section, res_bind, getitem. rewrite Hp, Hm.
    apply IH. intros name' raw' Hin. apply (Hall name' raw'). now right.
Qed.

(** C10.  The fields stored for a section that loads: [fdn1] is
    [down_low]; [fdn2] is [down_high] when present, else [fdn1]; [fup1] is
    [up_low] when present, else 0; [fup2] is [up_high] when present, else
    [fup1]; [Inverting] is true exactly when [invert] is the string
    "true"; whatever [Inverting] is, [fup1] and [fup2] are these values,
    never exchanged; the other keys hold the raw strings of the file. *)
Theorem loaded_fields (py_int : string -> option Z)
  (secs : list (string * gmap string string)) (ld : loader)
  (name : string) (items : gmap string pyval) :
  get_transponders py_int secs = Ok ld ->
  In (name, items) (ld_transponders ld) ->
  exists raw : gmap string string,
    In (name, raw) secs /\ parse_items py_int raw = Ok items /\
    exists n1 n2 n3 n4 : Z,
      (items !! "fdn1" = Some (VInt n1) /\ items !! "fdn2" = Some (VInt n2) /\
       items !! "fup1" = Some (VInt n3) /\ items !! "fup2" = Some (VInt n4)) /\
      (exists dl, raw !! "down_low" = Some dl /\ py_int dl = Some n1) /\
      match raw !! "down_high" with
      | Some dh => py_int dh = Some n2
      | None => n2 = n1
      end /\
      match raw !! "up_low" with
      | Some ul => py_int ul = Some n3
      | None => n3 = 0%Z
      end /\
      match raw !! "up_high" with
      | Some uh => py_int uh = Some n4
      | None => n4 = n3
      end /\
      (exists inv : bool,
          items !! "Inverting" = Some (VBool inv) /\
          (inv = true <-> raw !! "invert" = Some "true")) /\
      (forall k : string,
          k <> "fdn1" -> k <> "fdn2" -> k <> "fup1" -> k <> "fup2" ->
          k <> "Inverting" -> items !! k = VStr <$> raw !! k).
Proof.
  intros Hload Hin. unfold get_transponders in Hload.
  destruct (load_sections_stored py_int secs loader_init ld Hload name items Hin)
    as [[]|(raw & Hraw & Hparse)].
  exists raw. split; [exact Hraw|]. split; [exact Hparse|].
  now apply parse_items_fields.
Qed.

Lemma loaded_fields_witness :
  In ("Mode U CW Beacon", ex_beacon_items) (sat_transponders ex_sat) /\
  ex_beacon_items !! "fdn1" = Some (VInt 435795000) /\
  ex_beacon_items !! "fdn2" = Some (VInt 435795000) /\
  ex_beacon_items !! "fup1" = Some (VInt 0) /\
  ex_beacon_items !! "fup2" = Some (VInt 0) /\
  ex_beacon_items !! "Inverting" = Some (VBool false).
Proof.
  assert (Hload : get_transponders parse_decimal ex_sections =
                  Ok (mkLoader (sat_main ex_sat) (sat_transponders ex_sat) 1))
    by (vm_compute; reflexivity).
  assert (Hin : In ("Mode U CW Beacon", ex_beacon_items) (sat_transponders ex_sat))
    by (right; left; vm_compute; reflexivity).
  destruct (loaded_fields parse_decimal ex_sections _ "Mode U CW Beacon"
              ex_beacon_items Hload Hin)
    as (raw & Hraw & _ & n1 & n2 & n3 & n4 & (F1 & F2 & F3 & F4) &
        (dl & Hdl & Hn1) & H2 & H3 & H4 & (inv & Hinv & Hiff) & _).
  assert (Hbeacon : raw = ex_beacon).
  { destruct Hraw as [H|[H|[H|[]]]]; [discriminate H | | discriminate H].
    now injection H as <-. }
  subst raw.
  assert (E1 : ex_beacon !! "down_low" = Some "435795000") by (vm_compute; reflexivity).
  assert (E2 : ex_beacon !! "down_high" = None) by (vm_compute; reflexivity).
  assert (E3 : ex_beacon !! "up_low" = None) by (vm_compute; reflexivity).
  assert (E4 : ex_beacon !! "up_high" = None) by (vm_compute; reflexivity).
  assert (E5 : ex_beacon !! "invert" = None) by (vm_compute; reflexivity).
  assert (E6 : parse_decimal "435795000" = Some 435795000%Z) by (vm_compute; reflexivity).
  rewrite E1 in Hdl. injection Hdl as <-.
  rewrite E6 in Hn1. injection Hn1 as <-.
  rewrite E2 in H2. rewrite E3 in H3. rewrite E4 in H4. subst n2 n3 n4.
  rewrite E5 in Hiff.
  split; [exact Hin|].
  destruct inv.
  - destruct Hiff as [Hiff _]. discriminate (Hiff eq_refl).
  - repeat split; assumption.
Defined.

(** * Further properties of the code *)

(** ** The flip decision in closed form *)

Lemma flip_decision_words (az : list Q) : flip_decision az = flip_required_spec az.
Proof.
  unfold flip_decision, flip_required_spec.
  rewrite !any_map, min2_max3_extrema.
  destruct (visits quad2 az && visits quad3 az)%bool eqn:Hv; [|reflexivity].
  apply andb_true_iff in Hv. destruct Hv as [Hv2 Hv3].
  destruct (min_quadrant2_az az) as [min2|] eqn:Hmin.
  2:{ apply minimum_None in Hmin. apply visits_filter in Hv2. contradiction. }
  destruct (max_quadrant3_az az) as [max3|] eqn:Hmax.
  2:{ apply maximum_None in Hmax. apply visits_filter in Hv3. contradiction. }
  apply minimum_in, filter_In in Hmin. destruct Hmin as [_ Hmin].
  apply maximum_in, filter_In in Hmax. destruct Hmax as [_ Hmax].
  apply quad2_bounds in Hmin. apply quad3_bounds in Hmax.
  unfold py_min, py_max, THRESH, Qgtb.
  assert (E1 : Qltb min2 360 = true) by (apply Qltb_lt; lra).
  assert (E2 : Qltb 0 max3 = true) by (apply Qltb_lt; lra).
  rewrite E1, E2. reflexivity.
Qed.

Lemma flip_decision_samples (az : list Q) :
  flip_decision az = true <->
  (exists a, In a az /\ 90 < a /\ a <= 165) /\
  (exists a, In a az /\ 195 <= a /\ a < 270).
Proof.
  rewrite flip_decision_words. unfold flip_required_spec. split.
  - destruct (visits quad2 az && visits quad3 az)%bool eqn:Hv; [|discriminate].
    apply andb_true_iff in Hv. destruct Hv as [Hv2 Hv3].
    destruct (min_quadrant2_az az) as [min2|] eqn:Hmin.
    2:{ apply minimum_None in Hmin. apply visits_filter in Hv2. contradiction. }
    destruct (max_quadrant3_az az) as [max3|] eqn:Hmax.
    2:{ apply maximum_None in Hmax. apply visits_filter in Hv3. contradiction. }
    apply minimum_in, filter_In in Hmin. destruct Hmin as [Hin2 Hq2].
    apply maximum_in, filter_In in Hmax. destruct Hmax as [Hin3 Hq3].
    apply quad2_bounds in Hq2. apply quad3_bounds in Hq3.
    unfold Qgtb. intros H.
    destruct (Qltb max3 (180 + 15)) eqn:E1; [discriminate|].
    destruct (Qltb (180 - 15) min2) eqn:E2; [discriminate|].
    apply Qltb_ge in E1, E2.
    split; [exists min2 | exists max3]; repeat split; try tauto; lra.
  - intros ((a2 & Hin2 & Hlo2 & Hhi2) & (a3 & Hin3 & Hlo3 & Hhi3)).
    assert (Hq2 : quad2 a2 = true) by (apply quad2_bounds; lra).
    assert (Hq3 : quad3 a3 = true) by (apply quad3_bounds; lra).
    assert (Hv2 : visits quad2 az = true) by (apply existsb_exists; eauto).
    assert (Hv3 : visits quad3 az = true) by (apply existsb_exists; eauto).
    rewrite Hv2, Hv3. cbn [andb].
    destruct (min_quadrant2_az az) as [min2|] eqn:Hmin.
    2:{ apply minimum_None in Hmin. apply visits_filter in Hv2. contradiction. }
    destruct (max_quadrant3_az az) as [max3|] eqn:Hmax.
    2:{ apply maximum_None in Hmax. apply visits_filter in Hv3. contradiction. }
    assert (H2 : min2 <= a2).
    { apply (minimum_le _ _ Hmin). apply filter_In. now split. }
    assert (H3 : a3 <= max3).
    { apply (maximum_ge _ _ Hmax). apply filter_In. now split. }
    unfold Qgtb.
    assert (E1 : Qltb max3 (180 + 15) = false) by (apply Qltb_ge; lra).
    assert (E2 : Qltb (180 - 15) min2 = false) by (apply Qltb_ge; lra).
    now rewrite E1, E2.
Qed.

(** The flip is required exactly when the track has a sample with azimuth
    in (90, 165] and a sample with azimuth in [195, 270): samples between
    165 and 195 degrees, and samples outside the two southern quadrants,
    never decide it. *)
Theorem flip_decision_closed_form (az : list Q) :
  flip_decision az =
  (existsb (fun a => Qgtb a 90 && Qle_bool a 165) az &&
   existsb (fun a => Qle_bool 195 a && Qltb a 270) az)%bool.
Proof.
  apply eq_true_iff_eq. rewrite flip_decision_samples.
  rewrite andb_true_iff, !existsb_exists.
  split; intros [(a2 & Hin2 & H2) (a3 & Hin3 & H3)]; split.
  - exists a2. split; [exact Hin2|].
    apply andb_true_iff. rewrite Qgtb_gt, Qle_bool_iff. tauto.
  - exists a3. split; [exact Hin3|].
    apply andb_true_iff. rewrite Qle_bool_iff, Qltb_lt. tauto.
  - exists a2. split; [exact Hin2|].
    apply andb_true_iff in H2. rewrite Qgtb_gt, Qle_bool_iff in H2. tauto.
  - exists a3. split; [exact Hin3|].
    apply andb_true_iff in H3. rewrite Qle_bool_iff, Qltb_lt in H3. tauto.
Qed.

(** The flip decision does not depend on the order of the samples (a pass
    flown east to west decides like the same pass flown west to east), and
    a track that needs the flip still needs it when samples are added. *)
Theorem flip_decision_order_free (az az' more : list Q) :
  (Permutation az az' -> flip_decision az = flip_decision az') /\
  flip_decision (rev az) = flip_decision az /\
  (flip_decision az = true ->
   flip_decision (az ++ more) = true /\ flip_decision (more ++ az) = true).
Proof.
  assert (Hperm : forall l l', Permutation l l' -> flip_decision l = flip_decision l').
  { intros l l' Hp. apply eq_true_iff_eq. rewrite !flip_decision_samples.
    split; intros [(a2 & Hin2 & H2) (a3 & Hin3 & H3)]; split.
    - exists a2. split; [now apply (Permutation_in _ Hp) | exact H2].
    - exists a3. split; [now apply (Permutation_in _ Hp) | exact H3].
    - exists a2. split; [now apply (Permutation_in _ (Permutation_sym Hp)) | exact H2].
    - exists a3. split; [now apply (Permutation_in _ (Permutation_sym Hp)) | exact H3]. }
  split; [apply Hperm|]. split.
  - apply Hperm. apply Permutation_sym, Permutation_rev.
  - rewrite !flip_decision_samples.
    intros [(a2 & Hin2 & H2) (a3 & Hin3 & H3)].
    split; (split; [exists a2 | exists a3]); (split; [apply in_or_app; tauto | assumption]).
Qed.

Lemma flip_decision_order_free_witness :
  flip_decision [260; 100; 190; 170] = flip_decision [100; 170; 190; 260] /\
  flip_decision ([100; 170; 190; 260] ++ [180; 181]) = true.
Proof.
  destruct (flip_decision_order_free [100; 170; 190; 260] [260; 100; 190; 170] [180; 181])
    as (Hperm & _ & Hmore).
  split.
  - symmetry. apply Hperm.
    apply Permutation_sym.
    apply (Permutation_trans (l' := [100; 260; 190; 170])); [apply perm_swap|].
    apply perm_skip.
    apply (Permutation_trans (l' := [190; 260; 170])); [apply perm_swap|].
    apply (Permutation_trans (l' := [190; 170; 260])); [apply perm_skip, perm_swap|].
    apply perm_swap.
  - apply Hmore. reflexivity.
Defined.

(** ** Setting the rig mode *)

Lemma set_rig_mode_run (m : string) (g : gui_state) (tr : list event)
  (a : Z) (b : option Z) (f u d : option Q) (s : option SATELLITE) (t : Transp)
  (v0 : string) (rest : list string) :
  set_rig_mode m (mkWorld g (mkCtrl a b f u d s (Some t) (Some (v0 :: rest))) tr) =
  (Ok tt,
   mkWorld g (mkCtrl a b f u d s (Some t) (Some (v0 :: rest)))
     (tr ++ set_mode m v0 (mode_filter m) ::
      match rest with
      | [] => []
      | v1 :: _ =>
          if Inverting t then
            match opposite_mode m with
            | Some m' =>
                [set_mode m' v1
                   (if (String.eqb m "USB" || String.eqb m "LSB")%bool
                    then None else mode_filter m)]
            | None => []
            end
          else [set_mode m v1 (mode_filter m)]
      end)).
Proof.
  unfold set_rig_mode, opposite_mode. fold (mode_filter m). mrun.
  cbn [nth_error List.length].
  destruct rest as [|v1 rest]; cbn [Nat.ltb Nat.leb List.length nth_error].
  - reflexivity.
  - mrun. destruct (Inverting t); mrun; cbn [nth_error].
    + destruct (String.eqb m "USB") eqn:E1; cbn [orb];
        [now rewrite <- app_assoc|].
      destruct (String.eqb m "LSB") eqn:E2; cbn [orb];
        [now rewrite <- app_assoc|].
      destruct (String.eqb m "CW") eqn:E3; [now rewrite <- app_assoc|].
      destruct (String.eqb m "CW-R") eqn:E4; [now rewrite <- app_assoc|].
      reflexivity.
    + now rewrite <- app_assoc.
Qed.

(** On a rig with two VFOs, [set_rig_mode] writes the requested mode to
    the downlink VFO first.  For an inverting transponder it then writes
    the opposite sideband to the uplink VFO when the mode is USB, LSB, CW
    or CW-R (the opposite of the opposite being the mode itself), and
    writes nothing to the uplink VFO for any other mode, FM included; for
    a non-inverting transponder the uplink VFO gets the same mode.  The
    controller and the GUI state are left as they are. *)
Theorem set_rig_mode_sidebands (m : string) (g : gui_state) (tr : list event)
  (a : Z) (b : option Z) (f u d : option Q) (s : option SATELLITE) (t : Transp)
  (v0 v1 : string) (rest : list string) :
  exists evs,
    set_rig_mode m (mkWorld g (mkCtrl a b f u d s (Some t) (Some (v0 :: v1 :: rest))) tr) =
    (Ok tt,
     mkWorld g (mkCtrl a b f u d s (Some t) (Some (v0 :: v1 :: rest)))
       (tr ++ set_mode m v0 (mode_filter m) :: evs)) /\
    (if Inverting t
     then match opposite_mode m with
          | Some m' =>
              (exists flt, evs = [set_mode m' v1 flt]) /\ m' <> m /\
              opposite_mode m' = Some m
          | None => evs = []
          end
     else evs = [set_mode m v1 (mode_filter m)]) /\
    (m = "FM" -> Inverting t = true -> evs = []).
Proof.
  eexists. split; [apply set_rig_mode_run|].
  split.
  - destruct (Inverting t); [|reflexivity].
    unfold opposite_mode.
    destruct (String.eqb m "USB") eqn:E1.
    { apply String.eqb_eq in E1. subst m. split; [eauto|]. split; [discriminate|reflexivity]. }
    destruct (String.eqb m "LSB") eqn:E2.
    { apply String.eqb_eq in E2. subst m. split; [eauto|]. split; [discriminate|reflexivity]. }
    destruct (String.eqb m "CW") eqn:E3.
    { apply String.eqb_eq in E3. subst m. split; [eauto|]. split; [discriminate|reflexivity]. }
    destruct (String.eqb m "CW-R") eqn:E4.
    { apply String.eqb_eq in E4. subst m. split; [eauto|]. split; [discriminate|reflexivity]. }
    reflexivity.
  - intros -> ->. reflexivity.
Qed.

(** ** The acquisition tick *)

(** The first half of the acquisition: the satellite, its main transponder
    and the VFO names are stored and the rig is put in satellite mode; the
    rest runs from there. *)
Lemma acquire_setup_run (env : tick_env) (g : gui_state) (tr : list event)
  (a : Z) (b : option Z) (f u d : option Q) (s0 : option SATELLITE)
  (t0 : option Transp) (vs0 : option (list string))
  (sel mn : string) (sat : SATELLITE) (items : gmap string pyval) (t : Transp)
  (vs : list string) (evs0 : list event) :
  Selected g = Some sel ->
  od_get (Satellites g) sel = Ok sat ->
  sat_main sat = Some mn ->
  od_get (sat_transponders sat) mn = Ok items ->
  transp_of_items items = Some t ->
  rig_setup (rig_type2 env) = Some (vs, evs0) ->
  new_sat_selected env (mkWorld g (mkCtrl a b f u d s0 t0 vs0) tr) =
  (set_rig_mode (mode t);!
   (if existsb (String.eqb (mode t)) MODES then ret tt else raise ValueError);!
   set_fdown (passband_centre t);!
   track_freqs env false;!
   set_New_Sat_Selection false)
    (mkWorld g (mkCtrl a b f u d (Some sat) (Some t) (Some vs))
       (tr ++ evs0 ++
        if (is_str (rig_type2 env) "IC9700" &&
            negb (String.eqb (get_band env ((1 # 1000000) * inject_Z (vfo_reading env)))
                             (get_band env ((1 # 1000000) * inject_Z (fdn1 t)))))%bool
        then [select_vfo "X"] else [])).
Proof.
  intros Hsel Hsat Hmain Hitems Ht Hrig.
  destruct g as [sel' nss eng fl r x ta ao lo sats].
  cbn [Selected Satellites] in Hsel, Hsat. subst sel'.
  unfold new_sat_selected, passband_centre. mrun.
  rewrite Hsat. mrun. rewrite Hmain. mrun. rewrite Hitems. mrun. rewrite Ht. mrun.
  unfold rig_setup in Hrig. unfold is_str.
  destruct (rig_type2 env) as [r'|].
  - destruct (String.eqb r' "FT991a") eqn:E1.
    { injection Hrig as <- <-. mrun.
      apply String.eqb_eq in E1. subst r'. cbn [String.eqb Ascii.eqb Bool.eqb andb].
      mrun. rewrite app_nil_r. reflexivity. }
    destruct (String.eqb r' "IC9700") eqn:E2.
    { injection Hrig as <- <-. mrun. cbn [andb].
      destruct (negb _); mrun; rewrite <- ?app_assoc; reflexivity. }
    destruct (String.eqb r' "pySDR") eqn:E3.
    { injection Hrig as <- <-. mrun. cbn [andb app]. rewrite app_nil_r. reflexivity. }
    destruct (String.eqb r' "Dummy") eqn:E4; [|discriminate].
    injection Hrig as <- <-. mrun. cbn [andb app]. rewrite app_nil_r. reflexivity.
  - injection Hrig as <- <-. mrun. cbn [andb app]. rewrite app_nil_r. reflexivity.
Qed.

Lemma Updater_acquiring (env : tick_env) (g : gui_state) (c : rig_control)
  (tr : list event) :
  ((rig_engaged g || is_None (fdown c)) && truthy (Selected g))%bool = true ->
  New_Sat_Selection g = true ->
  Updater env (mkWorld g c tr) =
  bind (new_sat_selected env) (fun _ => update_aos_los env) (mkWorld g c tr).
Proof.
  intros Hguard Hnew. unfold Updater.
  destruct g as [sel nss eng fl r x ta ao lo sats].
  destruct c as [a b f u d s t vs].
  cbn [rig_engaged Selected fdown New_Sat_Selection] in Hguard, Hnew. subst nss.
  mrun. rewrite Hguard. reflexivity.
Qed.

(** When the selected satellite has no main transponder, the tick that
    should acquire it raises [KeyError]: nothing is written to the rig,
    the rotor or the log, the AOS/LOS indicator is not refreshed, no
    reference downlink is set and the selection stays pending, so the next
    tick does the same. *)
Theorem acquisition_without_main_transponder (env : tick_env) (g : gui_state)
  (tr : list event) (a : Z) (b : option Z) (f u d : option Q)
  (s0 : option SATELLITE) (t0 : option Transp) (vs0 : option (list string))
  (sel : string) (sat : SATELLITE) :
  Selected g = Some sel -> sel <> "" ->
  New_Sat_Selection g = true ->
  (rig_engaged g || is_None f)%bool = true ->
  od_get (Satellites g) sel = Ok sat ->
  sat_main sat = None ->
  Updater env (mkWorld g (mkCtrl a b f u d s0 t0 vs0) tr) =
  (Raise KeyError, mkWorld g (mkCtrl a b f u d (Some sat) t0 vs0) tr).
Proof.
  intros Hsel Hne Hnew Hguard Hsat Hmain.
  rewrite Updater_acquiring; [| |exact Hnew].
  2:{ cbn [fdown]. rewrite Hguard, Hsel. cbn [truthy andb].
      apply negb_true_iff, String.eqb_neq. exact Hne. }
  destruct g as [sel' nss eng fl r x ta ao lo sats].
  cbn [Selected Satellites] in Hsel, Hsat. subst sel'.
  unfold new_sat_selected. mrun. rewrite Hsat. mrun. rewrite Hmain. reflexivity.
Qed.

Lemma acquisition_without_main_transponder_witness :
  Updater (ex_env 0 0 (180, 20))
    (mkWorld (mkGui (Some "XX-1") true false false 0 0 [190; 200] 1000 2000
                [("XX-1", mkSat None [])])
       ctrl_init []) =
  (Raise KeyError,
   mkWorld (mkGui (Some "XX-1") true false false 0 0 [190; 200] 1000 2000
              [("XX-1", mkSat None [])])
     (mkCtrl 0 None None None None (Some (mkSat None [])) None None) []).
Proof.
  apply (acquisition_without_main_transponder (ex_env 0 0 (180, 20))
           (mkGui (Some "XX-1") true false false 0 0 [190; 200] 1000 2000
              [("XX-1", mkSat None [])])
           [] 0 None None None None None None None "XX-1" (mkSat None []));
    try reflexivity.
  discriminate.
Defined.

(** For a rig type the controller does not know, the acquisition raises
    [SystemExit] after storing the satellite and its transponder and
    before writing anything; no VFO names and no reference downlink are
    set. *)
Theorem acquisition_unknown_rig (env : tick_env) (g : gui_state)
  (tr : list event) (a : Z) (b : option Z) (f u d : option Q)
  (s0 : option SATELLITE) (t0 : option Transp) (vs0 : option (list string))
  (sel mn : string) (sat : SATELLITE) (items : gmap string pyval) (t : Transp) :
  Selected g = Some sel -> sel <> "" ->
  New_Sat_Selection g = true ->
  (rig_engaged g || is_None f)%bool = true ->
  od_get (Satellites g) sel = Ok sat ->
  sat_main sat = Some mn ->
  od_get (sat_transponders sat) mn = Ok items ->
  transp_of_items items = Some t ->
  rig_setup (rig_type2 env) = None ->
  Updater env (mkWorld g (mkCtrl a b f u d s0 t0 vs0) tr) =
  (Raise SystemExit, mkWorld g (mkCtrl a b f u d (Some sat) (Some t) vs0) tr).
Proof.
  intros Hsel Hne Hnew Hguard Hsat Hmain Hitems Ht Hrig.
  rewrite Updater_acquiring; [| |exact Hnew].
  2:{ cbn [fdown]. rewrite Hguard, Hsel. cbn [truthy andb].
      apply negb_true_iff, String.eqb_neq. exact Hne. }
  destruct g as [sel' nss eng fl r x ta ao lo sats].
  cbn [Selected Satellites] in Hsel, Hsat. subst sel'.
  unfold new_sat_selected. mrun.
  rewrite Hsat. mrun. rewrite Hmain. mrun. rewrite Hitems. mrun. rewrite Ht. mrun.
  unfold rig_setup in Hrig. unfold is_str.
  destruct (rig_type2 env) as [r'|]; [|discriminate].
  destruct (String.eqb r' "FT991a"); [discriminate|].
  destruct (String.eqb r' "IC9700"); [discriminate|].
  destruct (String.eqb r' "pySDR"); [discriminate|].
  destruct (String.eqb r' "Dummy"); [discriminate|].
  reflexivity.
Qed.

Lemma acquisition_unknown_rig_witness :
  exists c,
    Updater (mkEnv (Some "TS2000") false true (180, 20) 0 (fun _ => "") (mkObs 0 200 30) 1500)
      (mkWorld (mkGui (Some "FO-29") true false false 0 0 [190; 200] 1000 2000
                  [("FO-29", ex_sat)])
         ctrl_init []) =
    (Raise SystemExit,
     mkWorld (mkGui (Some "FO-29") true false false 0 0 [190; 200] 1000 2000
                [("FO-29", ex_sat)]) c []) /\
    vfos c = None /\ fdown c = None.
Proof.
  eexists. split.
  - eapply (acquisition_unknown_rig
              (mkEnv (Some "TS2000") false true (180, 20) 0 (fun _ => "") (mkObs 0 200 30) 1500)
              (mkGui (Some "FO-29") true false false 0 0 [190; 200] 1000 2000
                 [("FO-29", ex_sat)])
              [] 0 None None None None None None None "FO-29"
              "Mode V/U (J) Linear Transponder" ex_sat ex_linear_items ex_transp);
      try reflexivity; try discriminate; vm_compute; reflexivity.
  - split; reflexivity.
Defined.

Lemma rig_setup_events (r : option string) (vs : list string) (evs0 : list event) :
  rig_setup r = Some (vs, evs0) ->
  vs <> [] /\ existsb is_set_freq evs0 = false /\
  existsb is_set_position evs0 = false /\ existsb is_log_write evs0 = false.
Proof.
  unfold rig_setup. destruct r as [r|].
  - destruct (String.eqb r "FT991a"); [intros [= <- <-]; now repeat split|].
    destruct (String.eqb r "IC9700"); [intros [= <- <-]; now repeat split|].
    destruct (String.eqb r "pySDR"); [intros [= <- <-]; now repeat split|].
    destruct (String.eqb r "Dummy"); [intros [= <- <-]; now repeat split|].
    discriminate.
  - intros [= <- <-]. now repeat split.
Qed.

Lemma existsb_app_false {A : Type} (p : A -> bool) (l1 l2 : list A) :
  existsb p l1 = false -> existsb p l2 = false -> existsb p (l1 ++ l2) = false.
Proof. intros H1 H2. now rewrite existsb_app, H1, H2. Qed.

(** When the mode of the main transponder is not one of USB, LSB, CW and
    FM, every acquisition tick writes the satellite-mode and mode commands
    to the rig and then raises [ValueError]: no frequency is written, no
    reference downlink is set, nothing is logged and the selection stays
    pending. *)
Theorem acquisition_unlisted_mode (env : tick_env) (g : gui_state)
  (tr : list event) (a : Z) (b : option Z) (f u d : option Q)
  (s0 : option SATELLITE) (t0 : option Transp) (vs0 : option (list string))
  (sel mn : string) (sat : SATELLITE) (items : gmap string pyval) (t : Transp)
  (vs : list string) (evs0 : list event) :
  Selected g = Some sel -> sel <> "" ->
  New_Sat_Selection g = true ->
  (rig_engaged g || is_None f)%bool = true ->
  od_get (Satellites g) sel = Ok sat ->
  sat_main sat = Some mn ->
  od_get (sat_transponders sat) mn = Ok items ->
  transp_of_items items = Some t ->
  rig_setup (rig_type2 env) = Some (vs, evs0) ->
  existsb (String.eqb (mode t)) MODES = false ->
  exists evs,
    Updater env (mkWorld g (mkCtrl a b f u d s0 t0 vs0) tr) =
    (Raise ValueError,
     mkWorld g (mkCtrl a b f u d (Some sat) (Some t) (Some vs)) (tr ++ evs)) /\
    (exists v0, In (set_mode (mode t) v0 (mode_filter (mode t))) evs) /\
    existsb is_set_freq evs = false /\ existsb is_log_write evs = false.
Proof.
  intros Hsel Hne Hnew Hguard Hsat Hmain Hitems Ht Hrig Hmode.
  rewrite Updater_acquiring; [| |exact Hnew].
  2:{ cbn [fdown]. rewrite Hguard, Hsel. cbn [truthy andb].
      apply negb_true_iff, String.eqb_neq. exact Hne. }
  unfold bind at 1.
  rewrite (acquire_setup_run env g tr a b f u d s0 t0 vs0 sel mn sat items t vs evs0
             Hsel Hsat Hmain Hitems Ht Hrig).
  destruct (rig_setup_events _ _ _ Hrig) as (Hvs & Hf0 & _ & Hl0).
  destruct vs as [|v0 rest]; [contradiction|].
  rewrite (bind_run _ _ _ _ _ (set_rig_mode_run (mode t) g _ a b f u d (Some sat) t v0 rest)).
  rewrite Hmode. unfold bind, raise.
  eexists. split; [rewrite <- !app_assoc; reflexivity|].
  split; [|split].
  - exists v0. apply in_or_app. right. apply in_or_app. right. now left.
  - apply existsb_app_false; [exact Hf0|]. apply existsb_app_false.
    + destruct (_ && _)%bool; reflexivity.
    + destruct rest; [reflexivity|]. destruct (Inverting t); [|reflexivity].
      destruct (opposite_mode (mode t)); reflexivity.
  - apply existsb_app_false; [exact Hl0|]. apply existsb_app_false.
    + destruct (_ && _)%bool; reflexivity.
    + destruct rest; [reflexivity|]. destruct (Inverting t); [|reflexivity].
      destruct (opposite_mode (mode t)); reflexivity.
Qed.

Lemma acquisition_unlisted_mode_witness :
  exists c evs,
    Updater (ex_env 0 0 (180, 20))
      (mkWorld (mkGui (Some "NO-84") true false false 0 0 [190; 200] 1000 2000
                  [("NO-84", ex_packet_sat)])
         ctrl_init []) =
    (Raise ValueError,
     mkWorld (mkGui (Some "NO-84") true false false 0 0 [190; 200] 1000 2000
                [("NO-84", ex_packet_sat)]) c ([] ++ evs)) /\
    fdown c = None /\ existsb is_set_freq evs = false.
Proof.
  assert (Hitems : exists items,
             od_get (sat_transponders ex_packet_sat) "Packet Transponder" = Ok items /\
             transp_of_items items =
             Some (mkTransp 145825000 145825000 145825000 145825000 false "AFSK")).
  { eexists. split; vm_compute; reflexivity. }
  destruct Hitems as (items & Hitems & Ht).
  destruct (acquisition_unlisted_mode (ex_env 0 0 (180, 20))
              (mkGui (Some "NO-84") true false false 0 0 [190; 200] 1000 2000
                 [("NO-84", ex_packet_sat)])
              [] 0 None None None None None None None "NO-84" "Packet Transponder"
              ex_packet_sat items
              (mkTransp 145825000 145825000 145825000 145825000 false "AFSK")
              ["A"; "B"] [split_mode 1])
    as (evs & Hrun & _ & Hnofreq & _);
    try reflexivity; try discriminate; try assumption.
  eexists. exists evs. split; [exact Hrun|]. split; [reflexivity | exact Hnofreq].
Defined.

(** [track_freqs] on a rig with a single VFO whose [frqB] was never
    assigned: the downlink is tuned and the rotor is served, then the call
    raises [AttributeError] before the log record is written. *)
Lemma track_freqs_single_vfo (env : tick_env) (Force : bool) (g : gui_state)
  (tr : list event) (a : Z) (u d : option Q) (f : Q)
  (s : SATELLITE) (t : Transp) (v0 : string) (p0 : Q * Q) :
  let az := azimuth (obs env) in
  let el := elevation (obs env) in
  let up := snd (uplink_of t f) in
  let d1 := (1 # 100000000) * doppler (obs env) * f in
  let FA := int_of_float (f + d1 + inject_Z (rit g)) in
  let send := (rig_engaged g || Force)%bool in
  let new_pos := if flipper g then flip_pos p0 else p0 in
  let pos := rotor_position env in
  let moved :=
    (rotor_active env &&
     error_exceeds (fst pos - fst new_pos) (snd pos - snd new_pos) && send)%bool in
  (if Qle_bool 0 el then Some (az, el)
   else match track_az g with a0 :: _ => Some (a0, 0) | [] => None end) = Some p0 ->
  track_freqs env Force
    (mkWorld g (mkCtrl a None (Some f) u d (Some s) (Some t) (Some [v0])) tr) =
  (Raise AttributeError,
   mkWorld g
     (mkCtrl FA None (Some f) (Some up) (Some d1) (Some s) (Some t) (Some [v0]))
     (tr ++
      (if send
       then set_freq ((1 # 1000) * inject_Z FA) v0 ::
            (if USE_SDR env then [sdr_set_freq ((1 # 1000) * inject_Z FA)] else [])
       else []) ++
      (if moved then [set_position new_pos] else []) ++
      [recorder (Qgtb el 0)])).
Proof.
  intros az el up d1 FA send new_pos pos moved Htgt.
  unfold track_freqs.
  rewrite (bind_run _ _ _ _ _ (compute_links_run env g tr a None u d f s t _)).
  cbv beta iota.
  rewrite (bind_run _ _ _ _ _ (set_links_run env Force g tr a None _ _ _ _ _ v0 [] _ _ _ _)).
  fold up d1 FA send.
  assert (Hpos : forall c tr',
             form_new_pos az el (mkWorld g c tr') = (Ok new_pos, mkWorld g c tr')).
  { intros c tr'. rewrite form_new_pos_run. fold az el in Htgt. subst new_pos.
    destruct (Qle_bool 0 el).
    - injection Htgt as <-. reflexivity.
    - destruct (track_az g); [discriminate|]. injection Htgt as <-. reflexivity. }
  rewrite (bind_run _ _ _ _ _ (Hpos _ _)).
  rewrite (bind_run _ _ _ _ _ (update_rotor_run env Force new_pos g _ _)).
  fold pos send moved. cbv beta iota.
  destruct g as [sel nss eng fl r x ta ao lo sats]. mrun.
  rewrite <- !app_assoc. reflexivity.
Qed.

(** On a rig with a single VFO (pySDR) whose [frqB] was never assigned,
    the acquisition tick tunes to the centre of the passband and then
    raises [AttributeError]: no log record is written, the AOS/LOS
    indicator is not refreshed, [frqB] stays unassigned and the selection
    stays pending, so the dial check of the later ticks is never reached. *)
Theorem acquisition_single_vfo (env : tick_env) (g : gui_state)
  (tr : list event) (a : Z) (f u d : option Q)
  (s0 : option SATELLITE) (t0 : option Transp) (vs0 : option (list string))
  (sel mn : string) (sat : SATELLITE) (items : gmap string pyval) (t : Transp)
  (v0 : string) (evs0 : list event) (p0 : Q * Q) :
  Selected g = Some sel -> sel <> "" ->
  New_Sat_Selection g = true ->
  (rig_engaged g || is_None f)%bool = true ->
  od_get (Satellites g) sel = Ok sat ->
  sat_main sat = Some mn ->
  od_get (sat_transponders sat) mn = Ok items ->
  transp_of_items items = Some t ->
  rig_setup (rig_type2 env) = Some ([v0], evs0) ->
  existsb (String.eqb (mode t)) MODES = true ->
  (if Qle_bool 0 (elevation (obs env))
   then Some (azimuth (obs env), elevation (obs env))
   else match track_az g with a0 :: _ => Some (a0, 0) | [] => None end) = Some p0 ->
  exists c' evs,
    Updater env (mkWorld g (mkCtrl a None f u d s0 t0 vs0) tr) =
    (Raise AttributeError, mkWorld g c' (tr ++ evs)) /\
    fdown c' = Some (passband_centre t) /\
    frqB c' = None /\
    existsb is_log_write evs = false.
Proof.
  intros Hsel Hne Hnew Hguard Hsat Hmain Hitems Ht Hrig Hmode Htgt.
  rewrite Updater_acquiring; [| |exact Hnew].
  2:{ cbn [fdown]. rewrite Hguard, Hsel. cbn [truthy andb].
      apply negb_true_iff, String.eqb_neq. exact Hne. }
  unfold bind at 1.
  rewrite (acquire_setup_run env g tr a None f u d s0 t0 vs0 sel mn sat items t [v0] evs0
             Hsel Hsat Hmain Hitems Ht Hrig).
  destruct (rig_setup_events _ _ _ Hrig) as (_ & _ & _ & Hl0).
  rewrite (bind_run _ _ _ _ _ (set_rig_mode_run (mode t) g _ a None f u d (Some sat) t v0 [])).
  rewrite Hmode.
  assert (Hset : forall tr',
             set_fdown (passband_centre t)
               (mkWorld g (mkCtrl a None f u d (Some sat) (Some t) (Some [v0])) tr') =
             (Ok tt,
              mkWorld g (mkCtrl a None (Some (passband_centre t)) u d (Some sat) (Some t)
                           (Some [v0])) tr')) by reflexivity.
  unfold bind at 1. unfold ret at 1.
  rewrite (bind_run _ _ _ _ _ (Hset _)).
  unfold bind at 1.
  rewrite (track_freqs_single_vfo env false g _ a u d (passband_centre t) sat t v0 p0 Htgt).
  eexists. eexists. split; [rewrite <- !app_assoc; reflexivity|].
  cbn [fdown frqB]. split; [reflexivity|]. split; [reflexivity|].
  apply existsb_app_false; [exact Hl0|]. apply existsb_app_false.
  { destruct (_ && _)%bool; reflexivity. }
  cbn [app existsb is_log_write orb].
  apply existsb_app_false.
  { destruct (rig_engaged g || false)%bool; [|reflexivity].
    destruct (USE_SDR env); reflexivity. }
  apply existsb_app_false; [|reflexivity].
  destruct (_ && _)%bool; reflexivity.
Qed.

Lemma acquisition_single_vfo_witness :
  exists c' evs,
    Updater (mkEnv (Some "pySDR") false true (180, 20) 0 (fun _ => "") (mkObs 0 200 30) 1500)
      (mkWorld (mkGui (Some "FO-29") true false false 0 0 [190; 200] 1000 2000
                  [("FO-29", ex_sat)])
         ctrl_init []) =
    (Raise AttributeError,
     mkWorld (mkGui (Some "FO-29") true false false 0 0 [190; 200] 1000 2000
                [("FO-29", ex_sat)]) c' ([] ++ evs)) /\
    fdown c' = Some (passband_centre ex_transp) /\ frqB c' = None /\
    existsb is_log_write evs = false.
Proof.
  apply (acquisition_single_vfo
           (mkEnv (Some "pySDR") false true (180, 20) 0 (fun _ => "") (mkObs 0 200 30) 1500)
           (mkGui (Some "FO-29") true false false 0 0 [190; 200] 1000 2000
              [("FO-29", ex_sat)])
           [] 0 None None None None None None "FO-29"
           "Mode V/U (J) Linear Transponder" ex_sat ex_linear_items ex_transp
           "A" [] (200, 30));
    try reflexivity; try discriminate; vm_compute; reflexivity.
Defined.

Lemma inject_Z_sub (x y : Z) : inject_Z (x - y) == inject_Z x - inject_Z y.
Proof. unfold Z.sub. rewrite inject_Z_plus, inject_Z_opp. reflexivity. Qed.

(** On a rig with two VFOs, the acquisition tick of a satellite whose main
    transponder has a listed mode returns: the reference downlink is the
    centre of the downlink passband, the uplink is as far from the edge of
    the uplink passband as the centre is from the lower downlink edge (the
    centre of the uplink passband when both passbands have the same
    width), one log record is written and the pending selection is
    cleared.  While the loop is disengaged no frequency and no rotor
    position is written. *)
Theorem acquisition_tunes_to_centre (env : tick_env) (g : gui_state)
  (tr : list event) (a : Z) (b : option Z) (f u d : option Q)
  (s0 : option SATELLITE) (t0 : option Transp) (vs0 : option (list string))
  (sel mn : string) (sat : SATELLITE) (items : gmap string pyval) (t : Transp)
  (v0 v1 : string) (rest : list string) (evs0 : list event)
  (a0 : Q) (trk : list Q) :
  Selected g = Some sel -> sel <> "" ->
  New_Sat_Selection g = true ->
  (rig_engaged g || is_None f)%bool = true ->
  od_get (Satellites g) sel = Ok sat ->
  sat_main sat = Some mn ->
  od_get (sat_transponders sat) mn = Ok items ->
  transp_of_items items = Some t ->
  rig_setup (rig_type2 env) = Some (v0 :: v1 :: rest, evs0) ->
  existsb (String.eqb (mode t)) MODES = true ->
  track_az g = a0 :: trk ->
  let fc := passband_centre t in
  let d1 := (1 # 100000000) * doppler (obs env) * fc in
  let half := (1 # 2) * inject_Z (fdn2 t - fdn1 t) in
  exists nB up evs e9,
    Updater env (mkWorld g (mkCtrl a b f u d s0 t0 vs0) tr) =
    (Ok tt,
     mkWorld
       (mkGui (Selected g) false (rig_engaged g) (flipper g) (rit g) (xit g)
          (track_az g) (aos g) (los g) (Satellites g))
       (mkCtrl (int_of_float (fc + d1 + inject_Z (rit g))) (Some nB) (Some fc)
          (Some up) (Some d1) (Some sat) (Some t) (Some (v0 :: v1 :: rest)))
       (tr ++ evs ++ [txt9 e9])) /\
    up == (if Inverting t then inject_Z (fup2 t) - half else inject_Z (fup1 t) + half) /\
    ((fup2 t - fup1 t = fdn2 t - fdn1 t)%Z ->
     up == (1 # 2) * inject_Z (fup1 t + fup2 t)) /\
    (rig_engaged g = false ->
     existsb is_set_freq evs = false /\ existsb is_set_position evs = false) /\
    existsb is_log_write evs = true.
Proof.
  intros Hsel Hne Hnew Hguard Hsat Hmain Hitems Ht Hrig Hmode Htrk fc d1 half.
  rewrite Updater_acquiring; [| |exact Hnew].
  2:{ cbn [fdown]. rewrite Hguard, Hsel. cbn [truthy andb].
      apply negb_true_iff, String.eqb_neq. exact Hne. }
  unfold bind at 1.
  rewrite (acquire_setup_run env g tr a b f u d s0 t0 vs0 sel mn sat items t _ evs0
             Hsel Hsat Hmain Hitems Ht Hrig).
  destruct (rig_setup_events _ _ _ Hrig) as (_ & Hf0 & Hp0 & Hl0).
  rewrite (bind_run _ _ _ _ _
             (set_rig_mode_run (mode t) g _ a b f u d (Some sat) t v0 (v1 :: rest))).
  rewrite Hmode.
  assert (Hset : forall tr',
             set_fdown (passband_centre t)
               (mkWorld g (mkCtrl a b f u d (Some sat) (Some t) (Some (v0 :: v1 :: rest))) tr') =
             (Ok tt,
              mkWorld g (mkCtrl a b (Some (passband_centre t)) u d (Some sat) (Some t)
                           (Some (v0 :: v1 :: rest))) tr')) by reflexivity.
  unfold bind at 1. unfold ret at 1.
  rewrite (bind_run _ _ _ _ _ (Hset _)).
  rewrite (bind_run _ _ _ _ _
             (track_freqs_run env false g _ a b u d (passband_centre t) sat t v0 (v1 :: rest)
                (if Qle_bool 0 (elevation (obs env))
                 then (azimuth (obs env), elevation (obs env)) else (a0, 0))
                _
                ltac:(rewrite Htrk; destruct (Qle_bool 0 (elevation (obs env))); reflexivity)
                eq_refl)).
  fold fc d1. cbv beta.
  assert (Hnss : forall c trc,
             set_New_Sat_Selection false (mkWorld g c trc) =
             (Ok tt,
              mkWorld (mkGui (Selected g) false (rig_engaged g) (flipper g) (rit g) (xit g)
                         (track_az g) (aos g) (los g) (Satellites g)) c trc))
    by reflexivity.
  rewrite Hnss.
  match goal with
  | |- context [update_aos_los env (mkWorld ?g' ?c ?trc)] =>
      destruct (update_aos_los_run env g' c trc) as (e9 & H9)
  end.
  rewrite H9. clear H9 Hnss Hset.
  rewrite <- (app_assoc tr), <- (app_assoc tr), <- (app_assoc tr).
  eexists. eexists. eexists. exists e9.
  split; [reflexivity|].
  split.
  { rewrite uplink_of_fup. subst fc half. unfold passband_centre.
    destruct (Inverting t); rewrite inject_Z_plus, inject_Z_sub; ring. }
  split.
  { intros Hw. rewrite uplink_of_fup. subst fc. unfold passband_centre.
    assert (Hq : inject_Z (fup2 t) - inject_Z (fup1 t) ==
                 inject_Z (fdn2 t) - inject_Z (fdn1 t)).
    { rewrite <- !inject_Z_sub, Hw. reflexivity. }
    destruct (Inverting t); rewrite !inject_Z_plus; lra. }
  split.
  { intros He. rewrite He. cbn [orb andb app].
    rewrite !andb_false_r. cbn [app].
    rewrite !existsb_app, Hf0, Hp0. cbn [existsb is_set_freq is_set_position orb].
    destruct (_ && _)%bool; destruct (Inverting t);
      try destruct (opposite_mode (mode t)); split; reflexivity. }
  rewrite !existsb_app. cbn [existsb is_log_write orb].
  rewrite !orb_true_r. reflexivity.
Qed.

Lemma acquisition_tunes_to_centre_witness :
  exists c' up evs e9,
    Updater (ex_env (-1234) 0 (180, 20))
      (mkWorld (mkGui (Some "FO-29") true false false 0 0 [190; 200] 1000 2000
                  [("FO-29", ex_sat)])
         ctrl_init []) =
    (Ok tt,
     mkWorld (mkGui (Some "FO-29") false false false 0 0 [190; 200] 1000 2000
                [("FO-29", ex_sat)]) c' ([] ++ evs ++ [txt9 e9])) /\
    fdown c' = Some (passband_centre ex_transp) /\
    fup c' = Some up /\ up == 145950000 /\
    existsb is_set_freq evs = false.
Proof.
  pose proof (acquisition_tunes_to_centre (ex_env (-1234) 0 (180, 20))
              (mkGui (Some "FO-29") true false false 0 0 [190; 200] 1000 2000
                 [("FO-29", ex_sat)])
              [] 0 None None None None None None None "FO-29"
              "Mode V/U (J) Linear Transponder" ex_sat ex_linear_items ex_transp
              "A" "B" [] [split_mode 1] 190 [200]) as H.
  specialize (H eq_refl).
  specialize (H ltac:(discriminate)).
  specialize (H eq_refl).
  specialize (H eq_refl).
  specialize (H eq_refl).
  specialize (H ltac:(vm_compute; reflexivity)).
  specialize (H ltac:(vm_compute; reflexivity)).
  specialize (H ltac:(vm_compute; reflexivity)).
  specialize (H eq_refl).
  specialize (H eq_refl).
  specialize (H eq_refl).
  cbv zeta in H.
  destruct H as (nB & up & evs & e9 & Hrun & _ & Hc & Hq & _).
  eexists. exists up, evs, e9.
  split; [exact Hrun|].
  split; [reflexivity|]. split; [reflexivity|].
  split; [|apply Hq; reflexivity].
  assert (Hmid : (1 # 2) * inject_Z (fup1 ex_transp + fup2 ex_transp) == 145950000)
    by (vm_compute; reflexivity).
  rewrite <- Hmid. apply Hc. reflexivity.
Defined.
(** * The controller in double precision *)

(** ** The blocks of track_freqs *)

Lemma compute_links_f64_run (rnd : Q -> Q) (env : tick_env) (g : gui_state)
  (tr : list event) (a : Z) (b : option Z) (u d : option Q) (f : Q)
  (s : SATELLITE) (t : Transp) (vs : option (list string)) :
  let up := snd (uplink_of_f64 rnd t f) in
  let d1 := fmul rnd (fmul rnd (flit rnd (1 # 100000000)) (doppler (obs env))) f in
  let d2 := fmul rnd (fmul rnd (- flit rnd (1 # 100000000)) (doppler (obs env))) up in
  compute_links_f64 rnd env
    (mkWorld g (mkCtrl a b (Some f) u d (Some s) (Some t) vs) tr) =
  (Ok (f, fst (uplink_of_f64 rnd t f), up, d1, d2,
       azimuth (obs env), elevation (obs env)),
   mkWorld g (mkCtrl a b (Some f) (Some up) (Some d1) (Some s) (Some t) vs) tr).
Proof.
  unfold compute_links_f64. mrun.
  destruct (uplink_of_f64 rnd t f) as [df up]. mrun.
  unfold Doppler_Shifts_f64. reflexivity.
Qed.

Lemma set_links_f64_run (rnd : Q -> Q) (env : tick_env) (Force : bool)
  (g : gui_state) (tr : list event) (a : Z) (b : option Z) (f u d : option Q)
  (s : option SATELLITE) (t : option Transp) (v0 : string) (rest : list string)
  (fdown' fup' fdop1' fdop2' : Q) :
  let FA := int_of_float (fadd rnd (fadd rnd fdown' fdop1') (of_int rnd (rit g))) in
  let FB := int_of_float (fadd rnd (fadd rnd fup' fdop2') (of_int rnd (xit g))) in
  let khz := fun n : Z => fmul rnd (flit rnd (1 # 1000)) (of_int rnd n) in
  let send := (rig_engaged g || Force)%bool in
  set_links_f64 rnd env Force fdown' fup' fdop1' fdop2'
    (mkWorld g (mkCtrl a b f u d s t (Some (v0 :: rest))) tr) =
  (Ok FA,
   mkWorld g
     (mkCtrl FA (match rest with [] => b | _ :: _ => Some FB end) f u d s t
        (Some (v0 :: rest)))
     (tr ++
      match rest with
      | v1 :: _ => if send then [set_freq (khz FB) v1] else []
      | [] => []
      end ++
      (if send
       then set_freq (khz FA) v0 ::
            (if USE_SDR env then [sdr_set_freq (khz FA)] else [])
       else []))).
Proof.
  destruct g as [sel nss eng fl r x ta ao lo sats].
  unfold set_links_f64.
  destruct rest as [|v1 rest]; destruct (eng || Force)%bool eqn:Hs;
    destruct (USE_SDR env) eqn:Hsdr; mrun;
    cbn [List.length Nat.ltb Nat.leb nth_error orb]; rewrite ?Hs, ?Hsdr; mrun;
    rewrite ?Hs, ?Hsdr, <- ?app_assoc, ?app_nil_r; reflexivity.
Qed.

Lemma form_new_pos_f64_run (rnd : Q -> Q) (az el : Q) (g : gui_state)
  (c : rig_control) (tr : list event) :
  form_new_pos_f64 rnd az el (mkWorld g c tr) =
  if Qle_bool 0 el
  then (Ok (if flipper g then flip_pos_f64 rnd (az, el) else (az, el)), mkWorld g c tr)
  else match track_az g with
       | a0 :: _ =>
           (Ok (if flipper g then flip_pos_f64 rnd (a0, 0) else (a0, 0)),
            mkWorld g c tr)
       | [] => (Raise IndexError, mkWorld g c tr)
       end.
Proof.
  destruct g as [sel nss eng fl r x ta ao lo sats].
  unfold form_new_pos_f64. mrun.
  destruct (Qle_bool 0 el); [destruct fl; reflexivity|].
  destruct ta as [|a0 ta]; cbn [nth_error]; [reflexivity|].
  destruct fl; reflexivity.
Qed.

Lemma update_rotor_f64_run (rnd : Q -> Q) (env : tick_env) (Force : bool)
  (new_pos : Q * Q) (g : gui_state) (c : rig_control) (tr : list event) :
  let pos := rotor_position env in
  let daz := fsub rnd (fst pos) (fst new_pos) in
  let de := fsub rnd (snd pos) (snd new_pos) in
  let moved :=
    (rotor_active env && error_exceeds daz de && (rig_engaged g || Force))%bool in
  update_rotor_f64 rnd env Force new_pos (mkWorld g c tr) =
  (Ok (moved,
       if rotor_active env then Some pos else None,
       if rotor_active env then Some daz else None,
       if rotor_active env then Some de else None),
   mkWorld g c (tr ++ if moved then [set_position new_pos] else [])).
Proof.
  destruct g as [sel nss eng fl r x ta ao lo sats].
  unfold update_rotor_f64. mrun.
  destruct (rotor_active env); cbn [andb]; [|now rewrite app_nil_r].
  destruct (error_exceeds _ _); cbn [andb]; [|now rewrite app_nil_r].
  destruct (eng || Force)%bool; [reflexivity | now rewrite app_nil_r].
Qed.

(** What [track_freqs] leaves up to the display of [frqB]: the attributes
    and the writes to the rig, the rotor and the recorder. *)
Lemma track_freqs_f64_body (rnd : Q -> Q) (env : tick_env) (Force : bool)
  (g : gui_state) (tr : list event) (a : Z) (b : option Z) (u d : option Q)
  (f : Q) (s : SATELLITE) (t : Transp) (v0 : string) (rest : list string)
  (p0 : Q * Q) :
  let az := azimuth (obs env) in
  let el := elevation (obs env) in
  let df := fst (uplink_of_f64 rnd t f) in
  let up := snd (uplink_of_f64 rnd t f) in
  let d1 := fmul rnd (fmul rnd (flit rnd (1 # 100000000)) (doppler (obs env))) f in
  let d2 := fmul rnd (fmul rnd (- flit rnd (1 # 100000000)) (doppler (obs env))) up in
  let FA := int_of_float (fadd rnd (fadd rnd f d1) (of_int rnd (rit g))) in
  let FB := int_of_float (fadd rnd (fadd rnd up d2) (of_int rnd (xit g))) in
  let khz := fun n : Z => fmul rnd (flit rnd (1 # 1000)) (of_int rnd n) in
  let send := (rig_engaged g || Force)%bool in
  let new_pos := if flipper g then flip_pos_f64 rnd p0 else p0 in
  let pos := rotor_position env in
  let daz := fsub rnd (fst pos) (fst new_pos) in
  let de := fsub rnd (snd pos) (snd new_pos) in
  let moved := (rotor_active env && error_exceeds daz de && send)%bool in
  let b' := match rest with [] => b | _ :: _ => Some FB end in
  let c' := mkCtrl FA b' (Some f) (Some up) (Some d1) (Some s) (Some t)
              (Some (v0 :: rest)) in
  let evs :=
    (match rest with
     | v1 :: _ => if send then [set_freq (khz FB) v1] else []
     | [] => []
     end ++
     (if send
      then set_freq (khz FA) v0 ::
           (if USE_SDR env then [sdr_set_freq (khz FA)] else [])
      else []) ++
     (if moved then [set_position new_pos] else []) ++
     [recorder (Qgtb el 0)])%list in
  target_of env g = Some p0 ->
  track_freqs_f64 rnd env Force
    (mkWorld g (mkCtrl a b (Some f) u d (Some s) (Some t) (Some (v0 :: rest))) tr) =
  match b' with
  | Some nB =>
      (Ok tt,
       mkWorld g c'
         (tr ++ evs ++
          [log_write
             (mkRow (Selected g) up f df d1 d2 FA nB az el
                (if rotor_active env then Some pos else None) new_pos
                (if rotor_active env then Some daz else None)
                (if rotor_active env then Some de else None)
                (flipper g) (rig_engaged g) moved)]))
  | None => (Raise AttributeError, mkWorld g c' (tr ++ evs))
  end.
Proof.
  intros az el df up d1 d2 FA FB khz send new_pos pos daz de moved b' c' evs Htgt.
  unfold track_freqs_f64.
  rewrite (bind_run _ _ _ _ _ (compute_links_f64_run rnd env g tr a b u d f s t _)).
  cbv beta iota zeta.
  rewrite (bind_run _ _ _ _ _
             (set_links_f64_run rnd env Force g tr a b _ _ _ _ _ v0 rest _ _ _ _)).
  fold up d1 d2 FA FB khz send b'.
  assert (Hpos : forall c tr',
             form_new_pos_f64 rnd az el (mkWorld g c tr') =
             (Ok new_pos, mkWorld g c tr')).
  { intros c tr'. rewrite form_new_pos_f64_run. unfold target_of in Htgt.
    fold az el in Htgt. subst new_pos.
    destruct (Qle_bool 0 el).
    - injection Htgt as <-. reflexivity.
    - destruct (track_az g); [discriminate|]. injection Htgt as <-. reflexivity. }
  rewrite (bind_run _ _ _ _ _ (Hpos _ _)).
  rewrite (bind_run _ _ _ _ _ (update_rotor_f64_run rnd env Force new_pos g _ _)).
  fold pos daz de send moved. cbv beta iota.
  subst c' evs.
  destruct g as [sel nss eng fl r x ta ao lo sats]. mrun.
  destruct b' as [nB|]; mrun; rewrite <- !app_assoc; reflexivity.
Qed.

(** ** Commanded frequencies *)




(** The sum is rounded before it is truncated: at a reference downlink of
    435850000 Hz and a Doppler factor of 229.43673282092348 Hz at 100 MHz
    the Doppler shift is just below 1000 Hz, the double nearest to the sum
    is 435851000, and that is commanded; truncating the exact sum would
    give 435850999. *)
Example commanded_downlink_rounds_up :
  let dop := binary64 (22943673282092348 # 100000000000000) in
  let env := ex_env dop 0 (180, 20) in
  let w := mkWorld (ex_gui true 0) (ex_ctrl 0 435850000 0) [] in
  let w' := snd (track_freqs_f64 binary64 env false w) in
  let d1 := fst (fst (fst (Doppler_Shifts_f64 binary64 (obs env) 435850000 145950000))) in
  fdop1 (w_ctrl w') = Some d1 /\ d1 < 1000 /\
  fadd binary64 435850000 d1 == 435851000 /\
  frqA (w_ctrl w') = 435851000%Z /\
  int_of_float (435850000 + d1 + 0) = 435850999%Z.
Proof.
  vm_compute. repeat split; try reflexivity; intros H; discriminate H.
Qed.

(** ** Rounding errors *)

Lemma mult_bound (x y A B : Q) :
  - A <= x <= A -> - B <= y <= B -> - (A * B) <= x * y <= A * B.
Proof. intros Hx Hy. nra. Qed.

Lemma accurate_close (rnd : Q -> Q) (x M : Q) :
  accurate rnd -> 1 <= M -> - M <= x <= M ->
  x - M * (1 # 4000000000000000) <= rnd x <= x + M * (1 # 4000000000000000).
Proof.
  intros Hacc HM Hx.
  pose proof (Hacc x) as H.
  assert (Habs : Qabs x <= M) by (apply Qabs_Qle_condition; exact Hx).
  assert (Hbound : unit_roundoff * Qabs x + underflow <= M * (1 # 4000000000000000)).
  { assert (Hu : unit_roundoff * Qabs x <= unit_roundoff * M).
    { apply Qmult_le_l; [reflexivity | exact Habs]. }
    assert (Hsmall : underflow <= 1 # 8000000000000000).
    { unfold underflow. unfold Qle. cbn [Qnum Qden]. vm_compute. discriminate. }
    unfold unit_roundoff in *. lra. }
  apply Qabs_Qle_condition in H. lra.
Qed.

Lemma floor_between (x : Q) (n : Z) :
  inject_Z n <= x -> x < inject_Z n + 2 -> 0 <= x ->
  int_of_float x = n \/ int_of_float x = (n + 1)%Z.
Proof.
  intros Hlo Hhi Hpos. rewrite int_of_float_floor by exact Hpos.
  pose proof (Qfloor_le x) as H1. pose proof (Qlt_floor x) as H2.
  rewrite inject_Z_plus in H2. change (inject_Z 1) with 1 in H2.
  assert (Ha : (n <= Qfloor x)%Z).
  { rewrite <- (Qfloor_Z n). apply Qfloor_resp_le. exact Hlo. }
  assert (Hb : (Qfloor x < n + 2)%Z).
  { rewrite Zlt_Qlt. rewrite inject_Z_plus. change (inject_Z 2) with 2. lra. }
  lia.
Qed.

(** The commanded downlink after a retune of +5000 Hz, the Doppler factor
    staying what it was on the last tick. *)
Lemma retune_arith (rnd : Q -> Q) (f k : Q) :
  accurate rnd -> exact_on_ints rnd ->
  1000000 <= f <= 10000000000 -> - 10000 <= k <= 10000 ->
  let K := fmul rnd (flit rnd (1 # 100000000)) k in
  let d := fmul rnd K f in
  let a := int_of_float (fadd rnd (fadd rnd f d) (of_int rnd 0)) in
  let F := fsub rnd (of_int rnd (a + 5000)) d in
  let d' := fmul rnd K F in
  let after := int_of_float (fadd rnd (fadd rnd F d') (of_int rnd 0)) in
  (0 <= a)%Z /\ (after = (a + 4999)%Z \/ after = (a + 5000)%Z).
Proof.
  intros Hacc Hint Hf Hk. unfold fmul, flit, fadd, fsub, of_int. cbv zeta.
  set (c8 := rnd (1 # 100000000)).
  assert (Hc8 : (1 # 100000000) - (1 # 4000000000000000) <= c8 <=
                (1 # 100000000) + (1 # 4000000000000000)).
  { pose proof (accurate_close rnd (1 # 100000000) 1 Hacc) as H. fold c8 in H. lra. }
  assert (Hck : - (((1 # 100000000) + (1 # 4000000000000000)) * 10000) <= c8 * k <=
                ((1 # 100000000) + (1 # 4000000000000000)) * 10000).
  { apply mult_bound; lra. }
  set (K := rnd (c8 * k)).
  assert (HK : - (10001 # 100000000) <= K <= 10001 # 100000000).
  { pose proof (accurate_close rnd (c8 * k) 1 Hacc) as H. fold K in H. lra. }
  assert (HKf : - ((10001 # 100000000) * f) <= K * f <= (10001 # 100000000) * f) by nra.
  set (d := rnd (K * f)).
  assert (Hd : K * f - (1 # 1000000000) <= d <= K * f + (1 # 1000000000)).
  { pose proof (accurate_close rnd (K * f) 2000000 Hacc) as H. fold d in H. lra. }
  set (s1 := rnd (f + d)).
  assert (Hs1 : f + d - (1 # 300000) <= s1 <= f + d + (1 # 300000)).
  { pose proof (accurate_close rnd (f + d) 12000000000 Hacc) as H. fold s1 in H. lra. }
  set (z := rnd (inject_Z 0)).
  assert (Hz : z == 0) by (apply (Hint 0%Z); discriminate).
  set (s2 := rnd (s1 + z)).
  assert (Hs2 : s1 - (1 # 300000) <= s2 <= s1 + (1 # 300000)).
  { pose proof (accurate_close rnd (s1 + z) 12000000000 Hacc) as H. fold s2 in H. lra. }
  assert (Hpos : 0 <= s2) by lra.
  set (a := int_of_float s2).
  assert (Ha : inject_Z a <= s2 /\ s2 < inject_Z a + 1).
  { subst a. rewrite int_of_float_floor by exact Hpos. split; [apply Qfloor_le|].
    pose proof (Qlt_floor s2) as H. rewrite inject_Z_plus in H. exact H. }
  assert (HaZ : (0 <= a <= 12000000000)%Z).
  { split.
    - assert (H : (-1 < a)%Z) by (rewrite Zlt_Qlt; change (inject_Z (-1)) with (-1); lra).
      lia.
    - rewrite Zle_Qle. change (inject_Z 12000000000) with 12000000000. lra. }
  set (fr := rnd (inject_Z (a + 5000))).
  assert (Hfr : fr == inject_Z a + 5000).
  { subst fr. rewrite (Hint (a + 5000)%Z) by lia. rewrite inject_Z_plus. reflexivity. }
  set (F := rnd (fr - d)).
  assert (HF : fr - d - (1 # 300000) <= F <= fr - d + (1 # 300000)).
  { pose proof (accurate_close rnd (fr - d) 13000000000 Hacc) as H. fold F in H. lra. }
  assert (HKF : - ((10001 # 100000000) * 13000000000) <= K * F <=
                (10001 # 100000000) * 13000000000).
  { apply mult_bound; lra. }
  set (d' := rnd (K * F)).
  assert (Hd' : K * F - (1 # 1000000000) <= d' <= K * F + (1 # 1000000000)).
  { pose proof (accurate_close rnd (K * F) 2000000 Hacc) as H. fold d' in H. lra. }
  assert (HP : - ((10001 # 100000000) * 5001) <= K * (F - f) <=
               (10001 # 100000000) * 5001).
  { apply mult_bound; lra. }
  assert (HKFf : K * F == K * f + K * (F - f)) by ring.
  set (s1' := rnd (F + d')).
  assert (Hs1' : F + d' - (1 # 200000) <= s1' <= F + d' + (1 # 200000)).
  { pose proof (accurate_close rnd (F + d') 14000000000 Hacc) as H. fold s1' in H. lra. }
  set (s2' := rnd (s1' + z)).
  assert (Hs2' : s1' - (1 # 200000) <= s2' <= s1' + (1 # 200000)).
  { pose proof (accurate_close rnd (s1' + z) 14000000000 Hacc) as H. fold s2' in H. lra. }
  split; [lia|].
  destruct (floor_between s2' (a + 4999)%Z) as [H|H].
  - rewrite inject_Z_plus. change (inject_Z 4999) with 4999. lra.
  - rewrite inject_Z_plus. change (inject_Z 4999) with 4999. lra.
  - lra.
  - left. exact H.
  - right. rewrite H. lia.
Qed.

(** ** The rounding to the nearest double *)

Lemma pow2_pos (e : Z) : 0 < pow2 e.
Proof. apply Qpower_0_lt. reflexivity. Qed.

Lemma pow2_nonneg_Z (e : Z) : (0 <= e)%Z -> pow2 e == inject_Z (2 ^ e).
Proof. intros He. unfold pow2. rewrite Zpower_Qpower by exact He. reflexivity. Qed.

Lemma pow2_minus (n m : Z) : pow2 (n - m) == pow2 n / pow2 m.
Proof. unfold pow2. apply Qpower_minus. intros H. discriminate H. Qed.

Lemma pow2_plus (n m : Z) : pow2 (n + m) == pow2 n * pow2 m.
Proof. unfold pow2. apply Qpower_plus. intros H. discriminate H. Qed.

Lemma pow2_le (n m : Z) : (n <= m)%Z -> pow2 n <= pow2 m.
Proof. intros H. unfold pow2. apply Qpower_le_compat_l; [exact H | discriminate]. Qed.

Lemma pow2_le_inv (n m : Z) : pow2 n <= pow2 m -> (n <= m)%Z.
Proof. intros H. unfold pow2 in H. apply Qpower_le_compat_l_inv in H; [exact H | reflexivity]. Qed.

Lemma ilog2_le (x : Q) : ~ x == 0 -> pow2 (ilog2 x) <= Qabs x.
Proof.
  intros Hx. unfold ilog2.
  destruct (Qle_bool (pow2 (Z.log2 (Z.abs (Qnum x)) - Z.log2 (Z.pos (Qden x)))) (Qabs x))
    eqn:E; [apply Qle_bool_iff; exact E|].
  clear E. destruct x as [n d]. cbn [Qnum Qden Qabs].
  assert (Hn : (0 < Z.abs n)%Z).
  { assert (n <> 0%Z); [|lia]. intros ->. apply Hx. reflexivity. }
  set (ln := Z.log2 (Z.abs n)). set (ld := Z.log2 (Z.pos d)).
  assert (Hln : (0 <= ln)%Z) by apply Z.log2_nonneg.
  assert (Hld : (0 <= ld)%Z) by apply Z.log2_nonneg.
  destruct (Z.log2_spec (Z.abs n) Hn) as [HA _]. fold ln in HA.
  destruct (Z.log2_spec (Z.pos d) eq_refl) as [_ HB]. fold ld in HB.
  replace (ln - ld - 1)%Z with (ln - Z.succ ld)%Z by lia.
  rewrite pow2_minus, !pow2_nonneg_Z by lia.
  apply Qle_shift_div_r.
  { rewrite <- (pow2_nonneg_Z (Z.succ ld)) by lia. apply pow2_pos. }
  unfold Qle, Qmult, inject_Z. cbn [Qnum Qden].
  rewrite Z.mul_1_r, Pos.mul_1_r.
  assert (H0 : (0 < 2 ^ ln)%Z) by (apply Z.pow_pos_nonneg; lia).
  nia.
Qed.

Lemma round_half_even_close (y : Q) :
  - (1 # 2) <= inject_Z (round_half_even y) - y <= 1 # 2.
Proof.
  unfold round_half_even.
  pose proof (Qfloor_le y) as H1. pose proof (Qlt_floor y) as H2.
  rewrite inject_Z_plus in H2. change (inject_Z 1) with 1 in H2.
  destruct (Qcompare (y - inject_Z (Qfloor y)) (1 # 2)) eqn:E.
  - apply Qeq_alt in E. destruct (Z.even (Qfloor y));
      rewrite ?inject_Z_plus; change (inject_Z 1) with 1; lra.
  - apply Qlt_alt in E. lra.
  - apply Qgt_alt in E. rewrite inject_Z_plus. change (inject_Z 1) with 1. lra.
Qed.

Lemma round_half_even_Z (y : Q) (k : Z) : y == inject_Z k -> round_half_even y = k.
Proof.
  intros Hy. unfold round_half_even.
  assert (Hf : Qfloor y = k) by (rewrite (Qfloor_comp _ _ Hy); apply Qfloor_Z).
  rewrite Hf.
  assert (E : Qcompare (y - inject_Z k) (1 # 2) = Lt).
  { apply (proj1 (Qlt_alt _ _)). lra. }
  rewrite E. reflexivity.
Qed.

Lemma binary64_close (x : Q) :
  ~ x == 0 ->
  let e := Z.max (ilog2 x) (-1022) in
  - pow2 (e - 53) <= binary64 x - x <= pow2 (e - 53).
Proof.
  intros Hx e. unfold binary64.
  destruct (Qeq_bool x 0) eqn:E; [apply Qeq_bool_iff in E; contradiction|].
  cbv zeta. fold e. rewrite Qred_correct.
  set (q := pow2 (e - 52)).
  assert (Hq : 0 < q) by apply pow2_pos.
  assert (Hhalf : pow2 (e - 53) == q * (1 # 2)).
  { subst q. replace (e - 53)%Z with ((e - 52) + -1)%Z by lia.
    rewrite pow2_plus. reflexivity. }
  pose proof (round_half_even_close (x / q)) as Hm.
  set (m := inject_Z (round_half_even (x / q))) in *.
  assert (Hx' : x == (x / q) * q) by (field; lra).
  rewrite Hhalf.
  assert (H1 : m * q - x == (m - x / q) * q) by (rewrite Hx' at 1; ring).
  rewrite H1. nra.
Qed.

Lemma binary64_accurate : accurate binary64.
Proof.
  intros x. apply Qabs_Qle_condition.
  destruct (Qeq_dec x 0) as [Hz|Hnz].
  - assert (E : binary64 x = 0).
    { unfold binary64. apply Qeq_bool_iff in Hz. now rewrite Hz. }
    rewrite E. rewrite Hz. unfold unit_roundoff, underflow.
    change (Qabs 0) with 0. split; [|ring_simplify]; vm_compute; discriminate.
  - pose proof (binary64_close x Hnz) as H. cbv zeta in H.
    pose proof (ilog2_le x Hnz) as Hlog.
    assert (Hb : pow2 (Z.max (ilog2 x) (-1022) - 53) <=
                 unit_roundoff * Qabs x + underflow).
    { destruct (Z.max_spec (ilog2 x) (-1022)) as [[_ ->]|[_ ->]].
      - assert (Hsmall : pow2 (-1022 - 53) <= underflow) by (vm_compute; discriminate).
        assert (0 <= unit_roundoff * Qabs x).
        { apply Qmult_le_0_compat; [discriminate | apply Qabs_nonneg]. }
        lra.
      - replace (ilog2 x - 53)%Z with (ilog2 x + -53)%Z by lia.
        rewrite pow2_plus.
        assert (Hu : pow2 (-53) == unit_roundoff) by (vm_compute; reflexivity).
        rewrite Hu.
        assert (0 <= underflow) by discriminate.
        assert (pow2 (ilog2 x) * unit_roundoff <= unit_roundoff * Qabs x).
        { rewrite (Qmult_comm (pow2 _)). apply Qmult_le_l; [reflexivity | exact Hlog]. }
        lra. }
    lra.
Qed.

Lemma binary64_ints : exact_on_ints binary64.
Proof.
  intros n Hn. destruct (Z.eq_dec n 0%Z) as [->|Hn0]; [reflexivity|].
  assert (Hx : ~ inject_Z n == 0).
  { intros H. apply Hn0. unfold Qeq in H. cbn in H. lia. }
  pose proof (ilog2_le (inject_Z n) Hx) as Hlog.
  change (Qabs (inject_Z n)) with (inject_Z (Z.abs n)) in Hlog.
  assert (He : (ilog2 (inject_Z n) <= 53)%Z).
  { apply pow2_le_inv. rewrite (pow2_nonneg_Z 53) by lia.
    eapply Qle_trans; [exact Hlog|]. rewrite <- Zle_Qle. exact Hn. }
  destruct (Z_le_gt_dec (ilog2 (inject_Z n)) 52) as [Hle|Hgt].
  - unfold binary64.
    destruct (Qeq_bool (inject_Z n) 0) eqn:E; [apply Qeq_bool_iff in E; contradiction|].
    cbv zeta. rewrite Qred_correct.
    set (e := Z.max (ilog2 (inject_Z n)) (-1022)).
    assert (He52 : (e <= 52)%Z) by (subst e; lia).
    assert (Hinv : pow2 (e - 52) * pow2 (52 - e) == 1).
    { rewrite <- pow2_plus. replace (e - 52 + (52 - e))%Z with 0%Z by lia. reflexivity. }
    assert (Hq : 0 < pow2 (e - 52)) by apply pow2_pos.
    assert (Hdiv : inject_Z n / pow2 (e - 52) == inject_Z (n * 2 ^ (52 - e))).
    { rewrite inject_Z_mult, <- (pow2_nonneg_Z (52 - e)) by lia.
      apply Qmult_inj_r with (z := pow2 (e - 52)); [lra|].
      rewrite <- Qmult_assoc, (Qmult_comm (pow2 (52 - e))), Hinv.
      field. lra. }
    rewrite (round_half_even_Z _ _ Hdiv).
    rewrite <- Hdiv. field. lra.
  - assert (Habs : Z.abs n = 9007199254740992%Z).
    { assert (H53 : ilog2 (inject_Z n) = 53%Z) by lia. rewrite H53 in Hlog.
      rewrite (pow2_nonneg_Z 53) in Hlog by lia. rewrite <- Zle_Qle in Hlog.
      change (2 ^ 53)%Z with 9007199254740992%Z in Hlog. lia. }
    assert (Hcases : n = 9007199254740992%Z \/ n = (-9007199254740992)%Z) by lia.
    destruct Hcases as [-> | ->]; vm_compute; reflexivity.
Qed.

(** ** Running Updater *)

Lemma update_aos_los_f64_run (rnd : Q -> Q) (env : tick_env) (g : gui_state)
  (c : rig_control) (tr : list event) :
  exists e,
    update_aos_los_f64 rnd env (mkWorld g c tr) = (Ok tt, mkWorld g c (tr ++ [txt9 e])).
Proof.
  destruct g as [sel nss eng fl r x ta ao lo sats].
  unfold update_aos_los_f64. mrun.
  destruct (Qgtb (fsub rnd ao (now env)) 0); [eexists; reflexivity|].
  destruct (Qgtb (fsub rnd lo (now env)) 0); eexists; reflexivity.
Qed.

Lemma Updater_f64_idle (rnd : Q -> Q) (shown : nat) (env : tick_env)
  (g : gui_state) (c : rig_control) (tr : list event) :
  ((rig_engaged g || is_None (fdown c)) && truthy (Selected g))%bool = false ->
  Updater_f64 rnd shown env (mkWorld g c tr) =
  update_aos_los_f64 rnd env (mkWorld g c tr).
Proof.
  intros H. unfold Updater_f64.
  destruct g as [sel nss eng fl r x ta ao lo sats].
  destruct c as [a b f u d s t vs].
  cbn [rig_engaged Selected fdown] in H. mrun. rewrite H. reflexivity.
Qed.

Lemma Updater_f64_acquiring (rnd : Q -> Q) (shown : nat) (env : tick_env)
  (g : gui_state) (c : rig_control) (tr : list event) :
  ((rig_engaged g || is_None (fdown c)) && truthy (Selected g))%bool = true ->
  New_Sat_Selection g = true ->
  Updater_f64 rnd shown env (mkWorld g c tr) =
  bind (new_sat_selected_f64 rnd shown env) (fun _ => update_aos_los_f64 rnd env)
    (mkWorld g c tr).
Proof.
  intros Hguard Hnew. unfold Updater_f64.
  destruct g as [sel nss eng fl r x ta ao lo sats].
  destruct c as [a b f u d s t vs].
  cbn [rig_engaged Selected fdown New_Sat_Selection] in Hguard, Hnew. subst nss.
  mrun. rewrite Hguard. reflexivity.
Qed.

(** The reference downlink after the dial check of a tick. *)
Lemma Updater_f64_tracking (rnd : Q -> Q) (shown : nat) (env : tick_env)
  (g : gui_state) (tr : list event) (a : Z) (b : option Z) (u : option Q)
  (f d : Q) (s : option SATELLITE) (t : option Transp) (v0 : string)
  (rest : list string) :
  rig_engaged g = true -> truthy (Selected g) = true ->
  New_Sat_Selection g = false ->
  let frq := vfo_reading env in
  let retuned := (Z.ltb 0 frq && negb (Z.eqb frq a))%bool in
  Updater_f64 rnd shown env
    (mkWorld g (mkCtrl a b (Some f) u (Some d) s t (Some (v0 :: rest))) tr) =
  bind (track_freqs_f64 rnd env false) (fun _ => update_aos_los_f64 rnd env)
    (mkWorld g
       (mkCtrl (if retuned then frq else a) b
          (Some (if retuned then fsub rnd (of_int rnd frq) d else f)) u (Some d) s t
          (Some (v0 :: rest)))
       tr).
Proof.
  intros He Hs Hn frq retuned. unfold Updater_f64, dial_check_f64.
  destruct g as [sel nss eng fl r x ta ao lo sats].
  cbn [rig_engaged Selected New_Sat_Selection] in He, Hs, Hn. subst eng nss.
  mrun. rewrite Hs. cbn [orb andb nth_error]. mrun. fold frq.
  subst retuned. destruct (Z.ltb 0 frq && negb (Z.eqb frq a))%bool; reflexivity.
Qed.

(** The state an engaged tick after acquisition leaves. *)
Lemma Updater_f64_tracking_run (rnd : Q -> Q) (shown : nat) (env : tick_env)
  (g : gui_state) (tr : list event) (a b0 : Z) (u : option Q) (f d : Q)
  (s : SATELLITE) (t : Transp) (v0 : string) (rest : list string)
  (a0 : Q) (trk : list Q) :
  rig_engaged g = true -> truthy (Selected g) = true ->
  New_Sat_Selection g = false -> track_az g = a0 :: trk ->
  let frq := vfo_reading env in
  let f' := if (Z.ltb 0 frq && negb (Z.eqb frq a))%bool
            then fsub rnd (of_int rnd frq) d else f in
  let d1 := fmul rnd (fmul rnd (flit rnd (1 # 100000000)) (doppler (obs env))) f' in
  exists nB evs e9,
    Updater_f64 rnd shown env
      (mkWorld g (mkCtrl a (Some b0) (Some f) u (Some d) (Some s) (Some t)
                    (Some (v0 :: rest))) tr) =
    (Ok tt,
     mkWorld g
       (mkCtrl (int_of_float (fadd rnd (fadd rnd f' d1) (of_int rnd (rit g))))
          (Some nB) (Some f') (Some (snd (uplink_of_f64 rnd t f'))) (Some d1)
          (Some s) (Some t) (Some (v0 :: rest)))
       ((tr ++ evs) ++ [txt9 e9])).
Proof.
  intros He Hs Hn Htrk frq f' d1.
  rewrite (Updater_f64_tracking rnd shown env g tr a (Some b0) u f d (Some s) (Some t)
             v0 rest He Hs Hn).
  cbv zeta. fold frq f'.
  assert (Htgt : target_of env g =
                 Some (if Qle_bool 0 (elevation (obs env))
                       then (azimuth (obs env), elevation (obs env)) else (a0, 0))).
  { unfold target_of. rewrite Htrk. destruct (Qle_bool 0 (elevation (obs env))); reflexivity. }
  pose proof (track_freqs_f64_body rnd env false g tr
                (if (Z.ltb 0 frq && negb (Z.eqb frq a))%bool then frq else a)
                (Some b0) u (Some d) f' s t v0 rest _ Htgt) as Hrun.
  cbv zeta in Hrun. fold d1 in Hrun.
  assert (Hb : exists nB,
             match rest with
             | [] => Some b0
             | _ :: _ =>
                 Some (int_of_float
                         (fadd rnd
                            (fadd rnd (snd (uplink_of_f64 rnd t f'))
                               (fmul rnd
                                  (fmul rnd (- flit rnd (1 # 100000000)) (doppler (obs env)))
                                  (snd (uplink_of_f64 rnd t f'))))
                            (of_int rnd (xit g))))
             end = Some nB) by (destruct rest; eauto).
  destruct Hb as (nB & Hb). rewrite Hb in Hrun.
  rewrite (bind_run _ _ _ _ _ Hrun).
  match goal with
  | |- context [update_aos_los_f64 rnd env (mkWorld ?g' ?c ?trc)] =>
      destruct (update_aos_los_f64_run rnd env g' c trc) as (e9 & H9)
  end.
  exists nB. eexists. exists e9. rewrite H9. reflexivity.
Qed.

(** ** Manual retune *)

(** C5, as the code has it.  On a tick of the engaged loop after
    acquisition: a VFO reading that is positive and differs from the last
    commanded downlink rebases the reference downlink to the reading minus
    the downlink Doppler shift of the last tick (a subtraction in double
    precision); a reading that is zero, negative or the last commanded
    downlink leaves the reference downlink as it is.  With no RIT, a
    reference downlink from 1 MHz to 10 GHz and a Doppler factor of at
    most 10 kHz at 100 MHz that is the one of the last tick, a reading
    5000 Hz above the last commanded downlink makes the next commanded
    downlink 4999 or 5000 Hz higher than the one an unchanged reading
    gives, which is the last commanded downlink again. *)
Theorem Updater_retune (rnd : Q -> Q) (shown : nat) (env : tick_env)
  (g : gui_state) (tr : list event) (a b0 : Z) (u : option Q) (f d : Q)
  (s : SATELLITE) (t : Transp) (v0 : string) (rest : list string)
  (a0 : Q) (trk : list Q) :
  rig_engaged g = true -> truthy (Selected g) = true ->
  New_Sat_Selection g = false -> track_az g = a0 :: trk ->
  let w :=
    mkWorld g (mkCtrl a (Some b0) (Some f) u (Some d) (Some s) (Some t)
                 (Some (v0 :: rest))) tr in
  let frq := vfo_reading env in
  fst (Updater_f64 rnd shown env w) = Ok tt /\
  ((0 < frq)%Z -> frq <> a ->
   fdown (w_ctrl (snd (Updater_f64 rnd shown env w))) =
   Some (fsub rnd (of_int rnd frq) d)) /\
  ((frq <= 0)%Z \/ frq = a ->
   fdown (w_ctrl (snd (Updater_f64 rnd shown env w))) = Some f) /\
  (forall env' : tick_env,
      accurate rnd -> exact_on_ints rnd ->
      rit g = 0%Z ->
      1000000 <= f <= 10000000000 ->
      - 10000 <= doppler (obs env) <= 10000 ->
      doppler (obs env') = doppler (obs env) ->
      d = fmul rnd (fmul rnd (flit rnd (1 # 100000000)) (doppler (obs env))) f ->
      a = int_of_float (fadd rnd (fadd rnd f d) (of_int rnd 0)) ->
      frq = (a + 5000)%Z -> vfo_reading env' = a ->
      frqA (w_ctrl (snd (Updater_f64 rnd shown env' w))) = a /\
      (frqA (w_ctrl (snd (Updater_f64 rnd shown env w))) = (a + 4999)%Z \/
       frqA (w_ctrl (snd (Updater_f64 rnd shown env w))) = (a + 5000)%Z)).
Proof.
  intros He Hs Hn Htrk w frq.
  pose proof (fun e => Updater_f64_tracking_run rnd shown e g tr a b0 u f d s t v0 rest
                         a0 trk He Hs Hn Htrk) as Hrun.
  subst w.
  destruct (Hrun env) as (nB & evs & e9 & Henv). cbv zeta in Henv. fold frq in Henv.
  rewrite Henv. cbn [fst snd w_ctrl fdown frqA].
  split; [reflexivity|]. split; [|split].
  - intros Hpos Hne.
    assert (E : (Z.ltb 0 frq && negb (Z.eqb frq a))%bool = true).
    { apply andb_true_iff. split; [now apply Z.ltb_lt|].
      apply negb_true_iff. now apply Z.eqb_neq. }
    now rewrite E.
  - intros Hz.
    assert (E : (Z.ltb 0 frq && negb (Z.eqb frq a))%bool = false).
    { destruct Hz as [Hz | ->].
      - assert (E0 : Z.ltb 0 frq = false) by (apply Z.ltb_ge; exact Hz).
        now rewrite E0.
      - rewrite Z.eqb_refl. apply andb_false_r. }
    now rewrite E.
  - intros env' Hacc Hint Hrit Hf Hk Hsame Hd Ha Hfrq Hfrq'.
    destruct (Hrun env') as (nB' & evs' & e9' & Henv'). cbv zeta in Henv'.
    rewrite Henv'. cbn [snd w_ctrl frqA].
    rewrite Hfrq', Z.eqb_refl, andb_false_r, Hsame, Hrit, <- Hd, <- Ha.
    split; [reflexivity|].
    pose proof (retune_arith rnd f (doppler (obs env)) Hacc Hint Hf Hk) as H.
    cbv zeta in H. rewrite <- Hd, <- Ha in H. destruct H as [Hapos H].
    assert (E : (Z.ltb 0 frq && negb (Z.eqb frq a))%bool = true).
    { apply andb_true_iff. split; [apply Z.ltb_lt; lia|].
      apply negb_true_iff. apply Z.eqb_neq. lia. }
    rewrite E, Hfrq. exact H.
Qed.

Lemma Updater_retune_witness :
  let d := fmul binary64 (fmul binary64 (flit binary64 (1 # 100000000)) (-1234)) 435850000 in
  let w := mkWorld (ex_gui true 0) (ex_ctrl 435844621 435850000 d) [] in
  let retuned := ex_env (-1234) 435849621 (180, 20) in
  let unchanged := ex_env (-1234) 435844621 (180, 20) in
  fst (Updater_f64 binary64 0 retuned w) = Ok tt /\
  fdown (w_ctrl (snd (Updater_f64 binary64 0 retuned w))) =
  Some (fsub binary64 (of_int binary64 435849621) d) /\
  fdown (w_ctrl (snd (Updater_f64 binary64 0 unchanged w))) = Some 435850000 /\
  frqA (w_ctrl (snd (Updater_f64 binary64 0 unchanged w))) = 435844621%Z /\
  (frqA (w_ctrl (snd (Updater_f64 binary64 0 retuned w))) = (435844621 + 4999)%Z \/
   frqA (w_ctrl (snd (Updater_f64 binary64 0 retuned w))) = (435844621 + 5000)%Z).
Proof.
  cbv zeta.
  pose proof (Updater_retune binary64 0 (ex_env (-1234) 435849621 (180, 20))
                (ex_gui true 0) [] 435844621 0 (Some 0) 435850000
                (fmul binary64 (fmul binary64 (flit binary64 (1 # 100000000)) (-1234))
                   435850000)
                ex_sat ex_transp "A" ["B"] 190 [200; 210]
                eq_refl eq_refl eq_refl eq_refl) as H1.
  pose proof (Updater_retune binary64 0 (ex_env (-1234) 435844621 (180, 20))
                (ex_gui true 0) [] 435844621 0 (Some 0) 435850000
                (fmul binary64 (fmul binary64 (flit binary64 (1 # 100000000)) (-1234))
                   435850000)
                ex_sat ex_transp "A" ["B"] 190 [200; 210]
                eq_refl eq_refl eq_refl eq_refl) as H2.
  cbv zeta in H1, H2.
  destruct H1 as (Hok & Hre & _ & H5000).
  destruct H2 as (_ & _ & Hsame & _).
  split; [exact Hok|]. split; [|split].
  - apply Hre; [reflexivity | discriminate].
  - apply Hsame. right. reflexivity.
  - apply (H5000 (ex_env (-1234) 435844621 (180, 20)));
      first [ exact binary64_accurate | exact binary64_ints
            | reflexivity
            | split; discriminate
            | vm_compute; reflexivity ].
Defined.

(** C5 as stated fails.  First, with the same Doppler factor on both
    ticks (-1234 Hz at 100 MHz) and no RIT: after a tick that commanded
    435844621 Hz, a reading of 435849621 makes the next tick command
    435849620, which is 4999 Hz above the 435844621 that an unchanged
    reading gives.  Second, with no Doppler and a RIT of 100 Hz: after a
    tick that commanded 435850100 Hz, a reading of 435855100 makes the next
    tick command 435855200, which is 5100 Hz above the 435850100 that an
    unchanged reading gives. *)
Lemma retune_shift_is_not_5000 :
  let d1 := fst (fst (fst (Doppler_Shifts_f64 binary64 (mkObs (-1234) 200 30)
                             435850000 145950000))) in
  let w1 := mkWorld (ex_gui true 0) (ex_ctrl 435844621 435850000 d1) [] in
  let w2 := mkWorld (ex_gui true 100) (ex_ctrl 435850100 435850000 0) [] in
  let commanded (env : tick_env) (w : world) :=
    frqA (w_ctrl (snd (Updater_f64 binary64 0 env w))) in
  (int_of_float (fadd binary64 (fadd binary64 435850000 d1) (of_int binary64 0)) =
   435844621%Z /\
   fst (Updater_f64 binary64 0 (ex_env (-1234) (435844621 + 5000) (180, 20)%Q) w1) = Ok tt /\
   commanded (ex_env (-1234) (435844621 + 5000) (180, 20)%Q) w1 = 435849620%Z /\
   commanded (ex_env (-1234) 435844621 (180, 20)%Q) w1 = 435844621%Z /\
   commanded (ex_env (-1234) (435844621 + 5000) (180, 20)%Q) w1 <>
   (commanded (ex_env (-1234) 435844621 (180, 20)%Q) w1 + 5000)%Z) /\
  (int_of_float (fadd binary64 (fadd binary64 435850000 0) (of_int binary64 100)) =
   435850100%Z /\
   commanded (ex_env 0 (435850100 + 5000) (180, 20)%Q) w2 = 435855200%Z /\
   commanded (ex_env 0%Q 435850100 (180, 20)%Q) w2 = 435850100%Z /\
   commanded (ex_env 0 (435850100 + 5000) (180, 20)%Q) w2 <>
   (commanded (ex_env 0%Q 435850100 (180, 20)%Q) w2 + 5000)%Z).
Proof.
  vm_compute. repeat split; try reflexivity; intros H; discriminate H.
Qed.

(** ** Disengaged ticks *)

Lemma index_of_nth (x : string) (l : list string) (i : nat) :
  index_of x l = Some i -> nth_error l i = Some x.
Proof.
  revert i. induction l as [|y l IH]; intros i; cbn [index_of]; [discriminate|].
  destruct (String.eqb y x) eqn:E.
  - intros [= <-]. apply String.eqb_eq in E. now subst y.
  - destruct (index_of x l) as [j|]; [|discriminate].
    intros [= <-]. cbn [nth_error]. now apply IH.
Qed.

(** The first half of the acquisition: the satellite, its main transponder
    and the VFO names are stored and the rig is put in satellite mode. *)
Lemma acquire_f64_setup_run (rnd : Q -> Q) (shown : nat) (env : tick_env)
  (g : gui_state) (tr : list event)
  (a : Z) (b : option Z) (f u d : option Q) (s0 : option SATELLITE)
  (t0 : option Transp) (vs0 : option (list string))
  (sel mn : string) (sat : SATELLITE) (items : gmap string pyval) (t : Transp)
  (vs : list string) (evs0 : list event) :
  Selected g = Some sel ->
  od_get (Satellites g) sel = Ok sat ->
  sat_main sat = Some mn ->
  od_get (sat_transponders sat) mn = Ok items ->
  transp_of_items items = Some t ->
  rig_setup (rig_type2 env) = Some (vs, evs0) ->
  new_sat_selected_f64 rnd shown env (mkWorld g (mkCtrl a b f u d s0 t0 vs0) tr) =
  (set_rig_mode (mode t);!
   idx <-! match index_of (mode t) MODES with
           | Some i => ret i
           | None => raise ValueError
           end;
   (if Nat.eqb idx shown then ret tt else ModeSelect idx);!
   set_fdown (fmul rnd (flit rnd (1 # 2)) (of_int rnd (fdn1 t + fdn2 t)));!
   track_freqs_f64 rnd env false;!
   set_New_Sat_Selection false)
    (mkWorld g (mkCtrl a b f u d (Some sat) (Some t) (Some vs))
       (tr ++ evs0 ++
        if (is_str (rig_type2 env) "IC9700" &&
            negb (String.eqb
                    (get_band env (fmul rnd (flit rnd (1 # 1000000))
                                     (of_int rnd (vfo_reading env))))
                    (get_band env (fmul rnd (flit rnd (1 # 1000000))
                                     (of_int rnd (fdn1 t))))))%bool
        then [select_vfo "X"] else [])).
Proof.
  intros Hsel Hsat Hmain Hitems Ht Hrig.
  destruct g as [sel' nss eng fl r x ta ao lo sats].
  cbn [Selected Satellites] in Hsel, Hsat. subst sel'.
  unfold new_sat_selected_f64. mrun.
  rewrite Hsat. mrun. rewrite Hmain. mrun. rewrite Hitems. mrun. rewrite Ht. mrun.
  unfold rig_setup in Hrig. unfold is_str.
  destruct (rig_type2 env) as [r'|].
  - destruct (String.eqb r' "FT991a") eqn:E1.
    { injection Hrig as <- <-. mrun.
      apply String.eqb_eq in E1. subst r'. cbn [String.eqb Ascii.eqb Bool.eqb andb].
      mrun. rewrite app_nil_r. reflexivity. }
    destruct (String.eqb r' "IC9700") eqn:E2.
    { injection Hrig as <- <-. mrun. cbn [andb].
      destruct (negb _); mrun; rewrite <- ?app_assoc; reflexivity. }
    destruct (String.eqb r' "pySDR") eqn:E3.
    { injection Hrig as <- <-. mrun. cbn [andb app]. rewrite app_nil_r. reflexivity. }
    destruct (String.eqb r' "Dummy") eqn:E4; [|discriminate].
    injection Hrig as <- <-. mrun. cbn [andb app]. rewrite app_nil_r. reflexivity.
  - injection Hrig as <- <-. mrun. cbn [andb app]. rewrite app_nil_r. reflexivity.
Qed.

(** The events of [set_rig_mode]: modes only. *)
Lemma set_rig_mode_events (m : string) (g : gui_state) (tr : list event)
  (a : Z) (b : option Z) (f u d : option Q) (s : option SATELLITE) (t : Transp)
  (v0 : string) (rest : list string) :
  exists evs,
    set_rig_mode m (mkWorld g (mkCtrl a b f u d s (Some t) (Some (v0 :: rest))) tr) =
    (Ok tt, mkWorld g (mkCtrl a b f u d s (Some t) (Some (v0 :: rest))) (tr ++ evs)) /\
    existsb is_set_freq evs = false /\ existsb is_set_position evs = false /\
    existsb is_log_write evs = false.
Proof.
  eexists. split; [apply set_rig_mode_run|].
  destruct rest as [|v1 rest]; [repeat split; reflexivity|].
  destruct (Inverting t); [|repeat split; reflexivity].
  destruct (opposite_mode m); repeat split; reflexivity.
Qed.

(** The acquisition tick on a rig with two VFOs. *)
Lemma Updater_f64_acquisition (rnd : Q -> Q) (shown : nat) (env : tick_env)
  (g : gui_state) (tr : list event) (a : Z) (b : option Z) (f u d : option Q)
  (s0 : option SATELLITE) (t0 : option Transp) (vs0 : option (list string))
  (sel mn : string) (sat : SATELLITE) (items : gmap string pyval) (t : Transp)
  (v0 v1 : string) (rest : list string) (evs0 : list event) (idx : nat)
  (p0 : Q * Q) :
  Selected g = Some sel -> sel <> "" ->
  New_Sat_Selection g = true ->
  (rig_engaged g || is_None f)%bool = true ->
  od_get (Satellites g) sel = Ok sat ->
  sat_main sat = Some mn ->
  od_get (sat_transponders sat) mn = Ok items ->
  transp_of_items items = Some t ->
  rig_setup (rig_type2 env) = Some (v0 :: v1 :: rest, evs0) ->
  index_of (mode t) MODES = Some idx ->
  target_of env g = Some p0 ->
  let fc := fmul rnd (flit rnd (1 # 2)) (of_int rnd (fdn1 t + fdn2 t)) in
  let az := azimuth (obs env) in
  let el := elevation (obs env) in
  let df := fst (uplink_of_f64 rnd t fc) in
  let up := snd (uplink_of_f64 rnd t fc) in
  let d1 := fmul rnd (fmul rnd (flit rnd (1 # 100000000)) (doppler (obs env))) fc in
  let d2 := fmul rnd (fmul rnd (- flit rnd (1 # 100000000)) (doppler (obs env))) up in
  let FA := int_of_float (fadd rnd (fadd rnd fc d1) (of_int rnd (rit g))) in
  let FB := int_of_float (fadd rnd (fadd rnd up d2) (of_int rnd (xit g))) in
  let khz := fun n : Z => fmul rnd (flit rnd (1 # 1000)) (of_int rnd n) in
  let send := (rig_engaged g || false)%bool in
  let new_pos := if flipper g then flip_pos_f64 rnd p0 else p0 in
  let pos := rotor_position env in
  let daz := fsub rnd (fst pos) (fst new_pos) in
  let de := fsub rnd (snd pos) (snd new_pos) in
  let moved := (rotor_active env && error_exceeds daz de && send)%bool in
  exists pre e9,
    Updater_f64 rnd shown env (mkWorld g (mkCtrl a b f u d s0 t0 vs0) tr) =
    (Ok tt,
     mkWorld
       (mkGui (Selected g) false (rig_engaged g) (flipper g) (rit g) (xit g)
          (track_az g) (aos g) (los g) (Satellites g))
       (mkCtrl FA (Some FB) (Some fc) (Some up) (Some d1) (Some sat) (Some t)
          (Some (v0 :: v1 :: rest)))
       (tr ++ (pre ++
               (if send then [set_freq (khz FB) v1] else []) ++
               (if send
                then set_freq (khz FA) v0 ::
                     (if USE_SDR env then [sdr_set_freq (khz FA)] else [])
                else []) ++
               (if moved then [set_position new_pos] else []) ++
               [recorder (Qgtb el 0)]) ++
        [log_write
           (mkRow (Selected g) up fc df d1 d2 FA FB az el
              (if rotor_active env then Some pos else None) new_pos
              (if rotor_active env then Some daz else None)
              (if rotor_active env then Some de else None)
              (flipper g) (rig_engaged g) moved);
         txt9 e9])) /\
    existsb is_set_freq pre = false /\ existsb is_set_position pre = false /\
    existsb is_log_write pre = false.
Proof.
  intros Hsel Hne Hnew Hguard Hsat Hmain Hitems Ht Hrig Hidx Htgt.
  intros fc az el df up d1 d2 FA FB khz send new_pos pos daz de moved.
  rewrite Updater_f64_acquiring; [| |exact Hnew].
  2:{ cbn [fdown]. rewrite Hguard, Hsel. cbn [truthy andb].
      apply negb_true_iff, String.eqb_neq. exact Hne. }
  unfold bind at 1.
  rewrite (acquire_f64_setup_run rnd shown env g tr a b f u d s0 t0 vs0 sel mn sat items t
             _ evs0 Hsel Hsat Hmain Hitems Ht Hrig).
  destruct (rig_setup_events _ _ _ Hrig) as (_ & Hf0 & Hp0 & Hl0).
  set (band := if (is_str (rig_type2 env) "IC9700" &&
                   negb (String.eqb
                           (get_band env (fmul rnd (flit rnd (1 # 1000000))
                                            (of_int rnd (vfo_reading env))))
                           (get_band env (fmul rnd (flit rnd (1 # 1000000))
                                            (of_int rnd (fdn1 t))))))%bool
               then [select_vfo "X"] else []).
  assert (Hband : existsb is_set_freq band = false /\
                  existsb is_set_position band = false /\
                  existsb is_log_write band = false).
  { subst band.
    destruct (is_str (rig_type2 env) "IC9700" && negb _)%bool; repeat split; reflexivity. }
  destruct Hband as (Hf1 & Hp1 & Hl1).
  destruct (set_rig_mode_events (mode t) g (tr ++ evs0 ++ band) a b f u d (Some sat) t
              v0 (v1 :: rest)) as (m1 & Hm1 & Hf2 & Hp2 & Hl2).
  rewrite (bind_run _ _ _ _ _ Hm1).
  rewrite Hidx. unfold bind at 1. unfold ret at 1.
  assert (Hcb : exists m2,
             (if Nat.eqb idx shown then ret tt else ModeSelect idx)
               (mkWorld g (mkCtrl a b f u d (Some sat) (Some t) (Some (v0 :: v1 :: rest)))
                  ((tr ++ evs0 ++ band) ++ m1)) =
             (Ok tt,
              mkWorld g (mkCtrl a b f u d (Some sat) (Some t) (Some (v0 :: v1 :: rest)))
                (((tr ++ evs0 ++ band) ++ m1) ++ m2)) /\
             existsb is_set_freq m2 = false /\ existsb is_set_position m2 = false /\
             existsb is_log_write m2 = false).
  { destruct (Nat.eqb idx shown).
    - exists []. rewrite app_nil_r. repeat split; reflexivity.
    - unfold ModeSelect, index. rewrite (index_of_nth _ _ _ Hidx).
      unfold bind at 1. unfold ret at 1.
      apply set_rig_mode_events. }
  destruct Hcb as (m2 & Hm2 & Hf3 & Hp3 & Hl3).
  rewrite (bind_run _ _ _ _ _ Hm2).
  assert (Hset : forall tr',
             set_fdown fc
               (mkWorld g (mkCtrl a b f u d (Some sat) (Some t) (Some (v0 :: v1 :: rest))) tr') =
             (Ok tt,
              mkWorld g (mkCtrl a b (Some fc) u d (Some sat) (Some t)
                           (Some (v0 :: v1 :: rest))) tr')) by reflexivity.
  fold fc. rewrite (bind_run _ _ _ _ _ (Hset _)).
  pose proof (track_freqs_f64_body rnd env false g (((tr ++ evs0 ++ band) ++ m1) ++ m2)
                a b u d fc sat t v0 (v1 :: rest) p0 Htgt) as Hrun.
  cbv zeta in Hrun.
  fold az el df up d1 d2 FA FB khz send new_pos pos daz de moved in Hrun.
  rewrite (bind_run _ _ _ _ _ Hrun).
  assert (Hnss : forall c trc,
             set_New_Sat_Selection false (mkWorld g c trc) =
             (Ok tt,
              mkWorld (mkGui (Selected g) false (rig_engaged g) (flipper g) (rit g) (xit g)
                         (track_az g) (aos g) (los g) (Satellites g)) c trc))
    by reflexivity.
  rewrite Hnss.
  match goal with
  | |- context [update_aos_los_f64 rnd env (mkWorld ?g' ?c ?trc)] =>
      destruct (update_aos_los_f64_run rnd env g' c trc) as (e9 & H9)
  end.
  exists ((evs0 ++ band) ++ m1 ++ m2)%list, e9.
  split.
  { rewrite H9. f_equal. f_equal. rewrite <- !app_assoc. reflexivity. }
  rewrite !existsb_app, Hf0, Hf1, Hf2, Hf3, Hp0, Hp1, Hp2, Hp3, Hl0, Hl1, Hl2, Hl3.
  repeat split; reflexivity.
Qed.

(** C8, as the code has it.  While a satellite is selected and the loop is
    disengaged, a timer tick runs the per-tick computation only as long as
    no reference downlink frequency has been set.  Once one is set, the
    tick refreshes the AOS/LOS indicator and does nothing else: it leaves
    the controller and the GUI state as they are and writes no log record.
    While none is set, the tick of a newly selected satellite runs the
    acquisition: on a rig with two VFOs it returns, having set the
    reference downlink to the centre of the passband, computed the Doppler
    shift, the commanded downlink and the rotor target and written the log
    record, and it writes neither a frequency nor a rotor position.  A call
    of [track_freqs] made while disengaged and not forced computes the
    frequencies and the rotor target and logs them, and writes neither a
    frequency nor a rotor position. *)
Theorem disengaged_tick (rnd : Q -> Q) (shown : nat) (env : tick_env)
  (g : gui_state) (c : rig_control) (tr : list event) :
  rig_engaged g = false -> truthy (Selected g) = true ->
  (fdown c <> None ->
   exists e,
     Updater_f64 rnd shown env (mkWorld g c tr) =
     (Ok tt, mkWorld g c (tr ++ [txt9 e]))) /\
  (forall (sel mn : string) (sat : SATELLITE) (items : gmap string pyval)
          (t : Transp) (v0 v1 : string) (rest : list string) (evs0 : list event)
          (idx : nat) (p0 : Q * Q),
      fdown c = None -> New_Sat_Selection g = true ->
      Selected g = Some sel ->
      od_get (Satellites g) sel = Ok sat ->
      sat_main sat = Some mn ->
      od_get (sat_transponders sat) mn = Ok items ->
      transp_of_items items = Some t ->
      rig_setup (rig_type2 env) = Some (v0 :: v1 :: rest, evs0) ->
      index_of (mode t) MODES = Some idx ->
      target_of env g = Some p0 ->
      let fc := fmul rnd (flit rnd (1 # 2)) (of_int rnd (fdn1 t + fdn2 t)) in
      let d1 := fmul rnd (fmul rnd (flit rnd (1 # 100000000)) (doppler (obs env))) fc in
      exists w' evs row e9,
        Updater_f64 rnd shown env (mkWorld g c tr) = (Ok tt, w') /\
        w_trace w' = (tr ++ evs ++ [log_write row; txt9 e9])%list /\
        existsb is_set_freq evs = false /\
        existsb is_set_position evs = false /\
        existsb is_log_write evs = false /\
        fdown (w_ctrl w') = Some fc /\
        fdop1 (w_ctrl w') = Some d1 /\
        frqA (w_ctrl w') =
          int_of_float (fadd rnd (fadd rnd fc d1) (of_int rnd (rit g))) /\
        row_fdown row = fc /\ row_fdop1 row = d1 /\
        row_frqA row = frqA (w_ctrl w') /\
        Some (row_frqB row) = frqB (w_ctrl w') /\
        row_new_pos row = (if flipper g then flip_pos_f64 rnd p0 else p0) /\
        row_engaged row = false /\ row_rotor_updated row = false /\
        rig_engaged (w_gui w') = false /\
        New_Sat_Selection (w_gui w') = false) /\
  (forall (a : Z) (b : option Z) (u d : option Q) (f : Q) (s : SATELLITE)
          (t : Transp) (v0 v1 : string) (rest : list string) (p0 : Q * Q),
      c = mkCtrl a b (Some f) u d (Some s) (Some t) (Some (v0 :: v1 :: rest)) ->
      target_of env g = Some p0 ->
      let d1 := fmul rnd (fmul rnd (flit rnd (1 # 100000000)) (doppler (obs env))) f in
      exists w' row,
        track_freqs_f64 rnd env false (mkWorld g c tr) = (Ok tt, w') /\
        w_trace w' =
          (tr ++ [recorder (Qgtb (elevation (obs env)) 0); log_write row])%list /\
        row_frqA row = frqA (w_ctrl w') /\
        row_frqA row =
          int_of_float (fadd rnd (fadd rnd f d1) (of_int rnd (rit g))) /\
        row_new_pos row = (if flipper g then flip_pos_f64 rnd p0 else p0) /\
        row_engaged row = false /\ row_rotor_updated row = false).
Proof.
  intros He Hs. split; [|split].
  - intros Hf. rewrite Updater_f64_idle; [apply update_aos_los_f64_run|].
    rewrite He. destruct (fdown c); [reflexivity | contradiction].
  - intros sel mn sat items t v0 v1 rest evs0 idx p0 Hf Hnew Hsel Hsat Hmain Hitems Ht
      Hrig Hidx Htgt fc d1.
    destruct c as [a b f u d s0 t0 vs0]. cbn [fdown] in Hf. subst f.
    assert (Hne : sel <> "").
    { intros ->. rewrite Hsel in Hs. discriminate Hs. }
    destruct (Updater_f64_acquisition rnd shown env g tr a b None u d s0 t0 vs0 sel mn sat
                items t v0 v1 rest evs0 idx p0 Hsel Hne Hnew)
      as (pre & e9 & Hrun & Hf1 & Hp1 & Hl1); try assumption.
    { rewrite He. reflexivity. }
    cbv zeta in Hrun. rewrite He in Hrun. cbn [orb] in Hrun.
    rewrite andb_false_r in Hrun. cbn [app] in Hrun.
    eexists. eexists. eexists. exists e9. split; [exact Hrun|].
    cbn [w_trace w_ctrl w_gui fdown fdop1 frqA frqB rig_engaged New_Sat_Selection
         row_fdown row_fdop1 row_frqA row_frqB row_new_pos row_engaged row_rotor_updated].
    split; [reflexivity|].
    rewrite !existsb_app, Hf1, Hp1, Hl1.
    repeat split; reflexivity.
  - intros a b u d f s t v0 v1 rest p0 -> Htgt d1.
    pose proof (track_freqs_f64_body rnd env false g tr a b u d f s t v0 (v1 :: rest) p0
                  Htgt) as Hrun.
    cbv zeta in Hrun. rewrite He in Hrun. cbn [orb] in Hrun.
    rewrite andb_false_r in Hrun. cbn [app] in Hrun.
    eexists. eexists. split; [exact Hrun|]. cbn [w_trace w_ctrl frqA].
    repeat split; reflexivity.
Qed.

Lemma disengaged_tick_witness :
  let env := ex_env (-1234) 0 (180, 20) in
  let g := mkGui (Some "FO-29") true false false 0 0 [190; 200] 1000 2000
             [("FO-29", ex_sat)] in
  (exists w' evs row e9,
     Updater_f64 binary64 0 env (mkWorld g ctrl_init []) = (Ok tt, w') /\
     w_trace w' = ([] ++ evs ++ [log_write row; txt9 e9])%list /\
     existsb is_set_freq evs = false /\ existsb is_set_position evs = false /\
     fdown (w_ctrl w') = Some 435850000 /\
     frqA (w_ctrl w') = 435844621%Z /\ row_frqA row = 435844621%Z /\
     row_new_pos row = (200, 30) /\
     row_engaged row = false /\ row_rotor_updated row = false) /\
  (exists e,
     Updater_f64 binary64 0 (ex_env 0 435855000 (180, 20))
       (mkWorld (ex_gui false 0) (ex_ctrl 435850000 435850000 0) []) =
     (Ok tt,
      mkWorld (ex_gui false 0) (ex_ctrl 435850000 435850000 0) ([] ++ [txt9 e]))).
Proof.
  cbv zeta. split.
  - pose proof (disengaged_tick binary64 0 (ex_env (-1234) 0 (180, 20))
                  (mkGui (Some "FO-29") true false false 0 0 [190; 200] 1000 2000
                     [("FO-29", ex_sat)])
                  ctrl_init [] eq_refl eq_refl) as H.
    destruct H as (_ & Hacq & _).
    specialize (Hacq "FO-29" "Mode V/U (J) Linear Transponder" ex_sat ex_linear_items
                  ex_transp "A" "B" [] [split_mode 1] 0%nat (200, 30)
                  eq_refl eq_refl eq_refl eq_refl).
    specialize (Hacq ltac:(vm_compute; reflexivity)).
    specialize (Hacq ltac:(vm_compute; reflexivity)).
    specialize (Hacq ltac:(vm_compute; reflexivity)).
    specialize (Hacq eq_refl eq_refl eq_refl).
    cbv zeta in Hacq.
    destruct Hacq as (w' & evs & row & e9 & Hrun & Htr & Hf & Hp & _ & Hfd & _ & HA & _ & _ &
                      HrA & _ & Hnp & Hre & Hru & _).
    exists w', evs, row, e9.
    split; [exact Hrun|]. split; [exact Htr|]. split; [exact Hf|]. split; [exact Hp|].
    assert (Hfc : fmul binary64 (flit binary64 (1 # 2))
                    (of_int binary64 (fdn1 ex_transp + fdn2 ex_transp)) = 435850000)
      by (vm_compute; reflexivity).
    assert (HFA : int_of_float
                    (fadd binary64
                       (fadd binary64
                          (fmul binary64 (flit binary64 (1 # 2))
                             (of_int binary64 (fdn1 ex_transp + fdn2 ex_transp)))
                          (fmul binary64
                             (fmul binary64 (flit binary64 (1 # 100000000)) (-1234))
                             (fmul binary64 (flit binary64 (1 # 2))
                                (of_int binary64 (fdn1 ex_transp + fdn2 ex_transp)))))
                       (of_int binary64 0)) = 435844621%Z)
      by (vm_compute; reflexivity).
    split; [rewrite Hfd; f_equal; exact Hfc|].
    split; [rewrite HA; exact HFA|].
    split; [rewrite HrA, HA; exact HFA|].
    split; [exact Hnp|]. split; [exact Hre | exact Hru].
  - destruct (disengaged_tick binary64 0 (ex_env 0 435855000 (180, 20)) (ex_gui false 0)
                (ex_ctrl 435850000 435850000 0) [] eq_refl eq_refl) as (Hidle & _ & _).
    apply Hidle. discriminate.
Defined.

(** C8 as stated fails: with the loop disengaged after an acquisition and
    the dial moved to 435855000 Hz, a tick leaves the reference downlink
    at 435850000 Hz and writes only the AOS/LOS indicator, with no log
    record; the same tick of the engaged loop rebases the reference
    downlink and writes a log record. *)
Lemma disengaged_tick_computes_nothing :
  let env := ex_env 0 435855000 (180, 20) in
  let idle := mkWorld (ex_gui false 0) (ex_ctrl 435850000 435850000 0) [] in
  let engaged := mkWorld (ex_gui true 0) (ex_ctrl 435850000 435850000 0) [] in
  (Updater_f64 binary64 0 env idle =
   (Ok tt,
    mkWorld (ex_gui false 0) (ex_ctrl 435850000 435850000 0)
      [txt9 (LOS_in (fsub binary64 2000 1500))]) /\
   fdown (w_ctrl (snd (Updater_f64 binary64 0 env idle))) = Some 435850000 /\
   existsb is_log_write (w_trace (snd (Updater_f64 binary64 0 env idle))) = false) /\
  (fst (Updater_f64 binary64 0 env engaged) = Ok tt /\
   fdown (w_ctrl (snd (Updater_f64 binary64 0 env engaged))) = Some 435855000 /\
   existsb is_log_write (w_trace (snd (Updater_f64 binary64 0 env engaged))) = true).
Proof. vm_compute. repeat split; reflexivity. Qed.
